(** * Eradiate: discrete canopy generation and instancing

    A shallow embedding of [eradiate/scenes/biosphere/_discrete.py]:
    the random placement samplers, the collision-avoidance placer, the
    parameter resolution classes, the leaf cloud entity with its
    constructors, the instancing layer and the canopy padding.

    Numeric conventions.  Python and NumPy floats are represented by real
    numbers ([R]): rounding is not part of the model, and an equation
    between floats is read as the equation between the reals they
    approximate.  The quotient [0.0 / 0.0] that the inverse-beta sampler
    can evaluate is the outcome [NotANumber]; the power that leads to it
    is the float64 one, given by the environment, which underflows to
    [0.0] and overflows to [inf].  Python integers are [Z].  A [pint]
    quantity is represented by its magnitude in the configured length
    unit; what is kept of the unit machinery is the difference between a
    quantity and a bare number, which the strict unit wrapper
    [ureg.wraps] tests.

    Arrays and objects.  An array of positions is an (n, 3) array or the
    array of shape (0,) that [np.array([])] is.  The element objects of
    a canopy are kept in a store with the references that the canopy
    lists, for the one method, [padded], that updates them in place. *)

From Stdlib Require Import String Ascii Reals Lra Lia ZArith Bool Arith List.
Import ListNotations.
Open Scope R_scope.

(** ** Exceptions and outcomes *)

(** The messages of the exceptions raised by the module, kept structured
    so that the data interpolated in a message (a line number, a field
    name) can be inspected. *)
Inductive message : Type :=
| msg_too_dense
    (* "unable to place all leaves: the specified canopy might be too dense" *)
| msg_cannot_compute_field (field : string)
    (* "cannot compute field '...', parameter set is likely under-constrained" *)
| msg_filename_required
| msg_line_not_3_vector (i_line_plus_1 : nat) (line : string)
    (* "while reading ..., on line N: cannot convert ... to a 3-vector!" *)
| msg_could_not_convert_to_float (token : string)
    (* the message of float(): "could not convert string to float: ..." *)
| msg_shapes_do_not_match (xyz_shape positions_shape : list nat)
    (* "shapes xyz ... and self.leaf_positions ... do not match" *)
| msg_could_not_be_broadcast (shape_1 shape_2 : list nat)
    (* numpy: "operands could not be broadcast together with shapes ..." *)
| msg_shape_should_be_N_3
| msg_same_length (n_positions n_orientations n_radii : nat)
| msg_not_positive
| msg_padding_negative
| msg_wraps_requires_quantity
    (* pint: "A wrapped function using strict=True requires quantity ..." *)
| msg_limits_not_lower_upper
    (* aabbtree: "Limits not in (lower, upper) format" *)
| msg_negative_dimensions
| msg_not_an_integer
| msg_unsupported_operand.

Inductive exception : Type :=
| ValueError (m : message)
| TypeError (m : message)
| RuntimeError (m : message)
| IndexError
| ZeroDivisionError
| RecursionError
| FileNotFoundError
| Exception (m : message).

(** What a call does: it returns a value, raises, or is still running when
    the fuel given to an unbounded loop is spent.  [NotANumber]: a
    floating-point operation of the call has evaluated to NaN.  NumPy
    raises nothing there: the call goes on with the NaN and with what is
    computed from it, which the real numbers of this model cannot hold,
    so that the model follows the call no further. *)
Inductive outcome (A : Type) : Type :=
| Returns (a : A)
| Raises (e : exception)
| OutOfFuel
| NotANumber.

Arguments Returns {A} a.
Arguments Raises {A} e.
Arguments OutOfFuel {A}.
Arguments NotANumber {A}.

Definition bind {A B : Type} (c : outcome A) (k : A -> outcome B) : outcome B :=
  match c with
  | Returns a => k a
  | Raises e => Raises e
  | OutOfFuel => OutOfFuel
  | NotANumber => NotANumber
  end.

Declare Scope outcome_scope.
Delimit Scope outcome_scope with outcome.
Notation "x <- c ;; k" := (bind c (fun x => k))
  (at level 61, c at next level, right associativity) : outcome_scope.
Notation "' p <- c ;; k" := (bind c (fun p => k))
  (at level 61, p pattern, c at next level, right associativity) : outcome_scope.
Open Scope outcome_scope.

(** ** Numbers, vectors and dynamically typed arguments *)

Definition Rltb (x y : R) : bool := if Rlt_dec x y then true else false.
Definition Rleb (x y : R) : bool := if Rle_dec x y then true else false.
Definition Reqb (x y : R) : bool := if Req_dec_T x y then true else false.

(** A row of an (n, 3) array. *)
Definition vec3 : Type := (R * R * R)%type.

Definition vec3_add (p v : vec3) : vec3 :=
  let '(x, y, z) := p in
  let '(a, b, c) := v in
  (x + a, y + b, z + c).

(** The arrays of positions.  The module documents them as (n, 3)
    arrays and builds them so, with one exception: [np.array([])], which
    is what a field left to its default [[]] and a definition file
    without lines give, has the shape (0,).  A list of rows given where
    an array is expected is converted to the array of these rows, as the
    converter of the field does. *)
Inductive array3 : Type :=
| flat_empty                   (* the array of shape (0,) *)
| rows3 (rows : list vec3).    (* the array of shape (n, 3) *)

(** The rows that indexing and [len] see. *)
Definition rows_of (a : array3) : list vec3 :=
  match a with
  | flat_empty => []
  | rows3 rows => rows
  end.

Coercion rows_of : array3 >-> list.
#[warning="-uniform-inheritance,-ambiguous-paths"] Coercion rows3 : list >-> array3.

(** [a.shape] *)
Definition shape (a : array3) : list nat :=
  match a with
  | flat_empty => [0%nat]
  | rows3 rows => [List.length rows; 3%nat]
  end.

(** [np.array(rows)] on a Python list of rows of three numbers. *)
Definition np_array (rows : list vec3) : array3 :=
  match rows with
  | [] => flat_empty
  | _ :: _ => rows3 rows
  end.

(** [a + v] for a row [v] of shape (1, 3): broadcasting adds [v] to
    every row of an (n, 3) array and refuses the shape (0,). *)
Definition add_row (a : array3) (v : vec3) : outcome array3 :=
  match a with
  | flat_empty =>
      Raises (ValueError (msg_could_not_be_broadcast [0%nat] [1%nat; 3%nat]))
  | rows3 rows => Returns (rows3 (map (fun p => vec3_add p v) rows))
  end.

(** A float64 that is not NaN: a number or [inf]. *)
Inductive extended : Type :=
| finite (x : R)
| infinite.

(** The values that reach the samplers through keyword arguments. *)
Inductive pyobj : Type :=
| PyNone
| PyInt (n : Z)
| PyFloat (x : R)
| PyQuantity (magnitude : R).

(** [ureg.wraps(..., strict=True)] on an argument declared with a unit:
    a quantity is replaced by its magnitude, anything else is refused. *)
Definition wraps_arg (v : pyobj) : outcome R :=
  match v with
  | PyQuantity m => Returns m
  | _ => Raises (ValueError msg_wraps_requires_quantity)
  end.

(** [np.empty((n, 3))] followed by [range(n)]: the number of rows. *)
Definition np_empty_rows (n : pyobj) : outcome nat :=
  match n with
  | PyInt k =>
      if (k <? 0)%Z then Raises (ValueError msg_negative_dimensions)
      else Returns (Z.to_nat k)
  | _ => Raises (TypeError msg_not_an_integer)
  end.

(** ** The pseudo-random generator

    A [numpy.random.Generator] is a mutable object shared by the calls it
    is passed to.  Its state is a cursor in the sequence of doubles of
    [[0, 1)] that the seed determines. *)
Record Generator : Type := mkGenerator {
  draws : nat -> R;
  cursor : nat
}.

Definition advance (k : nat) (rng : Generator) : Generator :=
  mkGenerator (draws rng) (cursor rng + k).

(** [rng.random()] *)
Definition random (rng : Generator) : R * Generator :=
  (draws rng (cursor rng), advance 1 rng).

(** [rng.random(2)] *)
Definition random2 (rng : Generator) : (R * R) * Generator :=
  ((draws rng (cursor rng), draws rng (cursor rng + 1)%nat), advance 2 rng).

(** [rng.random(3)] *)
Definition random3 (rng : Generator) : vec3 * Generator :=
  ((draws rng (cursor rng), draws rng (cursor rng + 1)%nat,
    draws rng (cursor rng + 2)%nat), advance 3 rng).

(** ** The bounding-volume tree of the [aabbtree] package

    The package is an external dependency.  Its documented behaviour is:
    [AABB(limits)] refuses a dimension whose lower limit exceeds the upper
    one; [a.overlaps(b)] (default [closed=False]) holds when in every
    dimension [min1 < max2] and [min2 < max1]; [tree.does_overlap(b)] holds
    when a box added to the tree overlaps [b].  The tree is represented by
    the boxes added to it. *)
Module aabbtree.

Definition AABB : Type := list (R * R).

Definition AABB_init (limits : list (R * R)) : outcome AABB :=
  if existsb (fun lims => Rltb (snd lims) (fst lims)) limits
  then Raises (ValueError msg_limits_not_lower_upper)
  else Returns limits.

Fixpoint overlaps (a b : AABB) : bool :=
  match a, b with
  | (min1, max1) :: a', (min2, max2) :: b' =>
      if Rltb min1 max2 && Rltb min2 max1 then overlaps a' b' else false
  | _, _ => true
  end.

Definition AABBTree : Type := list AABB.

Definition empty : AABBTree := [].

Definition add (tree : AABBTree) (aabb : AABB) : AABBTree := aabb :: tree.

Definition does_overlap (tree : AABBTree) (aabb : AABB) : bool :=
  existsb (fun leaf => overlaps leaf aabb) tree.

End aabbtree.

(** ** Random placement samplers *)

(** The three coordinates drawn for a cuboid of square footprint. *)
Definition cuboid_point (l_horizontal l_vertical : R) (rand : vec3) : vec3 :=
  let '(rand0, rand1, rand2) := rand in
  (rand0 * l_horizontal - 0.5 * l_horizontal,
   rand1 * l_horizontal - 0.5 * l_horizontal,
   rand2 * l_vertical).

Fixpoint cuboid_loop (n : nat) (l_horizontal l_vertical : R) (rng : Generator)
  : list vec3 * Generator :=
  match n with
  | O => ([], rng)
  | S k =>
      let '(rand, rng1) := random3 rng in
      let '(rest, rng2) := cuboid_loop k l_horizontal l_vertical rng1 in
      (cuboid_point l_horizontal l_vertical rand :: rest, rng2)
  end.

Definition _leaf_cloud_positions_cuboid
  (n_leaves l_horizontal l_vertical : pyobj) (rng : Generator)
  : outcome (list vec3 * Generator) :=
  l_horizontal <- wraps_arg l_horizontal ;;
  l_vertical <- wraps_arg l_vertical ;;
  n <- np_empty_rows n_leaves ;;
  Returns (cuboid_loop n l_horizontal l_vertical rng).

(** The limits handed to [aabbtree.AABB] for a candidate position. *)
Definition leaf_limits (leaf_radius : R) (pos : vec3) : list (R * R) :=
  let '(x, y, z) := pos in
  [ (x - leaf_radius, x + leaf_radius);
    (y - leaf_radius, y + leaf_radius);
    (z - leaf_radius, z + leaf_radius) ].

(** The state of the placement loop. *)
Record placer : Type := mkPlacer {
  positions : list vec3;
  tree : aabbtree.AABBTree;
  placer_rng : Generator
}.

(** [for j in range(n_attempts): ...] for leaf [i].  [None] is the loop
    running to its end without [break], which enters the [else] clause. *)
Fixpoint attempt_loop (i : nat) (attempts : nat)
  (l_horizontal l_vertical leaf_radius : R)
  (tree : aabbtree.AABBTree) (rng : Generator)
  : outcome (option (vec3 * aabbtree.AABB) * Generator) :=
  match attempts with
  | O => Returns (None, rng)
  | S k =>
      let '(rand, rng1) := random3 rng in
      let pos_candidate := cuboid_point l_horizontal l_vertical rand in
      aabb <- aabbtree.AABB_init (leaf_limits leaf_radius pos_candidate) ;;
      if (i =? 0)%nat then Returns (Some (pos_candidate, aabb), rng1)
      else if negb (aabbtree.does_overlap tree aabb)
           then Returns (Some (pos_candidate, aabb), rng1)
           else attempt_loop i k l_horizontal l_vertical leaf_radius tree rng1
  end.

(** One iteration of [for i in range(n_leaves)]. *)
Definition place_leaf (i : nat) (n_attempts : Z)
  (l_horizontal l_vertical leaf_radius : R) (st : placer) : outcome placer :=
  '(found, rng1) <- attempt_loop i (Z.to_nat n_attempts)
                      l_horizontal l_vertical leaf_radius
                      (tree st) (placer_rng st) ;;
  match found with
  | Some (pos, aabb) =>
      Returns (mkPlacer (positions st ++ [pos])
                        (aabbtree.add (tree st) aabb) rng1)
  | None => Raises (RuntimeError msg_too_dense)
  end.

(** The iterations [i, i + 1, ..., i + count - 1]. *)
Fixpoint place_leaves (count i : nat) (n_attempts : Z)
  (l_horizontal l_vertical leaf_radius : R) (st : placer) : outcome placer :=
  match count with
  | O => Returns st
  | S k =>
      st1 <- place_leaf i n_attempts l_horizontal l_vertical leaf_radius st ;;
      place_leaves k (S i) n_attempts l_horizontal l_vertical leaf_radius st1
  end.

Definition _leaf_cloud_positions_cuboid_avoid_overlap
  (n_leaves l_horizontal l_vertical leaf_radius : pyobj)
  (n_attempts : Z) (rng : Generator) : outcome (list vec3 * Generator) :=
  l_horizontal <- wraps_arg l_horizontal ;;
  l_vertical <- wraps_arg l_vertical ;;
  leaf_radius <- wraps_arg leaf_radius ;;
  n <- np_empty_rows n_leaves ;;
  st <- place_leaves n 0 n_attempts l_horizontal l_vertical leaf_radius
          (mkPlacer [] aabbtree.empty rng) ;;
  Returns (positions st, placer_rng st).

(** Python float division: a zero divisor raises. *)
Definition py_div (x y : R) : outcome R :=
  if Reqb y 0 then Raises ZeroDivisionError else Returns (x / y).

(** [np.power(x, y)] and [x ** y] on a draw [x] of [[0, 1)]. *)
Definition np_power (x y : R) : R :=
  if Reqb x 0 then (if Reqb y 0 then 1 else 0) else Rpower x y.

Definition sphere_point (radius : R) (rand : vec3) : vec3 :=
  let '(rand0, rand1, rand2) := rand in
  let theta := rand0 * PI in
  let phi := rand1 * 2 * PI in
  let r := rand2 * radius in
  (r * sin theta * cos phi, r * sin theta * sin phi, r * cos theta).

Fixpoint sphere_loop (n : nat) (radius : R) (rng : Generator)
  : list vec3 * Generator :=
  match n with
  | O => ([], rng)
  | S k =>
      let '(rand, rng1) := random3 rng in
      let '(rest, rng2) := sphere_loop k radius rng1 in
      (sphere_point radius rand :: rest, rng2)
  end.

Definition _leaf_cloud_positions_sphere (n_leaves radius : pyobj)
  (rng : Generator) : outcome (list vec3 * Generator) :=
  radius <- wraps_arg radius ;;
  n <- np_empty_rows n_leaves ;;
  Returns (sphere_loop n radius rng).

Definition cylinder_point (radius l_vertical : R) (rand : vec3) : vec3 :=
  let '(rand0, rand1, rand2) := rand in
  let phi := rand0 * 2 * PI in
  let r := rand1 * radius in
  let z := rand2 * l_vertical in
  (r * cos phi, r * sin phi, z).

Fixpoint cylinder_loop (n : nat) (radius l_vertical : R) (rng : Generator)
  : list vec3 * Generator :=
  match n with
  | O => ([], rng)
  | S k =>
      let '(rand, rng1) := random3 rng in
      let '(rest, rng2) := cylinder_loop k radius l_vertical rng1 in
      (cylinder_point radius l_vertical rand :: rest, rng2)
  end.

Definition _leaf_cloud_positions_cylinder (n_leaves radius l_vertical : pyobj)
  (rng : Generator) : outcome (list vec3 * Generator) :=
  radius <- wraps_arg radius ;;
  l_vertical <- wraps_arg l_vertical ;;
  n <- np_empty_rows n_leaves ;;
  Returns (cylinder_loop n radius l_vertical rng).

Definition cone_point (radius l_vertical : R) (rand : vec3) : outcome vec3 :=
  let '(rand0, rand1, rand2) := rand in
  let h := l_vertical * np_power rand0 (1 / 3) in
  slope <- py_div radius l_vertical ;;
  let r := slope * h * sqrt rand1 in
  let phi := rand2 * 2 * PI in
  Returns (r * cos phi, r * sin phi, l_vertical - h).

Fixpoint cone_loop (n : nat) (radius l_vertical : R) (rng : Generator)
  : outcome (list vec3 * Generator) :=
  match n with
  | O => Returns ([], rng)
  | S k =>
      let '(rand, rng1) := random3 rng in
      p <- cone_point radius l_vertical rand ;;
      '(rest, rng2) <- cone_loop k radius l_vertical rng1 ;;
      Returns (p :: rest, rng2)
  end.

Definition _leaf_cloud_positions_cone (n_leaves radius l_vertical : pyobj)
  (rng : Generator) : outcome (list vec3 * Generator) :=
  radius <- wraps_arg radius ;;
  l_vertical <- wraps_arg l_vertical ;;
  n <- np_empty_rows n_leaves ;;
  cone_loop n radius l_vertical rng.

(** ** The interpreter and the packages around the module

    What the module calls and does not define: the generator built from a
    seed, the validator [eradiate.validators.is_positive], the builtin
    [float] on a token ([None] when it raises [ValueError]), the lines of
    the file at a path ([None] when [os.path.isfile] fails), the depth
    of nested calls the interpreter still allows, and [np.power] on
    float64 numbers, whose result on a draw of [[0, 1)] is [0.0] not only
    for the base [0.0] but wherever the power underflows, and [inf]
    where it overflows or divides by zero. *)
Record environment : Type := mkEnvironment {
  default_rng : Z -> Generator;
  is_positive : R -> bool;
  py_float : string -> option R;
  read_lines : string -> option (list string);
  recursion_limit : nat;
  float_power : R -> R -> extended
}.

(** ** Orientation sampler *)

(** [while True: ...], unrolled [fuel] times.  A power that is [inf]
    makes the sum [inf], which is not [<= 1].  When both powers are
    [0.0] the sum is [0.0] and [s1 / s] is [0.0 / 0.0]: NumPy evaluates
    it to NaN and the function returns that NaN. *)
Fixpoint _inversebeta (env : environment) (fuel : nat) (mu nu : R)
  (rng : Generator) : outcome (R * Generator) :=
  match fuel with
  | O => OutOfFuel
  | S k =>
      let '((rands0, rands1), rng1) := random2 rng in
      inv_mu <- py_div 1 mu ;;
      let s1 := float_power env rands0 inv_mu in
      inv_nu <- py_div 1 nu ;;
      let s2 := float_power env rands1 inv_nu in
      match s1, s2 with
      | finite s1, finite s2 =>
          let s := s1 + s2 in
          if Rleb s 1 then
            if Reqb s 0 then NotANumber else Returns (s1 / s, rng1)
          else _inversebeta env k mu nu rng1
      | _, _ => _inversebeta env k mu nu rng1
      end
  end.

Definition rad2deg (x : R) : R := x * (180 / PI).

(** The row written for the angles [theta] and [phi]. *)
Definition orientation (theta phi : R) : vec3 :=
  (sin theta * cos phi, sin theta * sin phi, cos theta).

Fixpoint orientations_loop (env : environment) (fuel : nat) (n : nat)
  (mu nu : R) (rng : Generator) : outcome (list vec3 * Generator) :=
  match n with
  | O => Returns ([], rng)
  | S k =>
      '(x, rng1) <- _inversebeta env fuel mu nu rng ;;
      let theta := rad2deg x in
      let '(u, rng2) := random rng1 in
      let phi := u * 360 in
      '(rest, rng3) <- orientations_loop env fuel k mu nu rng2 ;;
      Returns (orientation theta phi :: rest, rng3)
  end.

Definition _leaf_cloud_orientations (env : environment) (fuel : nat)
  (n_leaves : pyobj) (mu nu : R) (rng : Generator)
  : outcome (list vec3 * Generator) :=
  n <- np_empty_rows n_leaves ;;
  orientations_loop env fuel n mu nu rng.

(** [np.full((n_leaves,), leaf_radius)] *)
Definition _leaf_cloud_radii (n_leaves leaf_radius : pyobj) : outcome (list R) :=
  leaf_radius <- wraps_arg leaf_radius ;;
  n <- np_empty_rows n_leaves ;;
  Returns (repeat leaf_radius n).

(** ** Helpers of the parameter classes *)

(** [int(x)] on a float: truncation towards zero. *)
Definition py_int (x : R) : Z := if Rleb 0 x then Zfloor x else Zceil x.

(** An operand that is [None] where a number is needed. *)
Definition operand (v : option R) : outcome R :=
  match v with
  | Some x => Returns x
  | None => Raises (TypeError msg_unsupported_operand)
  end.

Definition int_arg (v : option Z) : pyobj :=
  match v with Some n => PyInt n | None => PyNone end.

Definition quantity_arg (v : option R) : pyobj :=
  match v with Some x => PyQuantity x | None => PyNone end.

(** [update]: an exception met while reading [field] is replaced. *)
Definition reading {A : Type} (field : string) (c : outcome A) : outcome A :=
  match c with
  | Raises _ => Raises (Exception (msg_cannot_compute_field field))
  | _ => c
  end.

(** ** Parameter resolution for the cuboid generator *)
Module CuboidLeafCloudParams.

Record t : Type := mk {
  _id : string;
  _leaf_reflectance : R;
  _leaf_transmittance : R;
  _mu : R;
  _nu : R;
  _n_leaves : option Z;
  _leaf_radius : option R;
  _l_horizontal : option R;
  _l_vertical : option R;
  _lai : option R;
  _hdo : option R;
  _hvr : option R
}.

Definition set_n_leaves (self : t) (v : Z) : t :=
  mk (_id self) (_leaf_reflectance self) (_leaf_transmittance self)
     (_mu self) (_nu self) (Some v) (_leaf_radius self)
     (_l_horizontal self) (_l_vertical self) (_lai self)
     (_hdo self) (_hvr self).

Definition set_leaf_radius (self : t) (v : R) : t :=
  mk (_id self) (_leaf_reflectance self) (_leaf_transmittance self)
     (_mu self) (_nu self) (_n_leaves self) (Some v)
     (_l_horizontal self) (_l_vertical self) (_lai self)
     (_hdo self) (_hvr self).

Definition set_l_horizontal (self : t) (v : R) : t :=
  mk (_id self) (_leaf_reflectance self) (_leaf_transmittance self)
     (_mu self) (_nu self) (_n_leaves self) (_leaf_radius self)
     (Some v) (_l_vertical self) (_lai self)
     (_hdo self) (_hvr self).

Definition set_l_vertical (self : t) (v : R) : t :=
  mk (_id self) (_leaf_reflectance self) (_leaf_transmittance self)
     (_mu self) (_nu self) (_n_leaves self) (_leaf_radius self)
     (_l_horizontal self) (Some v) (_lai self)
     (_hdo self) (_hvr self).

Definition set_lai (self : t) (v : R) : t :=
  mk (_id self) (_leaf_reflectance self) (_leaf_transmittance self)
     (_mu self) (_nu self) (_n_leaves self) (_leaf_radius self)
     (_l_horizontal self) (_l_vertical self) (Some v)
     (_hdo self) (_hvr self).

(** The object with a field taken out of the keyword arguments. *)
Definition without_lai (self : t) : t :=
  mk (_id self) (_leaf_reflectance self) (_leaf_transmittance self)
     (_mu self) (_nu self) (_n_leaves self) (_leaf_radius self)
     (_l_horizontal self) (_l_vertical self) None
     (_hdo self) (_hvr self).

Definition without_n_leaves (self : t) : t :=
  mk (_id self) (_leaf_reflectance self) (_leaf_transmittance self)
     (_mu self) (_nu self) None (_leaf_radius self)
     (_l_horizontal self) (_l_vertical self) (_lai self)
     (_hdo self) (_hvr self).

(** The properties.  Each one returns the stored value when there is
    one; otherwise it reads the properties its formula names, in the
    order Python evaluates them, stores the result and returns it.
    [depth] bounds the nesting of property calls: a cycle among unset
    fields ends in [RecursionError]. *)
Fixpoint n_leaves (depth : nat) (self : t) {struct depth} : outcome (Z * t) :=
  match _n_leaves self with
  | Some v => Returns (v, self)
  | None =>
      match depth with
      | O => Raises RecursionError
      | S d =>
          '(lai_, s1) <- lai d self ;;
          '(lh, s2) <- l_horizontal d s1 ;;
          '(r, s3) <- leaf_radius d s2 ;;
          q <- py_div lh r ;;
          let v := py_int (lai_ * q ^ 2 / PI) in
          Returns (v, set_n_leaves s3 v)
      end
  end
with lai (depth : nat) (self : t) {struct depth} : outcome (R * t) :=
  match _lai self with
  | Some v => Returns (v, self)
  | None =>
      match depth with
      | O => Raises RecursionError
      | S d =>
          '(r, s1) <- leaf_radius d self ;;
          '(lh, s2) <- l_horizontal d s1 ;;
          q <- py_div r lh ;;
          '(n, s3) <- n_leaves d s2 ;;
          let v := PI * q ^ 2 * IZR n in
          Returns (v, set_lai s3 v)
      end
  end
with leaf_radius (depth : nat) (self : t) {struct depth} : outcome (R * t) :=
  match _leaf_radius self with
  | Some v => Returns (v, self)
  | None =>
      match depth with
      | O => Raises RecursionError
      | S d =>
          '(lai_, s1) <- lai d self ;;
          '(n, s2) <- n_leaves d s1 ;;
          q <- py_div lai_ (IZR n * PI) ;;
          '(lh, s3) <- l_horizontal d s2 ;;
          let v := sqrt q * lh in
          Returns (v, set_leaf_radius s3 v)
      end
  end
with l_horizontal (depth : nat) (self : t) {struct depth} : outcome (R * t) :=
  match _l_horizontal self with
  | Some v => Returns (v, self)
  | None =>
      match depth with
      | O => Raises RecursionError
      | S d =>
          '(r, s1) <- leaf_radius d self ;;
          '(n, s2) <- n_leaves d s1 ;;
          '(lai_, s3) <- lai d s2 ;;
          v <- py_div (PI * r ^ 2 * IZR n) lai_ ;;
          Returns (v, set_l_horizontal s3 v)
      end
  end.

Definition hdo (self : t) : option R := _hdo self.
Definition hvr (self : t) : option R := _hvr self.

Definition l_vertical (depth : nat) (self : t) : outcome (R * t) :=
  match _l_vertical self with
  | Some v => Returns (v, self)
  | None =>
      match depth with
      | O => Raises RecursionError
      | S d =>
          '(lai_, s1) <- lai d self ;;
          hdo_ <- operand (hdo s1) ;;
          '(r, s2) <- leaf_radius d s1 ;;
          hvr_ <- operand (hvr s2) ;;
          v <- py_div (lai_ * hdo_ ^ 3) (PI * r ^ 2 * hvr_) ;;
          Returns (v, set_l_vertical s2 v)
      end
  end.

(** [update], called by [__attrs_post_init__]: the fields are read in
    the order of their declaration, those of the base class first.
    Reading [id], [leaf_reflectance], [leaf_transmittance], [mu], [nu],
    [hdo] and [hvr] returns the stored attribute and cannot raise. *)
Definition update (depth : nat) (self : t) : outcome t :=
  '(_, s1) <- reading "n_leaves" (n_leaves depth self) ;;
  '(_, s2) <- reading "leaf_radius" (leaf_radius depth s1) ;;
  '(_, s3) <- reading "l_horizontal" (l_horizontal depth s2) ;;
  '(_, s4) <- reading "l_vertical" (l_vertical depth s3) ;;
  '(_, s5) <- reading "lai" (lai depth s4) ;;
  Returns s5.

(** The constructor, called with the keyword arguments. *)
Definition init (env : environment) (kwargs : t) : outcome t :=
  update (recursion_limit env) kwargs.

(** The keyword arguments with [id] given. *)
Definition with_id (self : t) (id : string) : t :=
  mk id (_leaf_reflectance self) (_leaf_transmittance self)
     (_mu self) (_nu self) (_n_leaves self) (_leaf_radius self)
     (_l_horizontal self) (_l_vertical self) (_lai self)
     (_hdo self) (_hvr self).

End CuboidLeafCloudParams.

(** ** Parameters of the sphere, cylinder and cone generators

    Their properties return the stored attributes, so [update] cannot
    raise and the constructor returns the keyword arguments as given. *)
Module SphereLeafCloudParams.
Record t : Type := mk {
  _id : string;
  _leaf_reflectance : R;
  _leaf_transmittance : R;
  _mu : R;
  _nu : R;
  _n_leaves : option Z;
  _leaf_radius : option R;
  _radius : R
}.
Definition init (kwargs : t) : outcome t := Returns kwargs.
End SphereLeafCloudParams.

Module CylinderLeafCloudParams.
Record t : Type := mk {
  _id : string;
  _leaf_reflectance : R;
  _leaf_transmittance : R;
  _mu : R;
  _nu : R;
  _n_leaves : option Z;
  _leaf_radius : option R;
  _radius : R;
  _l_vertical : R
}.
Definition init (kwargs : t) : outcome t := Returns kwargs.
End CylinderLeafCloudParams.

Module ConicalLeafCloudParams.
Record t : Type := mk {
  _id : string;
  _leaf_reflectance : R;
  _leaf_transmittance : R;
  _mu : R;
  _nu : R;
  _n_leaves : option Z;
  _leaf_radius : option R;
  _radius : R;
  _l_vertical : R
}.
Definition init (kwargs : t) : outcome t := Returns kwargs.
End ConicalLeafCloudParams.

(** ** Reading definition files *)

(** The characters [str.split] treats as separators. *)
Definition is_space (c : ascii) : bool :=
  let n := nat_of_ascii c in
  ((9 <=? n)%nat && (n <=? 13)%nat) || ((28 <=? n)%nat && (n <=? 32)%nat).

Definition is_empty (s : string) : bool :=
  match s with EmptyString => true | String _ _ => false end.

(** [line.split()], with [token] the characters of the token being read. *)
Fixpoint split_from (token : string) (line : string) : list string :=
  match line with
  | EmptyString => if is_empty token then [] else [token]
  | String c rest =>
      if is_space c
      then (if is_empty token then split_from EmptyString rest
            else token :: split_from EmptyString rest)
      else split_from (token ++ String c EmptyString)%string rest
  end.

Definition split (line : string) : list string := split_from EmptyString line.

(** [values[start:stop]] *)
Definition slice {A : Type} (start stop : nat) (values : list A) : list A :=
  firstn (stop - start) (skipn start values).

(** [[float(x) for x in tokens]] *)
Fixpoint floats (env : environment) (tokens : list string) : outcome (list R) :=
  match tokens with
  | [] => Returns []
  | x :: rest =>
      match py_float env x with
      | None => Raises (ValueError (msg_could_not_convert_to_float x))
      | Some v => vs <- floats env rest ;; Returns (v :: vs)
      end
  end.

(** [np.array(tokens, dtype=float)], which raises [ValueError] as [float]
    does; the message plays no part. *)
Definition np_array_float (env : environment) (tokens : list string)
  : outcome (list R) := floats env tokens.

Definition row3 (row : list R) : option vec3 :=
  match row with
  | [x; y; z] => Some (x, y, z)
  | _ => None
  end.

(** [np.array(rows)] read as an (n, 3) array by the shape validator of
    the field it is given to.  Rows that are not all of three numbers are
    refused with [ValueError], by [np.array] when they are of different
    lengths and by the validator otherwise. *)
Fixpoint n3_array (rows : list (list R)) : outcome (list vec3) :=
  match rows with
  | [] => Returns []
  | row :: rest =>
      match row3 row with
      | Some v => vs <- n3_array rest ;; Returns (v :: vs)
      | None => Raises (ValueError msg_shape_should_be_N_3)
      end
  end.

(** ** Leaf clouds *)
Module LeafCloud.

(** The orientations are kept as their rows: nothing embedded here
    depends on the shape of an empty array of orientations. *)
Record t : Type := mk {
  id : string;
  leaf_positions : array3;
  leaf_orientations : list vec3;
  leaf_radii : list R;
  leaf_reflectance : R;
  leaf_transmittance : R
}.

(** The attrs-generated constructor: the fields are validated in the
    order of their declaration.  The leaf positions come first, and with
    them the test that the three arrays have the same length ([len]
    counts the rows, and the shape test lets every empty array through);
    then the radii, each of which must pass [is_positive]. *)
Definition init (env : environment) (id : string)
  (leaf_positions : array3) (leaf_orientations : list vec3)
  (leaf_radii : list R)
  (leaf_reflectance leaf_transmittance : R) : outcome t :=
  if negb ((List.length leaf_positions =? List.length leaf_orientations)%nat
           && (List.length leaf_orientations =? List.length leaf_radii)%nat)
  then Raises (ValueError (msg_same_length (List.length leaf_positions)
                             (List.length leaf_orientations) (List.length leaf_radii)))
  else if negb (forallb (is_positive env) leaf_radii)
  then Raises (ValueError msg_not_positive)
  else Returns (mk id leaf_positions leaf_orientations leaf_radii
                   leaf_reflectance leaf_transmittance).

(** [LeafCloud()]: the positions are [np.array([])]. *)
Definition default : t := mk "leaf_cloud" flat_empty [] [] 0.5 0.5.

Definition n_leaves (self : t) : nat := List.length (leaf_positions self).

(** [fuel] bounds the rejection loop of the orientation sampler. *)
Definition cuboid (env : environment) (fuel : nat) (seed : Z)
  (avoid_overlap : bool) (n_attempts : option Z)
  (kwargs : CuboidLeafCloudParams.t) : outcome t :=
  let rng := default_rng env seed in
  let n_attempts := match n_attempts with Some k => k | None => 100000%Z end in
  let depth := recursion_limit env in
  params <- CuboidLeafCloudParams.init env kwargs ;;
  '(leaf_positions, rng, params) <-
    (if avoid_overlap then
       '(n, p) <- CuboidLeafCloudParams.n_leaves depth params ;;
       '(lh, p) <- CuboidLeafCloudParams.l_horizontal depth p ;;
       '(lv, p) <- CuboidLeafCloudParams.l_vertical depth p ;;
       '(r, p) <- CuboidLeafCloudParams.leaf_radius depth p ;;
       '(positions, rng) <- _leaf_cloud_positions_cuboid_avoid_overlap
                              (PyInt n) (PyQuantity lh) (PyQuantity lv)
                              (PyQuantity r) n_attempts rng ;;
       Returns (positions, rng, p)
     else
       '(n, p) <- CuboidLeafCloudParams.n_leaves depth params ;;
       '(lh, p) <- CuboidLeafCloudParams.l_horizontal depth p ;;
       '(lv, p) <- CuboidLeafCloudParams.l_vertical depth p ;;
       '(positions, rng) <- _leaf_cloud_positions_cuboid
                              (PyInt n) (PyQuantity lh) (PyQuantity lv) rng ;;
       Returns (positions, rng, p)) ;;
  '(n, params) <- CuboidLeafCloudParams.n_leaves depth params ;;
  '(leaf_orientations, rng) <-
    _leaf_cloud_orientations env fuel (PyInt n)
      (CuboidLeafCloudParams._mu params) (CuboidLeafCloudParams._nu params) rng ;;
  '(n, params) <- CuboidLeafCloudParams.n_leaves depth params ;;
  '(r, params) <- CuboidLeafCloudParams.leaf_radius depth params ;;
  leaf_radii <- _leaf_cloud_radii (PyInt n) (PyQuantity r) ;;
  init env (CuboidLeafCloudParams._id params)
    (rows3 leaf_positions) leaf_orientations leaf_radii
    (CuboidLeafCloudParams._leaf_reflectance params)
    (CuboidLeafCloudParams._leaf_transmittance params).

(** The position sampler is called with [params.radius] first and
    [params.n_leaves] second, as in the source. *)
Definition sphere (env : environment) (fuel : nat) (seed : Z)
  (kwargs : SphereLeafCloudParams.t) : outcome t :=
  let rng := default_rng env seed in
  params <- SphereLeafCloudParams.init kwargs ;;
  '(leaf_positions, rng) <-
    _leaf_cloud_positions_sphere
      (PyQuantity (SphereLeafCloudParams._radius params))
      (int_arg (SphereLeafCloudParams._n_leaves params)) rng ;;
  '(leaf_orientations, rng) <-
    _leaf_cloud_orientations env fuel
      (int_arg (SphereLeafCloudParams._n_leaves params))
      (SphereLeafCloudParams._mu params) (SphereLeafCloudParams._nu params) rng ;;
  leaf_radii <- _leaf_cloud_radii
                  (int_arg (SphereLeafCloudParams._n_leaves params))
                  (quantity_arg (SphereLeafCloudParams._leaf_radius params)) ;;
  init env (SphereLeafCloudParams._id params)
    (rows3 leaf_positions) leaf_orientations leaf_radii
    (SphereLeafCloudParams._leaf_reflectance params)
    (SphereLeafCloudParams._leaf_transmittance params).

Definition cylinder (env : environment) (fuel : nat) (seed : Z)
  (kwargs : CylinderLeafCloudParams.t) : outcome t :=
  let rng := default_rng env seed in
  params <- CylinderLeafCloudParams.init kwargs ;;
  '(leaf_positions, rng) <-
    _leaf_cloud_positions_cylinder
      (int_arg (CylinderLeafCloudParams._n_leaves params))
      (PyQuantity (CylinderLeafCloudParams._radius params))
      (PyQuantity (CylinderLeafCloudParams._l_vertical params)) rng ;;
  '(leaf_orientations, rng) <-
    _leaf_cloud_orientations env fuel
      (int_arg (CylinderLeafCloudParams._n_leaves params))
      (CylinderLeafCloudParams._mu params)
      (CylinderLeafCloudParams._nu params) rng ;;
  leaf_radii <- _leaf_cloud_radii
                  (int_arg (CylinderLeafCloudParams._n_leaves params))
                  (quantity_arg (CylinderLeafCloudParams._leaf_radius params)) ;;
  init env (CylinderLeafCloudParams._id params)
    (rows3 leaf_positions) leaf_orientations leaf_radii
    (CylinderLeafCloudParams._leaf_reflectance params)
    (CylinderLeafCloudParams._leaf_transmittance params).

Definition cone (env : environment) (fuel : nat) (seed : Z)
  (kwargs : ConicalLeafCloudParams.t) : outcome t :=
  let rng := default_rng env seed in
  params <- ConicalLeafCloudParams.init kwargs ;;
  '(leaf_positions, rng) <-
    _leaf_cloud_positions_cone
      (int_arg (ConicalLeafCloudParams._n_leaves params))
      (PyQuantity (ConicalLeafCloudParams._radius params))
      (PyQuantity (ConicalLeafCloudParams._l_vertical params)) rng ;;
  '(leaf_orientations, rng) <-
    _leaf_cloud_orientations env fuel
      (int_arg (ConicalLeafCloudParams._n_leaves params))
      (ConicalLeafCloudParams._mu params)
      (ConicalLeafCloudParams._nu params) rng ;;
  leaf_radii <- _leaf_cloud_radii
                  (int_arg (ConicalLeafCloudParams._n_leaves params))
                  (quantity_arg (ConicalLeafCloudParams._leaf_radius params)) ;;
  init env (ConicalLeafCloudParams._id params)
    (rows3 leaf_positions) leaf_orientations leaf_radii
    (ConicalLeafCloudParams._leaf_reflectance params)
    (ConicalLeafCloudParams._leaf_transmittance params).

(** The body of [for i, line in enumerate(definition_file)]: the index
    [i] is bound and not used. *)
Fixpoint read_leaves (env : environment) (lines : list string)
  : outcome (list R * list (list R) * list (list R)) :=
  match lines with
  | [] => Returns ([], [], [])
  | line :: rest =>
      values <- floats env (split line) ;;
      radius <- match values with
                | [] => Raises IndexError
                | v :: _ => Returns v
                end ;;
      '(radii_, positions_, orientations_) <- read_leaves env rest ;;
      Returns (radius :: radii_,
               slice 1 4 values :: positions_,
               slice 4 7 values :: orientations_)
  end.

Definition from_file (env : environment) (filename : option string)
  (leaf_transmittance leaf_reflectance : R) (id : string) : outcome t :=
  match filename with
  | None => Raises (ValueError msg_filename_required)
  | Some path =>
      match read_lines env path with
      | None => Raises FileNotFoundError
      | Some lines =>
          '(radii, positions_, orientations_) <- read_leaves env lines ;;
          positions <- n3_array positions_ ;;
          orientations <- n3_array orientations_ ;;
          init env id (np_array positions) orientations radii
            leaf_reflectance leaf_transmittance
      end
  end.

(** The argument of [translated]: a 3-vector or an (M, 3) array. *)
Inductive xyz_arg : Type :=
| vector3 (v : vec3)
| array_n3 (rows : list vec3).

(** [attr.evolve(self, leaf_positions=...)]: the constructor is called
    with the new positions and the other fields of [self]. *)
Definition evolve (env : environment) (self : t) (leaf_positions : array3)
  : outcome t :=
  init env (id self) leaf_positions (leaf_orientations self)
    (leaf_radii self) (leaf_reflectance self) (leaf_transmittance self).

(** A 3-vector has [ndim <= 1] and is reshaped to (1, 3); an (M, 3)
    array must have the shape of the positions, which the shape (0,)
    of the positions of [LeafCloud()] never is.  The sum is evaluated
    before [attr.evolve] is called. *)
Definition translated (env : environment) (self : t) (xyz : xyz_arg)
  : outcome t :=
  match xyz with
  | vector3 v =>
      positions <- add_row (leaf_positions self) v ;;
      evolve env self positions
  | array_n3 rows =>
      match leaf_positions self with
      | rows3 positions =>
          if (List.length rows =? List.length positions)%nat
          then evolve env self
                 (rows3 (map (fun pv => vec3_add (fst pv) (snd pv))
                             (combine positions rows)))
          else Raises (ValueError (msg_shapes_do_not_match
                                     (shape (rows3 rows))
                                     (shape (rows3 positions))))
      | flat_empty =>
          Raises (ValueError (msg_shapes_do_not_match
                                (shape (rows3 rows)) (shape flat_empty)))
      end
  end.

End LeafCloud.

(** ** Composite elements and instancing *)
Module AbstractTree.

Record t : Type := mk {
  id : string;
  leaf_cloud : option LeafCloud.t;
  trunk_height : R;
  trunk_radius : R;
  trunk_reflectance : R
}.

End AbstractTree.

(** The classes derived from [CanopyElement]. *)
Inductive CanopyElement : Type :=
| leaf_cloud_element (lc : LeafCloud.t)
| abstract_tree_element (tree : AbstractTree.t).

Module InstancedCanopyElement.

Record t : Type := mk {
  canopy_element : CanopyElement;
  instance_positions : array3
}.

(** [for i_line, line in enumerate(f)], from the line of index [i_line]. *)
Fixpoint read_instances (env : environment) (i_line : nat)
  (lines : list string) : outcome (list vec3) :=
  match lines with
  | [] => Returns []
  | line :: rest =>
      coords <- match np_array_float env (split line) with
                | Raises (ValueError _) =>
                    Raises (ValueError (msg_line_not_3_vector (i_line + 1) line))
                | other => other
                end ;;
      match row3 coords with
      | None => Raises (ValueError (msg_line_not_3_vector (i_line + 1) line))
      | Some v =>
          vs <- read_instances env (S i_line) rest ;;
          Returns (v :: vs)
      end
  end.

Definition from_file (env : environment) (filename : option string)
  (canopy_element : option CanopyElement) : outcome t :=
  match filename with
  | None => Raises (ValueError msg_filename_required)
  | Some path =>
      match read_lines env path with
      | None => Raises FileNotFoundError
      | Some lines =>
          let canopy_element :=
            match canopy_element with
            | None => leaf_cloud_element LeafCloud.default
            | Some element => element
            end in
          instance_positions <- read_instances env 0 lines ;;
          Returns (mk canopy_element (np_array instance_positions))
      end
  end.

End InstancedCanopyElement.

(** ** Discrete canopies and padding *)

(** [list(range(start, stop))] *)
Definition py_range (start stop : Z) : list Z :=
  map (fun k => (start + Z.of_nat k)%Z) (seq 0 (Z.to_nat (stop - start))).

(** [itertools.product(xs, ys)]: the first component varies slowest. *)
Definition product {A B : Type} (xs : list A) (ys : list B) : list (A * B) :=
  flat_map (fun x => map (fun y => (x, y)) ys) xs.

Module DiscreteCanopy.

Record t : Type := mk {
  id : string;
  size : vec3;
  instanced_canopy_elements : list InstancedCanopyElement.t
}.

(** The instance positions of one element after the loop over the pairs
    of offset factors: the slice of rank [k] receives the old positions
    moved by the offset of the pair of rank [k]. *)
Definition new_instance_positions (x_size y_size : R)
  (padding_factors : list Z) (old_instance_positions : list vec3) : list vec3 :=
  flat_map
    (fun factors : Z * Z =>
       let '(x_offset_factor, y_offset_factor) := factors in
       let offset := (x_size * IZR x_offset_factor,
                      y_size * IZR y_offset_factor, 0) in
       map (fun p => vec3_add p offset) old_instance_positions)
    (product padding_factors padding_factors).

(** [t] gives a canopy by its content: what its fields read.  In
    memory, the list [instanced_canopy_elements] holds references to
    element objects, and the same object may be listed more than once;
    [padded], which updates the objects in place, tells the difference.
    [stored] is a canopy with its element objects: [objects] are the
    element objects, each one once, and [listed] gives for every entry
    of the list, in order, the index in [objects] of the object it
    refers to. *)
Record stored : Type := mkStored {
  stored_id : string;
  stored_size : vec3;
  objects : list InstancedCanopyElement.t;
  listed : list nat
}.

(** What the fields of a stored canopy read. *)
Definition content (self : stored) : t :=
  mk (stored_id self) (stored_size self)
     (flat_map (fun reference =>
                  match nth_error (objects self) reference with
                  | Some element => [element]
                  | None => []
                  end)
               (listed self)).

(** The canopy whose entries are objects of their own, as a constructor
    that builds its elements itself leaves it. *)
Definition fresh (c : t) : stored :=
  mkStored (id c) (size c) (instanced_canopy_elements c)
    (seq 0 (List.length (instanced_canopy_elements c))).

(** [objects[reference] = element] *)
Fixpoint assign {A : Type} (reference : nat) (element : A) (objects : list A)
  : list A :=
  match objects, reference with
  | [], _ => []
  | _ :: rest, O => element :: rest
  | first :: rest, S k => first :: assign k element rest
  end.

(** The body of the loop over the elements, for one element object:
    the new array is filled slice by slice with
    [old_instance_positions[:, :] + offset].  The index [[:, :]] raises
    [IndexError] on an array of one dimension, which the first pair of
    offset factors meets. *)
Definition pad_positions (x_size y_size : R) (padding_factors : list Z)
  (old_instance_positions : array3) : outcome array3 :=
  match old_instance_positions with
  | rows3 rows =>
      Returns (rows3 (new_instance_positions x_size y_size
                        padding_factors rows))
  | flat_empty =>
      match product padding_factors padding_factors with
      | [] => Returns (rows3 [])
      | _ :: _ => Raises IndexError
      end
  end.

Definition pad_element (x_size y_size : R) (padding_factors : list Z)
  (element : InstancedCanopyElement.t) : outcome InstancedCanopyElement.t :=
  positions <- pad_positions x_size y_size padding_factors
                 (InstancedCanopyElement.instance_positions element) ;;
  Returns (InstancedCanopyElement.mk
             (InstancedCanopyElement.canopy_element element) positions).

(** [for instanced_canopy_element in result.instanced_canopy_elements]:
    the entries are visited in the order of the list and the object that
    an entry refers to is updated in place, so that an object listed
    twice is padded twice.  (An entry always refers to one of the
    objects.) *)
Fixpoint pad_listed (x_size y_size : R) (padding_factors : list Z)
  (listed : list nat) (objects : list InstancedCanopyElement.t)
  : outcome (list InstancedCanopyElement.t) :=
  match listed with
  | [] => Returns objects
  | reference :: rest =>
      match nth_error objects reference with
      | None => pad_listed x_size y_size padding_factors rest objects
      | Some element =>
          element' <- pad_element x_size y_size padding_factors element ;;
          pad_listed x_size y_size padding_factors rest
            (assign reference element' objects)
      end
  end.

(** [deepcopy] gives the copy element objects of its own, which its
    entries share as the entries of [self] share theirs: the loop runs on
    the copy and [self] is left as it is. *)
Definition padded (self : stored) (padding : Z) : outcome stored :=
  if (padding <? 0)%Z then Raises (ValueError msg_padding_negative)
  else if (padding =? 0)%Z then Returns self
  else
    let '(x_size, y_size, z_size) := stored_size self in
    let padding_factors := py_range (- padding) (padding + 1) in
    objects' <- pad_listed x_size y_size padding_factors
                  (listed self) (objects self) ;;
    let n := INR (List.length padding_factors) in
    Returns (mkStored (stored_id self) (x_size * n, y_size * n, z_size)
               objects' (listed self)).

(** The canopy made of one generated cuboid leaf cloud.  The keyword
    arguments go to the parameter class and to [LeafCloud.cuboid] alike:
    they are those of the parameter class, [seed], [avoid_overlap] and
    [n_attempts] keep their defaults, and the identifier of the leaf
    cloud is the one the canopy derives from its own. *)
Definition homogeneous (env : environment) (fuel : nat) (id : string)
  (leaf_cloud_kwargs : CuboidLeafCloudParams.t) : outcome t :=
  let depth := recursion_limit env in
  leaf_cloud_params <- CuboidLeafCloudParams.init env leaf_cloud_kwargs ;;
  '(size_x, p) <- CuboidLeafCloudParams.l_horizontal depth leaf_cloud_params ;;
  '(size_y, p) <- CuboidLeafCloudParams.l_horizontal depth p ;;
  '(size_z, p) <- CuboidLeafCloudParams.l_vertical depth p ;;
  let leaf_cloud_id := (id ++ "_leaf_cloud")%string in
  leaf_cloud <- LeafCloud.cuboid env fuel 12345 false None
                  (CuboidLeafCloudParams.with_id leaf_cloud_kwargs
                     leaf_cloud_id) ;;
  Returns (mk id (size_x, size_y, size_z)
              [InstancedCanopyElement.mk (leaf_cloud_element leaf_cloud)
                 [(0, 0, 0)]]).

End DiscreteCanopy.

(** ** Vocabulary of the properties *)

(** *** Placement *)

(** The box of a placed leaf: its position inflated by the leaf radius
    along every axis. *)
Definition inflated_box (leaf_radius : R) (pos : vec3) : aabbtree.AABB :=
  leaf_limits leaf_radius pos.

(** No two leaves of different index have boxes that overlap, in the
    sense of the test the tree applies. *)
Definition pairwise_disjoint (leaf_radius : R) (ps : list vec3) : Prop :=
  forall i j p q, i <> j ->
    nth_error ps i = Some p -> nth_error ps j = Some q ->
    aabbtree.overlaps (inflated_box leaf_radius p) (inflated_box leaf_radius q)
    = false.

(** Two positions whose boxes are apart along some axis: there one box
    ends where the other begins, or before. *)
Definition separated (leaf_radius : R) (p q : vec3) : Prop :=
  let '(px, py, pz) := p in
  let '(qx, qy, qz) := q in
  (qx + leaf_radius <= px - leaf_radius \/ px + leaf_radius <= qx - leaf_radius)
  \/ (qy + leaf_radius <= py - leaf_radius \/ py + leaf_radius <= qy - leaf_radius)
  \/ (qz + leaf_radius <= pz - leaf_radius \/ pz + leaf_radius <= qz - leaf_radius).

(** What the placement loop maintains: the tree holds the boxes of the
    leaves placed so far, and these boxes are pairwise disjoint. *)
Definition placer_invariant (leaf_radius : R) (st : placer) : Prop :=
  tree st = rev (map (inflated_box leaf_radius) (positions st))
  /\ pairwise_disjoint leaf_radius (positions st).

(** The candidate of rank [j] drawn from the generator state [rng]. *)
Definition candidate_at (l_horizontal l_vertical : R) (rng : Generator)
  (j : nat) : vec3 :=
  cuboid_point l_horizontal l_vertical (fst (random3 (advance (3 * j) rng))).

(** *** Orientations *)

(** Squared Euclidean norm and Euclidean norm of a row. *)
Definition norm2 (v : vec3) : R :=
  let '(x, y, z) := v in x * x + y * y + z * z.

Definition norm (v : vec3) : R := sqrt (norm2 v).

(** *** Parameter resolution *)

(** The fields of [s] that are set are set in [s']. *)
Definition keeps (s s' : CuboidLeafCloudParams.t) : Prop :=
  (CuboidLeafCloudParams._n_leaves s <> None ->
   CuboidLeafCloudParams._n_leaves s' <> None)
  /\ (CuboidLeafCloudParams._leaf_radius s <> None ->
      CuboidLeafCloudParams._leaf_radius s' <> None)
  /\ (CuboidLeafCloudParams._l_horizontal s <> None ->
      CuboidLeafCloudParams._l_horizontal s' <> None)
  /\ (CuboidLeafCloudParams._l_vertical s <> None ->
      CuboidLeafCloudParams._l_vertical s' <> None)
  /\ (CuboidLeafCloudParams._lai s <> None ->
      CuboidLeafCloudParams._lai s' <> None).

(** The five fields that [update] resolves are set. *)
Definition resolved (s : CuboidLeafCloudParams.t) : Prop :=
  CuboidLeafCloudParams._n_leaves s <> None
  /\ CuboidLeafCloudParams._leaf_radius s <> None
  /\ CuboidLeafCloudParams._l_horizontal s <> None
  /\ CuboidLeafCloudParams._l_vertical s <> None
  /\ CuboidLeafCloudParams._lai s <> None.

(** What a property guarantees when it returns. *)
Definition sets {A : Type}
  (prop : CuboidLeafCloudParams.t -> outcome (A * CuboidLeafCloudParams.t))
  (field : CuboidLeafCloudParams.t -> option A) : Prop :=
  forall s v s', prop s = Returns (v, s') ->
    keeps s s' /\ field s' = Some v.

(** *** Leaf clouds and files *)

(** The count invariant: the three arrays of the leaf cloud have [n]
    entries. *)
Definition has_leaves (lc : LeafCloud.t) (n : Z) : Prop :=
  List.length (LeafCloud.leaf_positions lc) = Z.to_nat n
  /\ List.length (LeafCloud.leaf_orientations lc) = Z.to_nat n
  /\ List.length (LeafCloud.leaf_radii lc) = Z.to_nat n.

(** A leaf cloud that went through its constructor. *)
Definition constructed (env : environment) (lc : LeafCloud.t) : Prop :=
  LeafCloud.init env (LeafCloud.id lc) (LeafCloud.leaf_positions lc)
    (LeafCloud.leaf_orientations lc) (LeafCloud.leaf_radii lc)
    (LeafCloud.leaf_reflectance lc) (LeafCloud.leaf_transmittance lc)
  = Returns lc.

(** A token that [float] refuses. *)
Definition not_numeric (env : environment) (token : string) : Prop :=
  py_float env token = None.

(** A line of an instance file that is not three numbers. *)
Definition malformed_instance_line (env : environment) (line : string) : Prop :=
  List.length (split line) <> 3%nat \/ Exists (not_numeric env) (split line).

(** *** Padding *)

(** The padding in the words of its description.  The offset factors run
    from [-p] to [p]; the pairs are listed with the first factor varying
    slowest; the padded positions are the concatenation, over the pairs
    [(i, j)], of the original positions translated by
    [(i * size_x, j * size_y, 0)]. *)
Definition offset_factors (p : Z) : list Z :=
  map (fun k => (Z.of_nat k - p)%Z) (seq 0 (Z.to_nat (2 * p + 1))).

Definition offset_pairs (p : Z) : list (Z * Z) :=
  concat (map (fun i => map (fun j => (i, j)) (offset_factors p))
              (offset_factors p)).

Definition padded_positions (p : Z) (size_x size_y : R) (original : list vec3)
  : list vec3 :=
  concat (map (fun ij : Z * Z =>
                 map (fun pos =>
                        vec3_add pos (IZR (fst ij) * size_x,
                                      IZR (snd ij) * size_y, 0))
                     original)
              (offset_pairs p)).

(** An array of two dimensions, of shape (n, 3). *)
Definition two_dimensional (a : array3) : Prop := exists rows, a = rows3 rows.

(** The element with its instance positions replicated over the pairs
    of the given offset factors. *)
Definition replicated (size_x size_y : R) (padding_factors : list Z)
  (e : InstancedCanopyElement.t) : InstancedCanopyElement.t :=
  InstancedCanopyElement.mk
    (InstancedCanopyElement.canopy_element e)
    (rows3 (DiscreteCanopy.new_instance_positions size_x size_y
              padding_factors (InstancedCanopyElement.instance_positions e))).

(** *** Sampled regions *)

(** Every draw of the generator lies in [[0, 1)]. *)
Definition unit_draws (rng : Generator) : Prop :=
  forall k, 0 <= draws rng k < 1.

(** The cuboid [[-l_h/2, l_h/2] x [-l_h/2, l_h/2] x [0, l_v]]. *)
Definition in_cuboid (l_horizontal l_vertical : R) (p : vec3) : Prop :=
  let '(x, y, z) := p in
  - (l_horizontal / 2) <= x <= l_horizontal / 2
  /\ - (l_horizontal / 2) <= y <= l_horizontal / 2
  /\ 0 <= z <= l_vertical.

(** The ball of the given radius around the origin. *)
Definition in_sphere (radius : R) (p : vec3) : Prop :=
  norm2 p <= radius * radius.

(** The upright cylinder on the ground plane. *)
Definition in_cylinder (radius l_vertical : R) (p : vec3) : Prop :=
  let '(x, y, z) := p in
  x * x + y * y <= radius * radius /\ 0 <= z <= l_vertical.

(** The upright cone, its base on the ground plane and its tip at height
    [l_vertical]: at height [z] its radius is [radius * (1 - z / l_vertical)]. *)
Definition in_cone (radius l_vertical : R) (p : vec3) : Prop :=
  let '(x, y, z) := p in
  0 <= z <= l_vertical
  /\ x * x + y * y
     <= (radius * (1 - z / l_vertical)) * (radius * (1 - z / l_vertical)).

(** The three draws behind the leaf of index [i] of a sampler that draws
    three numbers per leaf. *)
Definition draws_of_leaf (rng : Generator) (i : nat) : vec3 :=
  fst (random3 (advance (3 * i) rng)).

(** *** Given and resolved parameters *)

(** The keyword arguments [s] are found again in [s']: the fields that
    [update] does not resolve are those of [s], and a field that [s]
    gives has in [s'] the value given. *)
Definition extends (s s' : CuboidLeafCloudParams.t) : Prop :=
  CuboidLeafCloudParams._id s' = CuboidLeafCloudParams._id s
  /\ CuboidLeafCloudParams._leaf_reflectance s'
     = CuboidLeafCloudParams._leaf_reflectance s
  /\ CuboidLeafCloudParams._leaf_transmittance s'
     = CuboidLeafCloudParams._leaf_transmittance s
  /\ CuboidLeafCloudParams._mu s' = CuboidLeafCloudParams._mu s
  /\ CuboidLeafCloudParams._nu s' = CuboidLeafCloudParams._nu s
  /\ CuboidLeafCloudParams._hdo s' = CuboidLeafCloudParams._hdo s
  /\ CuboidLeafCloudParams._hvr s' = CuboidLeafCloudParams._hvr s
  /\ (forall v, CuboidLeafCloudParams._n_leaves s = Some v ->
                CuboidLeafCloudParams._n_leaves s' = Some v)
  /\ (forall v, CuboidLeafCloudParams._leaf_radius s = Some v ->
                CuboidLeafCloudParams._leaf_radius s' = Some v)
  /\ (forall v, CuboidLeafCloudParams._l_horizontal s = Some v ->
                CuboidLeafCloudParams._l_horizontal s' = Some v)
  /\ (forall v, CuboidLeafCloudParams._l_vertical s = Some v ->
                CuboidLeafCloudParams._l_vertical s' = Some v)
  /\ (forall v, CuboidLeafCloudParams._lai s = Some v ->
                CuboidLeafCloudParams._lai s' = Some v).

(** *** Draws and cells *)

(** The index, among the [(2p+1)^2 * n] instance positions of an element
    padded by [p], of the copy with offset factors [(0, 0)] of the
    original position of index [m]. *)
Definition central_index (p : Z) (n m : nat) : nat :=
  ((Z.to_nat p * Z.to_nat (2 * p + 1) + Z.to_nat p) * n + m)%nat.

(** ** Sample data *)

(** A generator that keeps drawing the same number. *)
Definition constant_generator (x : R) : Generator := mkGenerator (fun _ => x) 0.

(** A generator whose first draws are listed, the later ones being zero. *)
Definition listed_generator (xs : list R) : Generator :=
  mkGenerator (fun k => nth k xs 0) 0.

(** The power in exact arithmetic, with the values of NumPy at the base
    [0.0]: what [np.power] returns where it neither underflows nor
    overflows. *)
Definition exact_power (x y : R) : extended :=
  if Reqb x 0 then
    if Reqb y 0 then finite 1 else if Rltb y 0 then infinite else finite 0
  else finite (Rpower x y).

(** A power that underflows where float64 surely does: for a base up to
    [1/4] and an exponent from 1000 on, [x ** y] is at most [2 ** -2000]
    and the float64 result is [0.0]. *)
Definition underflowing_power (x y : R) : extended :=
  if Rleb x (1 / 4) && Rleb 1000 y then finite 0 else exact_power x y.

(** An environment: a generator that draws 1/4 for every seed, radii
    accepted when they are not negative, the tokens [0] and [1] as the
    only numbers, three definition files, and powers without underflow
    or overflow. *)
Definition sample_float (token : string) : option R :=
  if String.eqb token "0" then Some 0
  else if String.eqb token "1" then Some 1
  else None.

Definition sample_files (path : string) : option (list string) :=
  if String.eqb path "extra_token.txt"
  then Some ["1 0 0 0 0 0 1 1"%string]
  else if String.eqb path "not_a_number.txt"
  then Some ["1 0 0 0 0 0 1"%string; "x 0 0 0 0 0 1"%string]
  else if String.eqb path "instances.txt"
  then Some ["0 0 0"%string; "1 x 0"%string]
  else None.

Definition sample_environment : environment :=
  mkEnvironment (fun _ => constant_generator (1 / 4))
    (fun r => negb (Rltb r 0)) sample_float sample_files 1000 exact_power.

(** The same environment with the power that underflows. *)
Definition underflowing_environment : environment :=
  mkEnvironment (fun _ => constant_generator (1 / 4))
    (fun r => negb (Rltb r 0)) sample_float sample_files 1000
    underflowing_power.

(** A consistent set of cuboid parameters: one leaf of radius 1 on a
    footprint of side 1 has a leaf area index of pi. *)
Definition unit_leaf_params : CuboidLeafCloudParams.t :=
  CuboidLeafCloudParams.mk "leaf_cloud" 0.5 0.5 1.066 1.853
    (Some 1%Z) (Some 1) (Some 1) (Some 1) (Some PI) None None.

(** Two leaves of radius 1 and a leaf area index of 1, the horizontal
    extent being left to the resolution. *)
Definition two_leaves_params : CuboidLeafCloudParams.t :=
  CuboidLeafCloudParams.mk "leaf_cloud" 0.5 0.5 1.066 1.853
    (Some 2%Z) (Some 1) None (Some 1) (Some 1) None None.

Definition one_leaf : LeafCloud.t :=
  LeafCloud.mk "leaf_cloud" [(0, 0, 0)] [(0, 0, 1)] [1] 0.5 0.5.

Definition sample_canopy : DiscreteCanopy.t :=
  DiscreteCanopy.mk "discrete_canopy" (10, 10, 3)
    [InstancedCanopyElement.mk (leaf_cloud_element LeafCloud.default)
       [(0, 0, 0)]].

(** A canopy whose element is the one that the instance loader returns
    for a file without lines: its instance positions are
    [np.array([])]. *)
Definition empty_file_canopy : DiscreteCanopy.t :=
  DiscreteCanopy.mk "discrete_canopy" (10, 10, 3)
    [InstancedCanopyElement.mk (leaf_cloud_element LeafCloud.default)
       flat_empty].

(** A canopy built with the list [[e, e]]: one element object, with one
    instance at the origin, listed twice. *)
Definition twice_listed_canopy : DiscreteCanopy.stored :=
  DiscreteCanopy.mkStored "discrete_canopy" (10, 10, 3)
    [InstancedCanopyElement.mk (leaf_cloud_element LeafCloud.default)
       [(0, 0, 0)]]
    [0%nat; 0%nat].

(** Cuboid parameters that contradict each other: five leaves, where the
    leaf area index, the radius and the extent give less than one. *)
Definition contradictory_params : CuboidLeafCloudParams.t :=
  CuboidLeafCloudParams.mk "leaf_cloud" 0.5 0.5 1 1
    (Some 5%Z) (Some 1) (Some 1) (Some 1) (Some 1) None None.

(** Cuboid parameters that leave both the leaf count and the leaf area
    index out. *)
Definition under_constrained_params : CuboidLeafCloudParams.t :=
  CuboidLeafCloudParams.mk "leaf_cloud" 0.5 0.5 1 1
    None (Some 1) (Some 1) (Some 1) None None None.

(** Cuboid parameters given through the leaf area index and the mean
    distances between leaves. *)
Definition lai_hdo_hvr_params : CuboidLeafCloudParams.t :=
  CuboidLeafCloudParams.mk "leaf_cloud" 0.5 0.5 1 1
    None (Some 1) (Some 1) None (Some PI) (Some 1) (Some 1).

(** One leaf in a cuboid of side 1, with the orientation parameters for
    which the sample environment accepts the first draws. *)
Definition one_leaf_cuboid_params : CuboidLeafCloudParams.t :=
  CuboidLeafCloudParams.mk "leaf_cloud" 0.5 0.5 1 1
    (Some 1%Z) (Some 1) (Some 1) (Some 1) (Some PI) None None.

Definition one_leaf_cylinder_params : CylinderLeafCloudParams.t :=
  CylinderLeafCloudParams.mk "leaf_cloud" 0.5 0.5 1 1 (Some 1%Z) (Some 1) 1 1.

Definition one_leaf_cone_params : ConicalLeafCloudParams.t :=
  ConicalLeafCloudParams.mk "leaf_cloud" 0.5 0.5 1 1 (Some 1%Z) (Some 1) 1 1.

(** A second environment, which differs from the sample environment by
    its files: an instance file and a leaf cloud file that can be read,
    a leaf cloud file that ends on a blank line, and a file without
    lines. *)
Definition readable_files (path : string) : option (list string) :=
  if String.eqb path "positions.txt"
  then Some ["0 0 0"%string; "1 0 1"%string]
  else if String.eqb path "leaves.txt"
  then Some ["1 0 0 0 0 0 1"%string; "1 1 1 1 0 1 0 0"%string]
  else if String.eqb path "blank_line.txt"
  then Some ["1 0 0 0 0 0 1"%string; " "%string]
  else if String.eqb path "empty.txt"
  then Some []
  else None.

Definition loading_environment : environment :=
  mkEnvironment (fun _ => constant_generator (1 / 4))
    (fun r => negb (Rltb r 0)) sample_float readable_files 1000 exact_power.

(** * Properties *)

(** ** Deciding comparisons *)

Lemma Rltb_true x y : x < y -> Rltb x y = true.
Proof. unfold Rltb; destruct (Rlt_dec x y); [reflexivity | contradiction]. Qed.

Lemma Rltb_false x y : y <= x -> Rltb x y = false.
Proof. unfold Rltb; destruct (Rlt_dec x y); [lra | reflexivity]. Qed.

Lemma Rleb_true x y : x <= y -> Rleb x y = true.
Proof. unfold Rleb; destruct (Rle_dec x y); [reflexivity | contradiction]. Qed.

Lemma Rleb_false x y : y < x -> Rleb x y = false.
Proof. unfold Rleb; destruct (Rle_dec x y); [lra | reflexivity]. Qed.

Lemma Reqb_true x y : x = y -> Reqb x y = true.
Proof. unfold Reqb; destruct (Req_dec_T x y); [reflexivity | contradiction]. Qed.

Lemma Reqb_false x y : x <> y -> Reqb x y = false.
Proof. unfold Reqb; destruct (Req_dec_T x y); [contradiction | reflexivity]. Qed.

(** Rewrites the comparisons of the goal whose outcome [lra] can tell. *)
Ltac decide_comparisons :=
  repeat match goal with
    | |- context [Rltb ?a ?b] =>
        first [ rewrite (Rltb_true a b) by lra
              | rewrite (Rltb_false a b) by lra ]
    | |- context [Rleb ?a ?b] =>
        first [ rewrite (Rleb_true a b) by lra
              | rewrite (Rleb_false a b) by lra ]
    | |- context [Reqb ?a ?b] =>
        first [ rewrite (Reqb_true a b) by lra
              | rewrite (Reqb_false a b) by lra ]
    end.

(** ** The bounding boxes *)

Lemma overlaps_sym a : forall b, aabbtree.overlaps a b = aabbtree.overlaps b a.
Proof.
  induction a as [| [min1 max1] a IH]; intros [| [min2 max2] b]; simpl; auto.
  rewrite (andb_comm (Rltb min1 max2)), IH. reflexivity.
Qed.

Lemma AABB_init_returns limits aabb :
  aabbtree.AABB_init limits = Returns aabb -> aabb = limits.
Proof.
  unfold aabbtree.AABB_init.
  destruct (existsb _ limits); [discriminate | congruence].
Qed.

Lemma AABB_init_leaf r pos :
  0 <= r -> aabbtree.AABB_init (leaf_limits r pos) = Returns (leaf_limits r pos).
Proof.
  intros Hr. destruct pos as [[x y] z]. unfold aabbtree.AABB_init; simpl.
  decide_comparisons. reflexivity.
Qed.

Lemma AABB_init_leaf_negative r pos :
  r < 0 ->
  aabbtree.AABB_init (leaf_limits r pos)
  = Raises (ValueError msg_limits_not_lower_upper).
Proof.
  intros Hr. destruct pos as [[x y] z]. unfold aabbtree.AABB_init; simpl.
  decide_comparisons. reflexivity.
Qed.

Lemma does_overlap_false tree aabb :
  aabbtree.does_overlap tree aabb = false ->
  forall leaf, In leaf tree -> aabbtree.overlaps leaf aabb = false.
Proof.
  unfold aabbtree.does_overlap. intros H leaf Hin.
  destruct (aabbtree.overlaps leaf aabb) eqn:E; [| reflexivity].
  assert (existsb (fun l => aabbtree.overlaps l aabb) tree = true)
    by (apply existsb_exists; eauto).
  congruence.
Qed.

(** The overlap test on the boxes of two leaves, read on the positions. *)
Lemma overlaps_false_separated r p q :
  aabbtree.overlaps (inflated_box r p) (inflated_box r q) = false
  <-> separated r p q.
Proof.
  destruct p as [[px py] pz], q as [[qx qy] qz].
  unfold inflated_box, leaf_limits, separated. simpl. unfold Rltb.
  repeat match goal with
         | |- context [Rlt_dec ?a ?b] => destruct (Rlt_dec a b)
         end; simpl; split; intros H; try reflexivity; try discriminate;
    try lra.
Qed.

(** ** The collision-avoidance placer *)

Lemma bind_returns {A B : Type} (c : outcome A) (k : A -> outcome B) (b : B) :
  bind c k = Returns b -> exists a, c = Returns a /\ k a = Returns b.
Proof. destruct c; simpl; intros H; try discriminate. eauto. Qed.

(** Splits an equation [bind c k = Returns b] of the context. *)
Ltac invert_bind H :=
  let a := fresh "a" in
  let Ha := fresh "Hrun" in
  apply bind_returns in H; destruct H as [a [Ha H]].

Lemma attempt_loop_found k : forall i lh lv r tree rng pos aabb rng',
  attempt_loop i k lh lv r tree rng = Returns (Some (pos, aabb), rng') ->
  aabb = inflated_box r pos
  /\ (i <> 0%nat -> aabbtree.does_overlap tree aabb = false).
Proof.
  induction k as [| k IH]; intros i lh lv r tree rng pos aabb rng' H;
    simpl in H; [discriminate |].
  invert_bind H. apply AABB_init_returns in Hrun. subst a.
  destruct (i =? 0)%nat eqn:Ei.
  - injection H as <- <- <-. split; [reflexivity |].
    apply Nat.eqb_eq in Ei. intros Hne; contradiction.
  - destruct (aabbtree.does_overlap tree _) eqn:Eo; simpl in H.
    + eapply IH; eassumption.
    + injection H as <- <- <-. split; [reflexivity | intros _; exact Eo].
Qed.

Lemma pairwise_disjoint_snoc r ps c :
  pairwise_disjoint r ps ->
  (forall p, In p ps ->
     aabbtree.overlaps (inflated_box r p) (inflated_box r c) = false) ->
  pairwise_disjoint r (ps ++ [c]).
Proof.
  intros Hps Hc i j p q Hij Hi Hj.
  assert (Hlen : forall k x, nth_error (ps ++ [c]) k = Some x ->
            (k < List.length ps)%nat /\ nth_error ps k = Some x
            \/ k = List.length ps /\ x = c).
  { intros k x Hk. destruct (Nat.lt_ge_cases k (List.length ps)) as [Hlt | Hge].
    - left. rewrite nth_error_app1 in Hk by assumption. auto.
    - right. rewrite nth_error_app2 in Hk by assumption.
      destruct (k - List.length ps)%nat as [| m] eqn:Em; simpl in Hk.
      + split; [lia | congruence].
      + destruct m; discriminate. }
  destruct (Hlen _ _ Hi) as [[Hi1 Hi2] | [Hi1 Hi2]];
    destruct (Hlen _ _ Hj) as [[Hj1 Hj2] | [Hj1 Hj2]]; subst.
  - eapply Hps; eassumption.
  - apply Hc. eapply nth_error_In; eassumption.
  - rewrite overlaps_sym. apply Hc. eapply nth_error_In; eassumption.
  - contradiction.
Qed.

Lemma place_leaf_invariant i n lh lv r st st' :
  placer_invariant r st -> i = List.length (positions st) ->
  place_leaf i n lh lv r st = Returns st' ->
  placer_invariant r st' /\ List.length (positions st') = S i.
Proof.
  intros [Htree Hpair] Hi H. unfold place_leaf in H.
  invert_bind H. destruct a as [[[pos aabb] |] rng1]; [| discriminate].
  injection H as <-. simpl.
  apply attempt_loop_found in Hrun. destruct Hrun as [-> Hfree].
  split; [split |]; simpl.
  - unfold aabbtree.add. rewrite map_app, rev_app_distr, Htree. reflexivity.
  - apply pairwise_disjoint_snoc; [assumption |].
    intros p Hp. destruct (positions st) as [| p0 ps] eqn:Eps; [contradiction |].
    assert (Hne : i <> 0%nat) by (simpl in Hi; lia).
    apply (does_overlap_false _ _ (Hfree Hne)).
    rewrite Htree. apply in_rev. rewrite rev_involutive. apply in_map. exact Hp.
  - rewrite length_app. simpl. lia.
Qed.

Lemma place_leaves_invariant count : forall i n lh lv r st st',
  placer_invariant r st -> i = List.length (positions st) ->
  place_leaves count i n lh lv r st = Returns st' ->
  placer_invariant r st'
  /\ List.length (positions st') = (i + count)%nat.
Proof.
  induction count as [| count IH]; intros i n lh lv r st st' Hinv Hi H;
    simpl in H.
  - injection H as <-. split; [assumption | lia].
  - invert_bind H.
    destruct (place_leaf_invariant _ _ _ _ _ _ _ Hinv Hi Hrun) as [Hinv1 Hlen1].
    destruct (IH _ _ _ _ _ _ _ Hinv1 (eq_sym Hlen1) H) as [Hinv2 Hlen2].
    split; [assumption | lia].
Qed.

Lemma placer_invariant_initial r rng :
  placer_invariant r (mkPlacer [] aabbtree.empty rng).
Proof.
  split; [reflexivity |].
  intros i j p q _ Hi _. destruct i; discriminate.
Qed.

(** The placer returns one position per requested leaf. *)
Lemma avoid_overlap_length n lh lv r n_attempts rng ps rng' :
  _leaf_cloud_positions_cuboid_avoid_overlap
    (PyInt n) (PyQuantity lh) (PyQuantity lv) (PyQuantity r) n_attempts rng
  = Returns (ps, rng') ->
  List.length ps = Z.to_nat n.
Proof.
  intros H. unfold _leaf_cloud_positions_cuboid_avoid_overlap in H. simpl in H.
  destruct (n <? 0)%Z; simpl in H; [discriminate |].
  invert_bind H. injection H as <- <-.
  apply (place_leaves_invariant _ _ _ _ _ _ _ _
           (placer_invariant_initial r rng) eq_refl Hrun).
Qed.


(** Runs the placer on concrete numbers. *)
Ltac run_placer :=
  unfold _leaf_cloud_positions_cuboid_avoid_overlap;
  repeat (progress (simpl; unfold place_leaf, aabbtree.AABB_init; simpl;
                    decide_comparisons)).


Lemma candidate_at_next lh lv rng j :
  candidate_at lh lv (snd (random3 rng)) j = candidate_at lh lv rng (S j).
Proof.
  unfold candidate_at, random3, advance; simpl.
  replace (cursor rng + 3 + (j + (j + (j + 0))))%nat
    with (cursor rng + S (j + S (j + S (j + 0))))%nat by lia.
  reflexivity.
Qed.

Lemma candidate_at_first lh lv rng :
  candidate_at lh lv rng 0 = cuboid_point lh lv (fst (random3 rng)).
Proof.
  unfold candidate_at, random3, advance; simpl.
  rewrite !Nat.add_0_r. reflexivity.
Qed.

(** The attempt loop, one iteration unfolded. *)
Lemma attempt_loop_step i k lh lv r tree rng :
  attempt_loop i (S k) lh lv r tree rng
  = (let pos_candidate := cuboid_point lh lv (fst (random3 rng)) in
     aabb <- aabbtree.AABB_init (leaf_limits r pos_candidate) ;;
     if (i =? 0)%nat then Returns (Some (pos_candidate, aabb), snd (random3 rng))
     else if negb (aabbtree.does_overlap tree aabb)
          then Returns (Some (pos_candidate, aabb), snd (random3 rng))
          else attempt_loop i k lh lv r tree (snd (random3 rng))).
Proof. reflexivity. Qed.

(** When every candidate of the budget overlaps a placed box, the attempt
    loop of a leaf runs to its end. *)
Lemma attempt_loop_exhausted k : forall i lh lv r tree rng,
  0 <= r -> (i = 0%nat -> tree = aabbtree.empty) ->
  (forall j, (j < k)%nat ->
     aabbtree.does_overlap tree (inflated_box r (candidate_at lh lv rng j))
     = true) ->
  exists rng', attempt_loop i k lh lv r tree rng = Returns (None, rng').
Proof.
  induction k as [| k IH]; intros i lh lv r tree rng Hr Hi Hall.
  - simpl. eauto.
  - assert (H0 := Hall 0%nat ltac:(lia)). rewrite candidate_at_first in H0.
    rewrite attempt_loop_step. cbv zeta.
    rewrite AABB_init_leaf by assumption. cbn [bind].
    destruct (i =? 0)%nat eqn:Ei.
    + apply Nat.eqb_eq in Ei. rewrite (Hi Ei) in H0. discriminate.
    + unfold inflated_box in H0. rewrite H0. cbn [negb].
      apply IH; try assumption.
      intros j Hj. rewrite candidate_at_next. apply Hall. lia.
Qed.

Lemma place_leaves_app a : forall b i n lh lv r st,
  place_leaves (a + b) i n lh lv r st
  = (st1 <- place_leaves a i n lh lv r st ;;
     place_leaves b (i + a) n lh lv r st1).
Proof.
  induction a as [| a IH]; intros b i n lh lv r st; simpl.
  - rewrite Nat.add_0_r. reflexivity.
  - destruct (place_leaf i n lh lv r st) as [st1 | e | |]; simpl; try reflexivity.
    rewrite IH. replace (S i + a)%nat with (i + S a)%nat by lia. reflexivity.
Qed.

(** The placement raises as soon as the attempt loop of a leaf runs to
    its end. *)
Lemma exhausted_leaf_raises n i lh lv r n_attempts rng st :
  (Z.of_nat i < n)%Z -> 0 <= r ->
  place_leaves i 0 n_attempts lh lv r (mkPlacer [] aabbtree.empty rng)
  = Returns st ->
  (forall j, (j < Z.to_nat n_attempts)%nat ->
     aabbtree.does_overlap (tree st)
       (inflated_box r (candidate_at lh lv (placer_rng st) j)) = true) ->
  _leaf_cloud_positions_cuboid_avoid_overlap
    (PyInt n) (PyQuantity lh) (PyQuantity lv) (PyQuantity r) n_attempts rng
  = Raises (RuntimeError msg_too_dense).
Proof.
  intros Hi Hr Hprefix Hall.
  unfold _leaf_cloud_positions_cuboid_avoid_overlap. simpl.
  destruct (n <? 0)%Z eqn:En; [apply Z.ltb_lt in En; lia |]. simpl.
  replace (Z.to_nat n) with (i + S (Z.to_nat n - S i))%nat by lia.
  rewrite place_leaves_app, Hprefix. simpl.
  assert (Htree : i = 0%nat -> tree st = aabbtree.empty).
  { intros ->. simpl in Hprefix. injection Hprefix as <-. reflexivity. }
  destruct (attempt_loop_exhausted _ i lh lv r _ _ Hr Htree Hall) as [rng' E].
  unfold place_leaf. rewrite E. reflexivity.
Qed.

(** Two boxes of leaves of a cuboid that is no wider and no higher than a
    leaf overlap, wherever the leaves are drawn. *)
Lemma overlaps_in_dense_cuboid r lh lv u v :
  0 < r -> 0 <= lh <= 2 * r -> 0 <= lv <= 2 * r ->
  (let '(u0, u1, u2) := u in
   0 <= u0 < 1 /\ 0 <= u1 < 1 /\ 0 <= u2 < 1) ->
  (let '(v0, v1, v2) := v in
   0 <= v0 < 1 /\ 0 <= v1 < 1 /\ 0 <= v2 < 1) ->
  aabbtree.overlaps (inflated_box r (cuboid_point lh lv u))
                    (inflated_box r (cuboid_point lh lv v)) = true.
Proof.
  destruct u as [[u0 u1] u2], v as [[v0 v1] v2].
  intros Hr Hlh Hlv [Hu0 [Hu1 Hu2]] [Hv0 [Hv1 Hv2]]. simpl.
  rewrite !Rltb_true by nra. reflexivity.
Qed.

(** The exhaustion scenario: in a cuboid that is no wider and no higher
    than a leaf, the second leaf cannot be placed, and asking for two
    leaves or more raises the error of the too dense canopy whatever the
    seed and the attempt budget. *)
Lemma dense_cuboid_raises n lh lv r n_attempts rng :
  (2 <= n)%Z -> 0 < r -> 0 <= lh <= 2 * r -> 0 <= lv <= 2 * r ->
  (forall k, 0 <= draws rng k < 1) ->
  _leaf_cloud_positions_cuboid_avoid_overlap
    (PyInt n) (PyQuantity lh) (PyQuantity lv) (PyQuantity r) n_attempts rng
  = Raises (RuntimeError msg_too_dense).
Proof.
  intros Hn Hr Hlh Hlv Hdraws.
  destruct (Z.to_nat n_attempts) as [| k] eqn:Ek.
  - apply (exhausted_leaf_raises n 0 lh lv r n_attempts rng
             (mkPlacer [] aabbtree.empty rng));
      [lia | lra | reflexivity | intros j Hj; lia].
  - apply (exhausted_leaf_raises n 1 lh lv r n_attempts rng
             (mkPlacer [cuboid_point lh lv (fst (random3 rng))]
                [inflated_box r (cuboid_point lh lv (fst (random3 rng)))]
                (snd (random3 rng)))); [lia | lra | |].
    + cbn [place_leaves]. unfold place_leaf. cbn [tree placer_rng positions].
      rewrite Ek, attempt_loop_step. cbv zeta.
      rewrite AABB_init_leaf by lra. reflexivity.
    + intros j Hj. cbn [tree placer_rng]. unfold aabbtree.does_overlap.
      cbn [existsb]. unfold candidate_at.
      rewrite overlaps_in_dense_cuboid; try assumption; try reflexivity.
      * unfold random3. cbn [fst]. repeat split; apply Hdraws.
      * unfold random3, advance. cbn [fst snd draws cursor].
        repeat split; apply Hdraws.
Qed.

(** C5.  Let the first [i] leaves be placed, and let every one of the
    [n_attempts] candidates drawn for leaf [i] have a box that overlaps a
    box already in the tree.  Then the placement as a whole raises the
    error of the too dense canopy: no result, partial or other, is
    returned. *)
Theorem placement_exhaustion_raises :
  forall (n : Z) (i : nat) (l_horizontal l_vertical leaf_radius : R)
         (n_attempts : Z) (rng : Generator) (st : placer),
    (Z.of_nat i < n)%Z -> 0 <= leaf_radius ->
    place_leaves i 0 n_attempts l_horizontal l_vertical leaf_radius
      (mkPlacer [] aabbtree.empty rng) = Returns st ->
    (forall j, (j < Z.to_nat n_attempts)%nat ->
       aabbtree.does_overlap (tree st)
         (inflated_box leaf_radius
            (candidate_at l_horizontal l_vertical (placer_rng st) j)) = true) ->
    _leaf_cloud_positions_cuboid_avoid_overlap
      (PyInt n) (PyQuantity l_horizontal) (PyQuantity l_vertical)
      (PyQuantity leaf_radius) n_attempts rng
    = Raises (RuntimeError msg_too_dense).
Proof.
  intros n i lh lv r n_attempts rng st Hi Hr Hprefix Hall.
  exact (exhausted_leaf_raises n i lh lv r n_attempts rng st
           Hi Hr Hprefix Hall).
Qed.

Lemma placement_exhaustion_raises_witness :
  _leaf_cloud_positions_cuboid_avoid_overlap
    (PyInt 2) (PyQuantity 1) (PyQuantity 1) (PyQuantity 1) 2
    (constant_generator (1/2))
  = Raises (RuntimeError msg_too_dense).
Proof.
  apply (placement_exhaustion_raises 2 1 1 1 1 2 (constant_generator (1/2))
           (mkPlacer [cuboid_point 1 1 (1/2, 1/2, 1/2)]
              [inflated_box 1 (cuboid_point 1 1 (1/2, 1/2, 1/2))]
              (advance 3 (constant_generator (1/2))))).
  - lia.
  - lra.
  - run_placer. reflexivity.
  - intros j Hj. unfold candidate_at. simpl. decide_comparisons. reflexivity.
Defined.

(** C10.  Leaf 0 is accepted on its first candidate whatever the tree
    holds, as soon as one attempt is allowed.  For one leaf and a budget
    of at least one attempt the placement therefore returns the first
    candidate when the leaf radius is not negative, and for every leaf
    radius and every extent it does not raise the error of the too dense
    canopy. *)
Theorem first_leaf_placed_unchecked :
  forall (l_horizontal l_vertical leaf_radius : R) (n_attempts : Z)
         (rng : Generator),
    (1 <= n_attempts)%Z ->
    let first := cuboid_point l_horizontal l_vertical (fst (random3 rng)) in
    (forall tree, 0 <= leaf_radius ->
       attempt_loop 0 (Z.to_nat n_attempts)
         l_horizontal l_vertical leaf_radius tree rng
       = Returns (Some (first, inflated_box leaf_radius first),
                  snd (random3 rng)))
    /\ (0 <= leaf_radius ->
        _leaf_cloud_positions_cuboid_avoid_overlap
          (PyInt 1) (PyQuantity l_horizontal) (PyQuantity l_vertical)
          (PyQuantity leaf_radius) n_attempts rng
        = Returns ([first], snd (random3 rng)))
    /\ _leaf_cloud_positions_cuboid_avoid_overlap
         (PyInt 1) (PyQuantity l_horizontal) (PyQuantity l_vertical)
         (PyQuantity leaf_radius) n_attempts rng
       <> Raises (RuntimeError msg_too_dense).
Proof.
  intros lh lv r n_attempts rng Hn first.
  destruct (Z.to_nat n_attempts) as [| k] eqn:Ek; [lia |].
  assert (Hloop : forall tree, 0 <= r ->
            attempt_loop 0 (S k) lh lv r tree rng
            = Returns (Some (first, inflated_box r first), snd (random3 rng))).
  { intros tree Hr. rewrite attempt_loop_step. cbv zeta.
    rewrite AABB_init_leaf by assumption. reflexivity. }
  assert (Hall : 0 <= r ->
            _leaf_cloud_positions_cuboid_avoid_overlap
              (PyInt 1) (PyQuantity lh) (PyQuantity lv) (PyQuantity r)
              n_attempts rng
            = Returns ([first], snd (random3 rng))).
  { intros Hr. unfold _leaf_cloud_positions_cuboid_avoid_overlap. simpl.
    unfold place_leaf. simpl tree. simpl placer_rng. rewrite Ek.
    rewrite (Hloop aabbtree.empty Hr). reflexivity. }
  split; [exact Hloop | split; [exact Hall |]].
  destruct (Rle_lt_dec 0 r) as [Hr | Hr].
  - rewrite (Hall Hr). discriminate.
  - unfold _leaf_cloud_positions_cuboid_avoid_overlap. simpl.
    unfold place_leaf. simpl tree. simpl placer_rng. rewrite Ek.
    rewrite attempt_loop_step. cbv zeta.
    rewrite AABB_init_leaf_negative by assumption. simpl. discriminate.
Qed.

Lemma first_leaf_placed_unchecked_witness :
  _leaf_cloud_positions_cuboid_avoid_overlap
    (PyInt 1) (PyQuantity 1) (PyQuantity 1) (PyQuantity 1) 1
    (constant_generator (1/2))
  <> Raises (RuntimeError msg_too_dense).
Proof.
  apply (first_leaf_placed_unchecked 1 1 1 1 (constant_generator (1/2))).
  lia.
Defined.

(** ** The orientation sampler *)

Lemma orientation_norm2 theta phi : norm2 (orientation theta phi) = 1.
Proof.
  unfold norm2, orientation.
  pose proof (sin2_cos2 theta) as Ht. pose proof (sin2_cos2 phi) as Hp.
  unfold Rsqr in Ht, Hp.
  replace (sin theta * cos phi * (sin theta * cos phi)
           + sin theta * sin phi * (sin theta * sin phi)
           + cos theta * cos theta)
    with (sin theta * sin theta * (sin phi * sin phi + cos phi * cos phi)
          + cos theta * cos theta) by ring.
  rewrite Hp, Rmult_1_r. exact Ht.
Qed.

Lemma orientation_norm theta phi : norm (orientation theta phi) = 1.
Proof. unfold norm. rewrite orientation_norm2. exact sqrt_1. Qed.

Lemma orientations_loop_norm env fuel n : forall mu nu rng rows rng',
  orientations_loop env fuel n mu nu rng = Returns (rows, rng') ->
  Forall (fun v => norm v = 1) rows.
Proof.
  induction n as [| n IH]; intros mu nu rng rows rng' H; simpl in H.
  - injection H as <- <-. constructor.
  - invert_bind H. destruct a as [x rng1].
    invert_bind H. destruct a as [rest rng3]. injection H as <- <-.
    constructor; [apply orientation_norm | eapply IH; eassumption].
Qed.

(** C9, amended.  Whatever [mu], [nu], the leaf count and the numbers
    drawn: when the orientation sampler returns its array without having
    evaluated [0.0 / 0.0] for a zenith sample, every row of the array has
    Euclidean norm 1 in exact arithmetic, the row being built from the
    sine and cosine of two angles. *)
Theorem orientations_have_unit_norm :
  forall (env : environment) (fuel : nat) (n_leaves : pyobj) (mu nu : R)
         (rng rng' : Generator) (rows : list vec3),
    _leaf_cloud_orientations env fuel n_leaves mu nu rng
    = Returns (rows, rng') ->
    Forall (fun v => norm v = 1) rows.
Proof.
  intros env fuel n_leaves mu nu rng rng' rows H.
  unfold _leaf_cloud_orientations in H. invert_bind H.
  eapply orientations_loop_norm; eassumption.
Qed.

Lemma Rpower_quarter : Rpower (1 / 4) (1 / 1) = 1 / 4.
Proof.
  replace (1 / 1) with 1 by lra. apply Rpower_1. lra.
Qed.

(** Evaluates the inverse-beta sampler on the sample environments. *)
Ltac run_inversebeta :=
  unfold py_div; decide_comparisons; simpl;
  unfold underflowing_power, exact_power; decide_comparisons; simpl;
  try rewrite Rpower_quarter; decide_comparisons; simpl.

Lemma orientations_have_unit_norm_witness :
  Forall (fun v => norm v = 1)
    [orientation (rad2deg (1 / 4 / (1 / 4 + 1 / 4))) (1 / 4 * 360)].
Proof.
  apply (orientations_have_unit_norm sample_environment 1 (PyInt 1) 1 1
           (constant_generator (1 / 4))
           (advance 1 (advance 2 (constant_generator (1 / 4))))).
  unfold _leaf_cloud_orientations. simpl. run_inversebeta. reflexivity.
Defined.

(** C9 as stated fails.  With [mu = nu = 1] and a generator that draws
    [0.0], both powers are [0.0] and the zenith sample of the first row
    is [0.0 / 0.0]; with [mu = nu = 0.001] and a generator that draws
    [1/4], both powers [0.25 ** 1000] underflow to [0.0], with the same
    effect.  The row written is then [(nan, nan, nan)], whose norm is
    not 1. *)
Lemma orientations_nan_counterexample :
  _leaf_cloud_orientations sample_environment 1 (PyInt 1) 1 1
    (constant_generator 0) = NotANumber
  /\ _leaf_cloud_orientations underflowing_environment 1 (PyInt 1)
       (1 / 1000) (1 / 1000) (constant_generator (1 / 4)) = NotANumber.
Proof.
  split; unfold _leaf_cloud_orientations; simpl; run_inversebeta;
    reflexivity.
Qed.

(** ** Parameter resolution *)

Module CuboidFacts.
Import CuboidLeafCloudParams.

(** A property whose field is set returns it and leaves the object as
    it is. *)
Lemma n_leaves_cached d s v :
  _n_leaves s = Some v -> n_leaves d s = Returns (v, s).
Proof. intros H. destruct d; simpl; rewrite H; reflexivity. Qed.

Lemma lai_cached d s v : _lai s = Some v -> lai d s = Returns (v, s).
Proof. intros H. destruct d; simpl; rewrite H; reflexivity. Qed.

Lemma leaf_radius_cached d s v :
  _leaf_radius s = Some v -> leaf_radius d s = Returns (v, s).
Proof. intros H. destruct d; simpl; rewrite H; reflexivity. Qed.

Lemma l_horizontal_cached d s v :
  _l_horizontal s = Some v -> l_horizontal d s = Returns (v, s).
Proof. intros H. destruct d; simpl; rewrite H; reflexivity. Qed.

Lemma l_vertical_cached d s v :
  _l_vertical s = Some v -> l_vertical d s = Returns (v, s).
Proof. intros H. unfold l_vertical. rewrite H. reflexivity. Qed.

(** The formulas followed when the field is not set. *)
Lemma n_leaves_unset d s :
  _n_leaves s = None ->
  n_leaves (S d) s
  = ('(lai_, s1) <- lai d s ;;
     '(lh, s2) <- l_horizontal d s1 ;;
     '(r, s3) <- leaf_radius d s2 ;;
     q <- py_div lh r ;;
     let v := py_int (lai_ * q ^ 2 / PI) in
     Returns (v, set_n_leaves s3 v)).
Proof. intros H. simpl. rewrite H. reflexivity. Qed.

Lemma lai_unset d s :
  _lai s = None ->
  lai (S d) s
  = ('(r, s1) <- leaf_radius d s ;;
     '(lh, s2) <- l_horizontal d s1 ;;
     q <- py_div r lh ;;
     '(n, s3) <- n_leaves d s2 ;;
     let v := PI * q ^ 2 * IZR n in
     Returns (v, set_lai s3 v)).
Proof. intros H. simpl. rewrite H. reflexivity. Qed.

Lemma leaf_radius_unset d s :
  _leaf_radius s = None ->
  leaf_radius (S d) s
  = ('(lai_, s1) <- lai d s ;;
     '(n, s2) <- n_leaves d s1 ;;
     q <- py_div lai_ (IZR n * PI) ;;
     '(lh, s3) <- l_horizontal d s2 ;;
     let v := sqrt q * lh in
     Returns (v, set_leaf_radius s3 v)).
Proof. intros H. simpl. rewrite H. reflexivity. Qed.

Lemma l_horizontal_unset d s :
  _l_horizontal s = None ->
  l_horizontal (S d) s
  = ('(r, s1) <- leaf_radius d s ;;
     '(n, s2) <- n_leaves d s1 ;;
     '(lai_, s3) <- lai d s2 ;;
     v <- py_div (PI * r ^ 2 * IZR n) lai_ ;;
     Returns (v, set_l_horizontal s3 v)).
Proof. intros H. simpl. rewrite H. reflexivity. Qed.

Lemma py_div_nonzero x y : y <> 0 -> py_div x y = Returns (x / y).
Proof. intros H. unfold py_div. rewrite Reqb_false by assumption. reflexivity. Qed.

Lemma set_lai_without_lai s v :
  _lai s = Some v -> set_lai (without_lai s) v = s.
Proof. intros H. destruct s; simpl in *. subst. reflexivity. Qed.

End CuboidFacts.

(** C6.  Take the keyword arguments [n_leaves], [leaf_radius],
    [l_horizontal] and [lai] of a cuboid parameter object, consistent in
    that [n_leaves = lai * (l_horizontal / leaf_radius)^2 / pi].  Once [lai]
    is taken out, the property [lai] computes the value that was taken
    out; and when [l_vertical] is given too, the constructor run on the
    three remaining arguments builds the object that holds the four. *)
Theorem lai_round_trip :
  forall (env : environment) (d : nat) (p : CuboidLeafCloudParams.t)
         (n : Z) (r lh lai_ : R),
    CuboidLeafCloudParams._n_leaves p = Some n ->
    CuboidLeafCloudParams._leaf_radius p = Some r ->
    CuboidLeafCloudParams._l_horizontal p = Some lh ->
    CuboidLeafCloudParams._lai p = Some lai_ ->
    r <> 0 -> lh <> 0 ->
    IZR n = lai_ * (lh / r) ^ 2 / PI ->
    CuboidLeafCloudParams.lai (S d) (CuboidLeafCloudParams.without_lai p)
    = Returns (lai_, p)
    /\ (CuboidLeafCloudParams._l_vertical p <> None ->
        (1 <= recursion_limit env)%nat ->
        CuboidLeafCloudParams.init env (CuboidLeafCloudParams.without_lai p)
        = Returns p).
Proof.
  intros env d p n r lh lai_ Hn Hr Hlh Hlai Hr0 Hlh0 Hcons.
  assert (Hlaip : forall k,
            CuboidLeafCloudParams.lai (S k) (CuboidLeafCloudParams.without_lai p)
            = Returns (lai_, p)).
  { intros k. rewrite CuboidFacts.lai_unset by reflexivity.
    rewrite (CuboidFacts.leaf_radius_cached _ _ r) by exact Hr. cbn [bind].
    rewrite (CuboidFacts.l_horizontal_cached _ _ lh) by exact Hlh. cbn [bind].
    rewrite CuboidFacts.py_div_nonzero by assumption. cbn [bind].
    rewrite (CuboidFacts.n_leaves_cached _ _ n) by exact Hn. cbn [bind].
    cbv zeta.
    replace (PI * (r / lh) ^ 2 * IZR n) with lai_.
    - rewrite CuboidFacts.set_lai_without_lai by assumption. reflexivity.
    - rewrite Hcons. field. repeat split; auto using PI_neq0. }
  split; [apply Hlaip |].
  intros Hlv Hdepth.
  destruct (CuboidLeafCloudParams._l_vertical p) as [lv |] eqn:Elv;
    [| contradiction].
  unfold CuboidLeafCloudParams.init, CuboidLeafCloudParams.update.
  destruct (recursion_limit env) as [| k]; [lia |].
  rewrite (CuboidFacts.n_leaves_cached _ _ n) by exact Hn. cbn [reading bind].
  rewrite (CuboidFacts.leaf_radius_cached _ _ r) by exact Hr. cbn [reading bind].
  rewrite (CuboidFacts.l_horizontal_cached _ _ lh) by exact Hlh.
  cbn [reading bind].
  rewrite (CuboidFacts.l_vertical_cached _ _ lv) by exact Elv.
  cbn [reading bind].
  rewrite Hlaip. reflexivity.
Qed.

Lemma lai_round_trip_witness :
  CuboidLeafCloudParams.lai 1 (CuboidLeafCloudParams.without_lai unit_leaf_params)
  = Returns (PI, unit_leaf_params).
Proof.
  apply (lai_round_trip sample_environment 0 unit_leaf_params 1 1 1 PI);
    try reflexivity; try lra.
  simpl. field. apply PI_neq0.
Defined.

Lemma PI_gt_3 : 3 < PI.
Proof. pose proof PI2_3_2. lra. Qed.

(** What the relation [n_leaves = lai * (l_horizontal / leaf_radius)^2 / pi]
    gives for the horizontal extent that the property [l_horizontal]
    computes: [pi * leaf_radius^2 * n_leaves^2 / lai], and not [n_leaves]. *)
Lemma l_horizontal_back_substitution (n r lai_ : R) :
  r <> 0 -> lai_ <> 0 ->
  lai_ * ((PI * r ^ 2 * n / lai_) / r) ^ 2 / PI = PI * r ^ 2 * n ^ 2 / lai_.
Proof. intros Hr Hl. field. repeat split; auto using PI_neq0. Qed.

(** The horizontal extent that does invert the relation. *)
Lemma l_horizontal_inverse (n r lai_ : R) :
  0 < r -> 0 < lai_ -> 0 <= n ->
  lai_ * ((r * sqrt (PI * n / lai_)) / r) ^ 2 / PI = n.
Proof.
  intros Hr Hl Hn.
  replace (r * sqrt (PI * n / lai_) / r) with (sqrt (PI * n / lai_))
    by (field; lra).
  simpl. rewrite Rmult_1_r, sqrt_sqrt.
  - field. pose proof PI_neq0. split; [lra | assumption].
  - apply Rmult_le_pos; [| left; apply Rinv_0_lt_compat; assumption].
    apply Rmult_le_pos; [left; apply PI_RGT_0 | assumption].
Qed.

(** C3, on the code.  For [n_leaves = 2], [lai = 1] and [leaf_radius = 1]
    the property [l_horizontal] resolves to [2 * pi]; with that extent in
    place of the leaf count, the property [n_leaves] resolves to at least
    12 leaves, where 2 were given. *)
Theorem l_horizontal_does_not_invert :
  exists lh s,
    CuboidLeafCloudParams.l_horizontal 1 two_leaves_params = Returns (lh, s)
    /\ lh = 2 * PI
    /\ exists n' s',
         CuboidLeafCloudParams.n_leaves 1
           (CuboidLeafCloudParams.without_n_leaves s) = Returns (n', s')
         /\ (12 <= n')%Z.
Proof.
  eexists. eexists. split; [| split].
  - unfold two_leaves_params. simpl. unfold py_div. decide_comparisons.
    reflexivity.
  - simpl. lra.
  - eexists. eexists. split.
    + simpl. unfold py_div. decide_comparisons. reflexivity.
    + unfold py_int. pose proof PI_gt_3 as Hpi.
      match goal with
      | |- context [Zfloor ?x] =>
          assert (Hval : x = 4 * PI) by (field; apply PI_neq0); rewrite Hval
      end.
      rewrite Rleb_true by lra.
      apply Zfloor_lub. simpl. lra.
Qed.

(** ** Translation of a leaf cloud *)

Lemma init_returns env id ps os rs refl trans lc :
  LeafCloud.init env id ps os rs refl trans = Returns lc ->
  List.length ps = List.length os /\ List.length os = List.length rs
  /\ forallb (is_positive env) rs = true
  /\ lc = LeafCloud.mk id ps os rs refl trans.
Proof.
  unfold LeafCloud.init. intros H.
  destruct (List.length ps =? List.length os)%nat eqn:E1;
    [| discriminate].
  destruct (List.length os =? List.length rs)%nat eqn:E2;
    [| discriminate].
  destruct (forallb (is_positive env) rs) eqn:E3; [| discriminate].
  simpl in H. injection H as <-.
  apply Nat.eqb_eq in E1, E2. auto.
Qed.

Lemma init_same_length env id (ps ps' : array3) os rs refl trans :
  LeafCloud.init env id ps os rs refl trans
  = Returns (LeafCloud.mk id ps os rs refl trans) ->
  List.length ps' = List.length ps ->
  LeafCloud.init env id ps' os rs refl trans
  = Returns (LeafCloud.mk id ps' os rs refl trans).
Proof.
  intros H Hlen. apply init_returns in H. destruct H as [H1 [H2 [H3 _]]].
  unfold LeafCloud.init. rewrite Hlen, H1, H2, !Nat.eqb_refl, H3. reflexivity.
Qed.

Lemma nth_error_map_combine {A B C : Type} (f : A * B -> C) (xs : list A) :
  forall (ys : list B) i x y,
    nth_error xs i = Some x -> nth_error ys i = Some y ->
    nth_error (map f (combine xs ys)) i = Some (f (x, y)).
Proof.
  induction xs as [| a xs IH]; intros ys i x y Hx Hy.
  - destruct i; discriminate.
  - destruct ys as [| b ys]; [destruct i; discriminate |].
    destruct i as [| i]; simpl in *.
    + congruence.
    + eapply IH; eassumption.
Qed.

(** C8, amended.  For a leaf cloud built by its constructor whose leaf
    positions are an (N, 3) array, [N >= 0]: [translated] with a 3-vector
    returns the cloud whose positions are the original ones plus the
    vector and whose other fields are the original ones; with an array
    of as many rows as there are leaves, it returns the cloud whose
    position of index [i] is the original one plus row [i], the other
    fields being the original ones; with an array of another number of
    rows it raises the shape error.  [translated] assigns nothing to the
    original cloud. *)
Theorem translated_adds_to_positions :
  forall (env : environment) (lc : LeafCloud.t) (positions : list vec3),
    constructed env lc ->
    LeafCloud.leaf_positions lc = rows3 positions ->
    (forall v,
       LeafCloud.translated env lc (LeafCloud.vector3 v)
       = Returns (LeafCloud.mk (LeafCloud.id lc)
                    (rows3 (map (fun p => vec3_add p v) positions))
                    (LeafCloud.leaf_orientations lc) (LeafCloud.leaf_radii lc)
                    (LeafCloud.leaf_reflectance lc)
                    (LeafCloud.leaf_transmittance lc)))
    /\ (forall rows,
          List.length rows = List.length positions ->
          exists ps,
            LeafCloud.translated env lc (LeafCloud.array_n3 rows)
            = Returns (LeafCloud.mk (LeafCloud.id lc) (rows3 ps)
                         (LeafCloud.leaf_orientations lc)
                         (LeafCloud.leaf_radii lc)
                         (LeafCloud.leaf_reflectance lc)
                         (LeafCloud.leaf_transmittance lc))
            /\ List.length ps = List.length positions
            /\ forall i p w,
                 nth_error positions i = Some p ->
                 nth_error rows i = Some w ->
                 nth_error ps i = Some (vec3_add p w))
    /\ (forall rows,
          List.length rows <> List.length positions ->
          LeafCloud.translated env lc (LeafCloud.array_n3 rows)
          = Raises (ValueError (msg_shapes_do_not_match
                      [List.length rows; 3%nat]
                      [List.length positions; 3%nat]))).
Proof.
  intros env [i0 ps0 os rs refl trans] ps Hc Hps. unfold constructed in Hc.
  simpl in Hc, Hps. subst ps0. simpl.
  assert (Hc' : LeafCloud.init env i0 (rows3 ps) os rs refl trans
                = Returns (LeafCloud.mk i0 (rows3 ps) os rs refl trans))
    by exact Hc.
  split; [| split].
  - intros v. unfold LeafCloud.translated, LeafCloud.evolve; simpl.
    apply (init_same_length _ _ (rows3 ps)); [assumption |].
    simpl. apply length_map.
  - intros rows Hlen.
    exists (map (fun pv => vec3_add (fst pv) (snd pv)) (combine ps rows)).
    assert (Hl : List.length
                   (map (fun pv => vec3_add (fst pv) (snd pv)) (combine ps rows))
                 = List.length ps).
    { rewrite length_map, length_combine, Hlen. apply Nat.min_id. }
    split; [| split].
    + unfold LeafCloud.translated; simpl. rewrite Hlen, Nat.eqb_refl.
      unfold LeafCloud.evolve; simpl.
      apply (init_same_length _ _ (rows3 ps)); assumption.
    + exact Hl.
    + intros i p w Hp Hw.
      apply (nth_error_map_combine (fun pv => vec3_add (fst pv) (snd pv)));
        assumption.
  - intros rows Hlen. apply Nat.eqb_neq in Hlen.
    unfold LeafCloud.translated; simpl. rewrite Hlen. reflexivity.
Qed.

Lemma translated_adds_to_positions_witness :
  LeafCloud.translated sample_environment one_leaf (LeafCloud.vector3 (1, 2, 3))
  = Returns (LeafCloud.mk "leaf_cloud" [vec3_add (0, 0, 0) (1, 2, 3)]
               [(0, 0, 1)] [1] 0.5 0.5).
Proof.
  apply (translated_adds_to_positions sample_environment one_leaf [(0, 0, 0)]).
  - unfold constructed, LeafCloud.init. simpl. decide_comparisons. reflexivity.
  - reflexivity.
Defined.

(** The leaf cloud loaded from a file without lines has the positions of
    [LeafCloud()]. *)
Lemma empty_file_leaf_cloud :
  LeafCloud.from_file loading_environment (Some "empty.txt"%string)
    0.5 0.5 "leaf_cloud"
  = Returns LeafCloud.default.
Proof. reflexivity. Qed.

(** C8 as stated fails on the leaf cloud [LeafCloud()], which goes
    through its constructor as every cloud does: its positions are the
    array [np.array([])] of shape (0,), and adding the 3-vector,
    reshaped to (1, 3), raises the broadcasting error of NumPy instead
    of returning a cloud. *)
Lemma translated_counterexample :
  constructed sample_environment LeafCloud.default
  /\ LeafCloud.translated sample_environment LeafCloud.default
       (LeafCloud.vector3 (1, 2, 3))
     = Raises (ValueError
                 (msg_could_not_be_broadcast [0%nat] [1%nat; 3%nat])).
Proof.
  split; [| reflexivity].
  unfold constructed, LeafCloud.init. simpl. reflexivity.
Qed.

(** ** Padding *)

Lemma py_range_offset_factors p :
  py_range (- p) (p + 1) = offset_factors p.
Proof.
  unfold py_range, offset_factors.
  replace (p + 1 - - p)%Z with (2 * p + 1)%Z by lia.
  apply map_ext. intros k. lia.
Qed.

Lemma product_offset_pairs p :
  product (offset_factors p) (offset_factors p) = offset_pairs p.
Proof. unfold product, offset_pairs. apply flat_map_concat_map. Qed.

Lemma new_instance_positions_padded p sx sy old :
  DiscreteCanopy.new_instance_positions sx sy (py_range (- p) (p + 1)) old
  = padded_positions p sx sy old.
Proof.
  unfold DiscreteCanopy.new_instance_positions, padded_positions.
  rewrite py_range_offset_factors, product_offset_pairs, flat_map_concat_map.
  f_equal. apply map_ext. intros [i j]. simpl.
  rewrite (Rmult_comm sx), (Rmult_comm sy). reflexivity.
Qed.

Lemma length_flat_map_constant {A B : Type} (f : A -> list B) (n : nat) l :
  (forall x, List.length (f x) = n) ->
  List.length (flat_map f l) = (List.length l * n)%nat.
Proof.
  intros Hf. induction l as [| x l IH]; simpl; [reflexivity |].
  rewrite length_app, Hf, IH. reflexivity.
Qed.

Lemma length_offset_factors p : List.length (offset_factors p) = Z.to_nat (2 * p + 1).
Proof. unfold offset_factors. rewrite length_map, length_seq. reflexivity. Qed.

Lemma length_padded_positions p sx sy old :
  List.length (padded_positions p sx sy old)
  = (Z.to_nat (2 * p + 1) * Z.to_nat (2 * p + 1) * List.length old)%nat.
Proof.
  unfold padded_positions. rewrite <- flat_map_concat_map.
  rewrite (length_flat_map_constant _ (List.length old))
    by (intros; apply length_map).
  unfold offset_pairs. rewrite <- flat_map_concat_map.
  rewrite (length_flat_map_constant _ (List.length (offset_factors p)))
    by (intros; apply length_map).
  rewrite length_offset_factors. reflexivity.
Qed.

Lemma nth_error_flat_map_constant {A B : Type} (f : A -> list B) (n : nat) :
  (forall a, List.length (f a) = n) ->
  forall l k m x,
    nth_error l k = Some x -> (m < n)%nat ->
    nth_error (flat_map f l) (k * n + m) = nth_error (f x) m.
Proof.
  intros Hf. induction l as [| a l IH]; intros k m x Hk Hm.
  - destruct k; discriminate.
  - destruct k as [| k]; simpl in Hk |- *.
    + injection Hk as ->. apply nth_error_app1. rewrite Hf. exact Hm.
    + rewrite nth_error_app2 by (rewrite Hf; lia).
      rewrite Hf. replace (n + k * n + m - n)%nat with (k * n + m)%nat by lia.
      apply IH; assumption.
Qed.

Lemma nth_error_offset_factors p k :
  (k < Z.to_nat (2 * p + 1))%nat ->
  nth_error (offset_factors p) k = Some (Z.of_nat k - p)%Z.
Proof.
  intros Hk. unfold offset_factors.
  rewrite nth_error_map, nth_error_seq.
  destruct (Nat.ltb_spec k (Z.to_nat (2 * p + 1))); [reflexivity | lia].
Qed.

Lemma nth_error_offset_pairs p a b :
  (a < Z.to_nat (2 * p + 1))%nat -> (b < Z.to_nat (2 * p + 1))%nat ->
  nth_error (offset_pairs p) (a * Z.to_nat (2 * p + 1) + b)
  = Some ((Z.of_nat a - p)%Z, (Z.of_nat b - p)%Z).
Proof.
  intros Ha Hb. unfold offset_pairs. rewrite <- flat_map_concat_map.
  rewrite (nth_error_flat_map_constant _ (Z.to_nat (2 * p + 1)) 
             (fun _ => eq_trans (length_map _ _) (length_offset_factors p))
             _ a b (Z.of_nat a - p)%Z (nth_error_offset_factors p a Ha) Hb).
  rewrite nth_error_map, (nth_error_offset_factors p b Hb). reflexivity.
Qed.

(** The slices of the padded array: with [n] original positions, the row
    of index [k * n + m], where [k = a * (2p+1) + b] is the rank of the
    pair of offset factors [(a - p, b - p)], is the original row [m]
    translated by the offset of that pair. *)
Lemma padded_positions_slice p sx sy old a b m pos :
  (a < Z.to_nat (2 * p + 1))%nat -> (b < Z.to_nat (2 * p + 1))%nat ->
  nth_error old m = Some pos ->
  nth_error (padded_positions p sx sy old)
            ((a * Z.to_nat (2 * p + 1) + b) * List.length old + m)
  = Some (vec3_add pos (IZR (Z.of_nat a - p) * sx,
                        IZR (Z.of_nat b - p) * sy, 0)).
Proof.
  intros Ha Hb Hm. unfold padded_positions. rewrite <- flat_map_concat_map.
  assert (Hlt : (m < List.length old)%nat)
    by (apply nth_error_Some; congruence).
  rewrite (nth_error_flat_map_constant _ (List.length old)
             (fun _ => length_map _ _) _ _ m _
             (nth_error_offset_pairs p a b Ha Hb) Hlt).
  rewrite nth_error_map, Hm. reflexivity.
Qed.

(** The entries of a canopy whose entries are objects of their own, read
    in order, are its elements. *)
Lemma listed_in_order {A : Type} : forall (todo done : list A),
  flat_map (fun reference =>
              match nth_error (done ++ todo) reference with
              | Some element => [element]
              | None => []
              end)
           (seq (List.length done) (List.length todo))
  = todo.
Proof.
  induction todo as [| e todo IH]; intros done; [reflexivity |].
  cbn [List.length seq flat_map].
  rewrite nth_error_app2 by lia. rewrite Nat.sub_diag. cbn [nth_error app].
  f_equal. specialize (IH (done ++ [e])).
  rewrite <- app_assoc in IH. cbn [app] in IH.
  rewrite length_app in IH. cbn [List.length] in IH.
  rewrite Nat.add_1_r in IH. exact IH.
Qed.

Lemma content_fresh c : DiscreteCanopy.content (DiscreteCanopy.fresh c) = c.
Proof.
  destruct c as [i sz els]. unfold DiscreteCanopy.content, DiscreteCanopy.fresh.
  cbn [DiscreteCanopy.stored_id DiscreteCanopy.stored_size
       DiscreteCanopy.objects DiscreteCanopy.listed
       DiscreteCanopy.id DiscreteCanopy.size
       DiscreteCanopy.instanced_canopy_elements].
  f_equal. exact (listed_in_order els []).
Qed.

Lemma assign_after {A : Type} (e e' : A) : forall done todo,
  DiscreteCanopy.assign (List.length done) e' (done ++ e :: todo)
  = done ++ e' :: todo.
Proof.
  induction done as [| d done IH]; intros todo; [reflexivity |].
  cbn [List.length app DiscreteCanopy.assign]. f_equal. apply IH.
Qed.

Lemma pad_listed_step sx sy f reference rest objects :
  DiscreteCanopy.pad_listed sx sy f (reference :: rest) objects
  = match nth_error objects reference with
    | None => DiscreteCanopy.pad_listed sx sy f rest objects
    | Some element =>
        element' <- DiscreteCanopy.pad_element sx sy f element ;;
        DiscreteCanopy.pad_listed sx sy f rest
          (DiscreteCanopy.assign reference element' objects)
    end.
Proof. reflexivity. Qed.

Lemma not_two_dimensional : ~ two_dimensional flat_empty.
Proof. intros [rows E]. discriminate. Qed.

(** The loop over the entries of a canopy whose entries are objects of
    their own: every element is replicated, unless one of them holds an
    array of one dimension, which raises. *)
Lemma pad_listed_fresh sx sy f :
  product f f <> [] ->
  forall todo done,
    (Forall (fun e => two_dimensional
                        (InstancedCanopyElement.instance_positions e)) todo
     /\ DiscreteCanopy.pad_listed sx sy f
          (seq (List.length done) (List.length todo)) (done ++ todo)
        = Returns (done ++ map (replicated sx sy f) todo))
    \/ (~ Forall (fun e => two_dimensional
                            (InstancedCanopyElement.instance_positions e)) todo
        /\ DiscreteCanopy.pad_listed sx sy f
             (seq (List.length done) (List.length todo)) (done ++ todo)
           = Raises IndexError).
Proof.
  intros Hpairs. induction todo as [| e todo IH]; intros done.
  - left. split; [constructor | reflexivity].
  - cbn [List.length seq]. rewrite pad_listed_step.
    rewrite nth_error_app2 by lia. rewrite Nat.sub_diag. cbn [nth_error].
    unfold DiscreteCanopy.pad_element, DiscreteCanopy.pad_positions.
    destruct e as [ce [| rows]];
      cbn [InstancedCanopyElement.instance_positions
           InstancedCanopyElement.canopy_element].
    + right. split.
      * intros Hall. inversion Hall as [| ? ? H2d _]; subst.
        exact (not_two_dimensional H2d).
      * destruct (product f f); [contradiction | reflexivity].
    + cbn [bind]. rewrite assign_after.
      specialize (IH (done ++ [InstancedCanopyElement.mk ce
                                 (rows3 (DiscreteCanopy.new_instance_positions
                                           sx sy f rows))])).
      rewrite <- !app_assoc in IH. cbn [app] in IH.
      rewrite length_app in IH. cbn [List.length] in IH.
      rewrite Nat.add_1_r in IH.
      destruct IH as [[Hall Hrun] | [Hall Hrun]].
      * left. split.
        -- constructor; [exists rows; reflexivity | exact Hall].
        -- rewrite Hrun. reflexivity.
      * right. split; [| exact Hrun].
        intros Hall'. inversion Hall'; subst. contradiction.
Qed.

Lemma offset_pairs_not_empty p :
  (1 <= p)%Z ->
  product (py_range (- p) (p + 1)) (py_range (- p) (p + 1)) <> [].
Proof.
  intros Hp. rewrite py_range_offset_factors, product_offset_pairs.
  intros E. apply (f_equal (@List.length _)) in E.
  unfold offset_pairs in E. rewrite <- flat_map_concat_map in E.
  rewrite (length_flat_map_constant _ (List.length (offset_factors p)))
    in E by (intros; apply length_map).
  rewrite length_offset_factors in E. cbn [List.length] in E.
  assert (H3 : (3 <= Z.to_nat (2 * p + 1))%nat) by lia.
  destruct (Z.to_nat (2 * p + 1)) as [| k]; [lia | discriminate E].
Qed.

(** Padding a canopy whose entries are objects of their own. *)
Lemma padded_fresh c p sx sy sz :
  DiscreteCanopy.size c = (sx, sy, sz) -> (1 <= p)%Z ->
  (Forall (fun e => two_dimensional
                      (InstancedCanopyElement.instance_positions e))
          (DiscreteCanopy.instanced_canopy_elements c)
   /\ DiscreteCanopy.padded (DiscreteCanopy.fresh c) p
      = Returns
          (DiscreteCanopy.fresh
             (DiscreteCanopy.mk (DiscreteCanopy.id c)
                (sx * IZR (2 * p + 1), sy * IZR (2 * p + 1), sz)
                (map (replicated sx sy (py_range (- p) (p + 1)))
                     (DiscreteCanopy.instanced_canopy_elements c)))))
  \/ (~ Forall (fun e => two_dimensional
                          (InstancedCanopyElement.instance_positions e))
               (DiscreteCanopy.instanced_canopy_elements c)
      /\ DiscreteCanopy.padded (DiscreteCanopy.fresh c) p
         = Raises IndexError).
Proof.
  intros Hsize Hp.
  assert (Hpad :
    DiscreteCanopy.padded (DiscreteCanopy.fresh c) p
    = (objects' <- DiscreteCanopy.pad_listed sx sy (py_range (- p) (p + 1))
                     (seq 0 (List.length
                               (DiscreteCanopy.instanced_canopy_elements c)))
                     (DiscreteCanopy.instanced_canopy_elements c) ;;
       Returns (DiscreteCanopy.mkStored (DiscreteCanopy.id c)
                  (sx * INR (List.length (py_range (- p) (p + 1))),
                   sy * INR (List.length (py_range (- p) (p + 1))), sz)
                  objects'
                  (seq 0 (List.length
                            (DiscreteCanopy.instanced_canopy_elements c)))))).
  { unfold DiscreteCanopy.padded.
    destruct (p <? 0)%Z eqn:E1; [apply Z.ltb_lt in E1; lia |].
    destruct (p =? 0)%Z eqn:E2; [apply Z.eqb_eq in E2; lia |].
    unfold DiscreteCanopy.fresh.
    cbn [DiscreteCanopy.stored_id DiscreteCanopy.stored_size
         DiscreteCanopy.objects DiscreteCanopy.listed].
    rewrite Hsize. reflexivity. }
  rewrite Hpad.
  destruct (pad_listed_fresh sx sy (py_range (- p) (p + 1))
              (offset_pairs_not_empty p Hp)
              (DiscreteCanopy.instanced_canopy_elements c) [])
    as [[Hall Hrun] | [Hall Hrun]];
    cbn [List.length app] in Hrun; rewrite Hrun; cbn [bind].
  - left. split; [exact Hall |].
    unfold DiscreteCanopy.fresh.
    cbn [DiscreteCanopy.id DiscreteCanopy.size
         DiscreteCanopy.instanced_canopy_elements].
    rewrite length_map.
    rewrite py_range_offset_factors, length_offset_factors.
    rewrite INR_IZR_INZ, Z2Nat.id by lia. reflexivity.
  - right. split; [exact Hall | reflexivity].
Qed.

(** C1, amended.  Take a canopy whose listed elements are objects of
    their own, each with an (n, 3) array of instance positions, [n >= 0],
    and [p >= 1].  [padded p] returns a canopy of the same kind with the
    same identifier and the same canopy elements, in which the instance
    positions of every instanced element are the concatenation, over the
    pairs [(i, j)] of offset factors of [-p .. p] listed with [i] varying
    slowest, of the original positions translated by
    [(i * size_x, j * size_y, 0)], hence [(2p+1)^2] times as many as the
    original ones; the first two components of its size are [2p+1] times
    the original ones and the third one is the original one.  And
    [padded 0] returns the canopy itself, whatever the canopy. *)
Theorem padded_replicates_on_the_lattice :
  forall (c : DiscreteCanopy.t) (p : Z) (size_x size_y size_z : R),
    DiscreteCanopy.size c = (size_x, size_y, size_z) ->
    Forall (fun e => two_dimensional
                       (InstancedCanopyElement.instance_positions e))
           (DiscreteCanopy.instanced_canopy_elements c) ->
    (1 <= p)%Z ->
    (exists c',
       DiscreteCanopy.padded (DiscreteCanopy.fresh c) p
       = Returns (DiscreteCanopy.fresh c')
       /\ DiscreteCanopy.id c' = DiscreteCanopy.id c
       /\ DiscreteCanopy.size c'
          = (size_x * IZR (2 * p + 1), size_y * IZR (2 * p + 1), size_z)
       /\ Forall2
            (fun e e' =>
               InstancedCanopyElement.canopy_element e'
               = InstancedCanopyElement.canopy_element e
               /\ InstancedCanopyElement.instance_positions e'
                  = rows3 (padded_positions p size_x size_y
                             (InstancedCanopyElement.instance_positions e))
               /\ List.length (InstancedCanopyElement.instance_positions e')
                  = (Z.to_nat (2 * p + 1) * Z.to_nat (2 * p + 1)
                     * List.length (InstancedCanopyElement.instance_positions e))%nat)
            (DiscreteCanopy.instanced_canopy_elements c)
            (DiscreteCanopy.instanced_canopy_elements c'))
    /\ forall s : DiscreteCanopy.stored, DiscreteCanopy.padded s 0 = Returns s.
Proof.
  intros c p sx sy sz Hsize Hall Hp. split; [| reflexivity].
  destruct (padded_fresh c p sx sy sz Hsize Hp) as [[_ Hrun] | [Hnot _]];
    [| contradiction].
  eexists. split; [exact Hrun |].
  cbn [DiscreteCanopy.id DiscreteCanopy.size
       DiscreteCanopy.instanced_canopy_elements].
  split; [reflexivity |]. split; [reflexivity |].
  clear Hrun Hall.
  induction (DiscreteCanopy.instanced_canopy_elements c) as [| e es IH];
    cbn [map]; constructor; [| exact IH].
  unfold replicated.
  cbn [InstancedCanopyElement.canopy_element
       InstancedCanopyElement.instance_positions].
  rewrite new_instance_positions_padded.
  split; [reflexivity | split; [reflexivity |]].
  cbn [rows_of]. apply length_padded_positions.
Qed.

Lemma padded_replicates_on_the_lattice_witness :
  (exists c',
     DiscreteCanopy.padded (DiscreteCanopy.fresh sample_canopy) 1
     = Returns (DiscreteCanopy.fresh c')
     /\ DiscreteCanopy.size c' = (10 * IZR (2 * 1 + 1), 10 * IZR (2 * 1 + 1), 3)
     /\ Forall2
          (fun e e' =>
             List.length (InstancedCanopyElement.instance_positions e')
             = (Z.to_nat (2 * 1 + 1) * Z.to_nat (2 * 1 + 1)
                * List.length (InstancedCanopyElement.instance_positions e))%nat)
          (DiscreteCanopy.instanced_canopy_elements sample_canopy)
          (DiscreteCanopy.instanced_canopy_elements c'))
  /\ DiscreteCanopy.padded (DiscreteCanopy.fresh sample_canopy) 0
     = Returns (DiscreteCanopy.fresh sample_canopy).
Proof.
  destruct (padded_replicates_on_the_lattice sample_canopy 1 10 10 3 eq_refl)
    as [[c' [Hrun [_ [Hsize Hall]]]] Hzero].
  - constructor; [exists [(0, 0, 0)]; reflexivity | constructor].
  - lia.
  - split; [| apply Hzero].
    exists c'. split; [exact Hrun | split; [exact Hsize |]].
    eapply Forall2_impl; [| exact Hall].
    intros e e' [_ [_ Hlen]]. exact Hlen.
Defined.

(** The element of [empty_file_canopy] is what the instance loader
    returns for a file without lines. *)
Lemma empty_file_element :
  InstancedCanopyElement.from_file loading_environment
    (Some "empty.txt"%string) None
  = Returns (InstancedCanopyElement.mk
               (leaf_cloud_element LeafCloud.default) flat_empty).
Proof. reflexivity. Qed.

(** C1 as stated fails on two kinds of canopies.  An element read from
    an instance file without lines holds the array [np.array([])] of
    shape (0,): padding its canopy raises [IndexError] where the claim
    promises a canopy with no instance.  And when one element object,
    with one instance, is listed twice, the loop pads that object twice:
    each entry then reads 81 instance positions, not 9. *)
Lemma padded_counterexample :
  DiscreteCanopy.padded (DiscreteCanopy.fresh empty_file_canopy) 1
  = Raises IndexError
  /\ exists s',
       DiscreteCanopy.padded twice_listed_canopy 1 = Returns s'
       /\ Forall
            (fun e =>
               List.length (InstancedCanopyElement.instance_positions e)
               = 81%nat)
            (DiscreteCanopy.instanced_canopy_elements
               (DiscreteCanopy.content s')).
Proof.
  split; [reflexivity |].
  eexists. split; [reflexivity |].
  repeat constructor.
Qed.

(** ** The file loaders *)

Lemma floats_cases env tokens :
  (exists vs, floats env tokens = Returns vs
              /\ List.length vs = List.length tokens
              /\ Forall (fun t => ~ not_numeric env t) tokens)
  \/ (exists token, floats env tokens
                    = Raises (ValueError (msg_could_not_convert_to_float token))
                    /\ Exists (not_numeric env) tokens).
Proof.
  induction tokens as [| t ts IH]; simpl.
  - left. exists []. auto.
  - destruct (py_float env t) as [v |] eqn:Et.
    + destruct IH as [[vs [-> [Hlen Hall]]] | [token [-> Hex]]]; simpl.
      * left. exists (v :: vs). simpl. repeat split; [congruence |].
        constructor; [unfold not_numeric; congruence | assumption].
      * right. exists token. split; [reflexivity | right; assumption].
    + right. exists t. split; [reflexivity | left; exact Et].
Qed.

Lemma row3_length row : row3 row <> None <-> List.length row = 3%nat.
Proof.
  destruct row as [| x [| y [| z [| w row]]]]; simpl; split; intros H;
    try discriminate; try contradiction; try reflexivity.
Qed.

Lemma read_instances_malformed env i line rest :
  malformed_instance_line env line ->
  InstancedCanopyElement.read_instances env i (line :: rest)
  = Raises (ValueError (msg_line_not_3_vector (i + 1) line)).
Proof.
  intros Hbad. simpl. unfold np_array_float.
  destruct (floats_cases env (split line))
    as [[vs [E [Hlen Hall]]] | [token [E Hex]]]; rewrite E; simpl.
  - destruct Hbad as [Hcount | Hex].
    + destruct (row3 vs) eqn:Er; [| reflexivity].
      exfalso. apply Hcount. rewrite <- Hlen. apply row3_length. congruence.
    + exfalso. apply Exists_exists in Hex. destruct Hex as [t [Hin Ht]].
      rewrite Forall_forall in Hall. exact (Hall t Hin Ht).
  - reflexivity.
Qed.

Lemma read_instances_well_formed env i line rest :
  ~ malformed_instance_line env line ->
  exists v,
    InstancedCanopyElement.read_instances env i (line :: rest)
    = (vs <- InstancedCanopyElement.read_instances env (S i) rest ;;
       Returns (v :: vs)).
Proof.
  intros Hgood. simpl. unfold np_array_float.
  destruct (floats_cases env (split line))
    as [[vs [E [Hlen Hall]]] | [token [E Hex]]]; rewrite E; simpl.
  - destruct (row3 vs) as [v |] eqn:Er; [exists v; reflexivity |].
    exfalso. apply Hgood. left. rewrite <- Hlen. intros H3.
    apply row3_length in H3. contradiction.
  - exfalso. apply Hgood. right. exact Hex.
Qed.

(** The instance loader names the line: when line [k] (counted from 0) is
    the first one that is not three numbers, loading raises the error that
    carries the line number [k + 1] and the line. *)
Lemma read_instances_reports_line env : forall lines i k line,
  nth_error lines k = Some line ->
  (forall j l, (j < k)%nat -> nth_error lines j = Some l ->
               ~ malformed_instance_line env l) ->
  malformed_instance_line env line ->
  InstancedCanopyElement.read_instances env i lines
  = Raises (ValueError (msg_line_not_3_vector (i + k + 1) line)).
Proof.
  induction lines as [| l lines IH]; intros i k line Hk Hbefore Hbad.
  - destruct k; discriminate.
  - destruct k as [| k]; simpl in Hk.
    + injection Hk as ->. rewrite Nat.add_0_r.
      apply read_instances_malformed. assumption.
    + destruct (read_instances_well_formed env i l lines) as [v E].
      { apply (Hbefore 0%nat); [lia | reflexivity]. }
      rewrite E, (IH (S i) k line); try assumption.
      * simpl. do 3 f_equal. lia.
      * intros j l' Hj Hl'. apply (Hbefore (S j)); [lia | exact Hl'].
Qed.

Lemma instance_loader_reports_line env path lines element k line :
  read_lines env path = Some lines ->
  nth_error lines k = Some line ->
  (forall j l, (j < k)%nat -> nth_error lines j = Some l ->
               ~ malformed_instance_line env l) ->
  malformed_instance_line env line ->
  InstancedCanopyElement.from_file env (Some path) element
  = Raises (ValueError (msg_line_not_3_vector (k + 1) line)).
Proof.
  intros Hfile Hk Hbefore Hbad. unfold InstancedCanopyElement.from_file.
  rewrite Hfile.
  rewrite (read_instances_reports_line env lines 0 k line) by assumption.
  reflexivity.
Qed.

(** No exception raised by the leaf cloud loader carries a line number. *)
Lemma read_leaves_no_line_number env lines e :
  LeafCloud.read_leaves env lines = Raises e ->
  forall k line, e <> ValueError (msg_line_not_3_vector k line).
Proof.
  revert e. induction lines as [| l lines IH]; intros e H k line; simpl in H.
  - discriminate.
  - destruct (floats_cases env (split l))
      as [[vs [E _]] | [token [E _]]]; rewrite E in H; simpl in H.
    + destruct vs as [| v vs]; simpl in H; [congruence |].
      destruct (LeafCloud.read_leaves env lines) as [[[rs ps] os] | e' | |];
        simpl in H; try discriminate.
      injection H as <-. apply IH. reflexivity.
    + congruence.
Qed.

Lemma n3_array_no_line_number rows e :
  n3_array rows = Raises e ->
  forall k line, e <> ValueError (msg_line_not_3_vector k line).
Proof.
  revert e. induction rows as [| row rows IH]; intros e H k line; simpl in H.
  - discriminate.
  - destruct (row3 row); [| congruence].
    destruct (n3_array rows); simpl in H; try discriminate.
    injection H as <-. apply IH. reflexivity.
Qed.

Lemma leaf_cloud_loader_no_line_number env filename trans refl id e :
  LeafCloud.from_file env filename trans refl id = Raises e ->
  forall k line, e <> ValueError (msg_line_not_3_vector k line).
Proof.
  unfold LeafCloud.from_file. intros H k line.
  destruct filename as [path |]; [| congruence].
  destruct (read_lines env path) as [lines |]; [| congruence].
  destruct (LeafCloud.read_leaves env lines) as [[[rs ps] os] | e' | |] eqn:E1;
    simpl in H; try discriminate;
    [| injection H as <-; eapply read_leaves_no_line_number; eassumption].
  destruct (n3_array ps) as [ps' | e' | |] eqn:E2; simpl in H; try discriminate;
    [| injection H as <-; eapply n3_array_no_line_number; eassumption].
  destruct (n3_array os) as [os' | e' | |] eqn:E3; simpl in H; try discriminate;
    [| injection H as <-; eapply n3_array_no_line_number; eassumption].
  unfold LeafCloud.init in H.
  destruct (negb _); [congruence |].
  destruct (negb _); [congruence | discriminate].
Qed.

(** C7, on the code.  The leaf cloud loader reads a file whose only line
    has eight tokens as one leaf, the eighth token being dropped; and on
    a file whose second line starts with a token that is not a number it
    raises the error of [float], which names the token and no line.  The
    instance loader, on a file whose second line holds such a token,
    raises the error that names line 2. *)
Theorem leaf_cloud_loader_does_not_report_lines :
  LeafCloud.from_file sample_environment (Some "extra_token.txt"%string)
    0.5 0.5 "leaf_cloud"
  = Returns (LeafCloud.mk "leaf_cloud" [(0, 0, 0)] [(0, 0, 1)] [1] 0.5 0.5)
  /\ LeafCloud.from_file sample_environment (Some "not_a_number.txt"%string)
       0.5 0.5 "leaf_cloud"
     = Raises (ValueError (msg_could_not_convert_to_float "x"))
  /\ InstancedCanopyElement.from_file sample_environment
       (Some "instances.txt"%string) None
     = Raises (ValueError (msg_line_not_3_vector 2 "1 x 0")).
Proof.
  split; [| split].
  - unfold LeafCloud.from_file, LeafCloud.init. simpl.
    decide_comparisons. reflexivity.
  - reflexivity.
  - reflexivity.
Qed.

(** ** The generator constructors and the leaf count *)

Lemma np_empty_rows_returns n k :
  np_empty_rows n = Returns k ->
  exists z, n = PyInt z /\ (0 <= z)%Z /\ k = Z.to_nat z.
Proof.
  destruct n as [| z | x | m]; simpl; try discriminate.
  destruct (z <? 0)%Z eqn:E; [discriminate |].
  intros H. injection H as <-. apply Z.ltb_ge in E. eauto.
Qed.

Lemma cuboid_loop_length n : forall lh lv rng,
  List.length (fst (cuboid_loop n lh lv rng)) = n.
Proof.
  induction n as [| n IH]; intros lh lv rng; simpl; [reflexivity |].
  specialize (IH lh lv (advance 3 rng)).
  destruct (cuboid_loop n lh lv (advance 3 rng)) as [rest rng2].
  simpl in *. congruence.
Qed.

Lemma cylinder_loop_length n : forall radius lv rng,
  List.length (fst (cylinder_loop n radius lv rng)) = n.
Proof.
  induction n as [| n IH]; intros radius lv rng; simpl; [reflexivity |].
  specialize (IH radius lv (advance 3 rng)).
  destruct (cylinder_loop n radius lv (advance 3 rng)) as [rest rng2].
  simpl in *. congruence.
Qed.

Lemma cone_loop_length n : forall radius lv rng ps rng',
  cone_loop n radius lv rng = Returns (ps, rng') -> List.length ps = n.
Proof.
  induction n as [| n IH]; intros radius lv rng ps rng' H; simpl in H.
  - injection H as <- <-. reflexivity.
  - invert_bind H. invert_bind H. destruct a0 as [rest rng2].
    injection H as <- <-. simpl. f_equal. eapply IH; eassumption.
Qed.

Lemma orientations_loop_length env fuel n : forall mu nu rng rows rng',
  orientations_loop env fuel n mu nu rng = Returns (rows, rng') ->
  List.length rows = n.
Proof.
  induction n as [| n IH]; intros mu nu rng rows rng' H; simpl in H.
  - injection H as <- <-. reflexivity.
  - invert_bind H. destruct a as [x rng1].
    invert_bind H. destruct a as [rest rng3]. injection H as <- <-.
    simpl. f_equal. eapply IH; eassumption.
Qed.

Lemma orientations_length env fuel n mu nu rng rows rng' :
  _leaf_cloud_orientations env fuel n mu nu rng = Returns (rows, rng') ->
  exists z, n = PyInt z /\ (0 <= z)%Z /\ List.length rows = Z.to_nat z.
Proof.
  unfold _leaf_cloud_orientations. intros H. invert_bind H.
  apply np_empty_rows_returns in Hrun. destruct Hrun as [z [-> [Hz ->]]].
  exists z. repeat split; try assumption.
  eapply orientations_loop_length; eassumption.
Qed.

Lemma radii_length n r radii :
  _leaf_cloud_radii n r = Returns radii ->
  exists z, n = PyInt z /\ (0 <= z)%Z /\ List.length radii = Z.to_nat z.
Proof.
  unfold _leaf_cloud_radii. intros H. invert_bind H. invert_bind H.
  apply np_empty_rows_returns in Hrun0. destruct Hrun0 as [z [-> [Hz ->]]].
  injection H as <-. exists z. repeat split; try assumption.
  apply repeat_length.
Qed.

(** The sphere constructor hands the radius to the position sampler
    where the leaf count is expected and the leaf count where the radius
    is expected.  The leaf count is not a quantity, the unit wrapper of
    the sampler refuses it, and the constructor raises. *)
Lemma sphere_raises env fuel seed kwargs :
  LeafCloud.sphere env fuel seed kwargs
  = Raises (ValueError msg_wraps_requires_quantity).
Proof.
  unfold LeafCloud.sphere. simpl.
  unfold _leaf_cloud_positions_sphere.
  destruct (SphereLeafCloudParams._n_leaves kwargs); reflexivity.
Qed.

(** The count invariant of the cylinder constructor. *)
Lemma cylinder_count env fuel seed kwargs lc :
  LeafCloud.cylinder env fuel seed kwargs = Returns lc ->
  exists n, CylinderLeafCloudParams._n_leaves kwargs = Some n
    /\ List.length (LeafCloud.leaf_positions lc) = Z.to_nat n
    /\ List.length (LeafCloud.leaf_orientations lc) = Z.to_nat n
    /\ List.length (LeafCloud.leaf_radii lc) = Z.to_nat n.
Proof.
  unfold LeafCloud.cylinder. simpl. intros H.
  invert_bind H. destruct a as [ps rng1].
  invert_bind H. destruct a as [os rng2].
  invert_bind H. rename a into rs.
  apply init_returns in H. destruct H as [_ [_ [_ ->]]]. simpl.
  apply orientations_length in Hrun0. destruct Hrun0 as [z [Ez [Hz Hos]]].
  apply radii_length in Hrun1. destruct Hrun1 as [z' [Ez' [_ Hrs]]].
  destruct (CylinderLeafCloudParams._n_leaves kwargs) as [n |];
    [| discriminate].
  simpl in Ez, Ez'. injection Ez as <-. injection Ez' as <-.
  exists n. repeat split; try assumption.
  unfold _leaf_cloud_positions_cylinder in Hrun. simpl in Hrun.
  invert_bind Hrun.
  destruct (n <? 0)%Z; [discriminate |]. injection Hrun0 as <-.
  pose proof (cylinder_loop_length (Z.to_nat n)
                (CylinderLeafCloudParams._radius kwargs)
                (CylinderLeafCloudParams._l_vertical kwargs)
                (default_rng env seed)) as Hlen.
  rewrite <- Hlen. injection Hrun as E. rewrite E. reflexivity.
Qed.

(** The count invariant of the cone constructor. *)
Lemma cone_count env fuel seed kwargs lc :
  LeafCloud.cone env fuel seed kwargs = Returns lc ->
  exists n, ConicalLeafCloudParams._n_leaves kwargs = Some n
    /\ List.length (LeafCloud.leaf_positions lc) = Z.to_nat n
    /\ List.length (LeafCloud.leaf_orientations lc) = Z.to_nat n
    /\ List.length (LeafCloud.leaf_radii lc) = Z.to_nat n.
Proof.
  unfold LeafCloud.cone. simpl. intros H.
  invert_bind H. destruct a as [ps rng1].
  invert_bind H. destruct a as [os rng2].
  invert_bind H. rename a into rs.
  apply init_returns in H. destruct H as [_ [_ [_ ->]]]. simpl.
  apply orientations_length in Hrun0. destruct Hrun0 as [z [Ez [Hz Hos]]].
  apply radii_length in Hrun1. destruct Hrun1 as [z' [Ez' [_ Hrs]]].
  destruct (ConicalLeafCloudParams._n_leaves kwargs) as [n |];
    [| discriminate].
  simpl in Ez, Ez'. injection Ez as <-. injection Ez' as <-.
  exists n. repeat split; try assumption.
  unfold _leaf_cloud_positions_cone in Hrun. simpl in Hrun.
  invert_bind Hrun.
  destruct (n <? 0)%Z; [discriminate |]. injection Hrun0 as <-.
  eapply cone_loop_length; eassumption.
Qed.

(** ** What the constructor of the cuboid parameters leaves behind *)
Module CuboidUpdate.
Import CuboidLeafCloudParams.

Lemma keeps_refl s : keeps s s.
Proof. unfold keeps. tauto. Qed.

Lemma keeps_trans s1 s2 s3 : keeps s1 s2 -> keeps s2 s3 -> keeps s1 s3.
Proof. unfold keeps. tauto. Qed.

Lemma keeps_set_n_leaves s v : keeps s (set_n_leaves s v).
Proof. unfold keeps; simpl. repeat split; auto; discriminate. Qed.

Lemma keeps_set_leaf_radius s v : keeps s (set_leaf_radius s v).
Proof. unfold keeps; simpl. repeat split; auto; discriminate. Qed.

Lemma keeps_set_l_horizontal s v : keeps s (set_l_horizontal s v).
Proof. unfold keeps; simpl. repeat split; auto; discriminate. Qed.

Lemma keeps_set_l_vertical s v : keeps s (set_l_vertical s v).
Proof. unfold keeps; simpl. repeat split; auto; discriminate. Qed.

Lemma keeps_set_lai s v : keeps s (set_lai s v).
Proof. unfold keeps; simpl. repeat split; auto; discriminate. Qed.

Create HintDb keeps.

#[local] Hint Resolve keeps_refl keeps_set_n_leaves keeps_set_leaf_radius
  keeps_set_l_horizontal keeps_set_l_vertical keeps_set_lai : keeps.

Lemma properties_set d :
  sets (n_leaves d) _n_leaves /\ sets (lai d) _lai
  /\ sets (leaf_radius d) _leaf_radius /\ sets (l_horizontal d) _l_horizontal.
Proof.
  induction d as [| d [IHn [IHl [IHr IHh]]]].
  - split; [| split; [| split]]; intros s v s' H; simpl in H;
      match type of H with
      | match ?f s with _ => _ end = _ => destruct (f s) eqn:E
      end; try discriminate; injection H as <- <-; auto with keeps.
  - split; [| split; [| split]]; intros s v s' H.
    + destruct (_n_leaves s) as [v0 |] eqn:E.
      * rewrite (CuboidFacts.n_leaves_cached _ _ _ E) in H.
        injection H as <- <-. auto with keeps.
      * rewrite (CuboidFacts.n_leaves_unset _ _ E) in H.
        invert_bind H. destruct a as [x1 s1]. apply IHl in Hrun.
        invert_bind H. destruct a as [x2 s2]. apply IHh in Hrun0.
        invert_bind H. destruct a as [x3 s3]. apply IHr in Hrun1.
        invert_bind H. injection H as <- <-.
        split; [| reflexivity].
        eapply keeps_trans; [apply Hrun |].
        eapply keeps_trans; [apply Hrun0 |].
        eapply keeps_trans; [apply Hrun1 | auto with keeps].
    + destruct (_lai s) as [v0 |] eqn:E.
      * rewrite (CuboidFacts.lai_cached _ _ _ E) in H.
        injection H as <- <-. auto with keeps.
      * rewrite (CuboidFacts.lai_unset _ _ E) in H.
        invert_bind H. destruct a as [x1 s1]. apply IHr in Hrun.
        invert_bind H. destruct a as [x2 s2]. apply IHh in Hrun0.
        invert_bind H.
        invert_bind H. destruct a0 as [x3 s3]. apply IHn in Hrun2.
        injection H as <- <-.
        split; [| reflexivity].
        eapply keeps_trans; [apply Hrun |].
        eapply keeps_trans; [apply Hrun0 |].
        eapply keeps_trans; [apply Hrun2 | auto with keeps].
    + destruct (_leaf_radius s) as [v0 |] eqn:E.
      * rewrite (CuboidFacts.leaf_radius_cached _ _ _ E) in H.
        injection H as <- <-. auto with keeps.
      * rewrite (CuboidFacts.leaf_radius_unset _ _ E) in H.
        invert_bind H. destruct a as [x1 s1]. apply IHl in Hrun.
        invert_bind H. destruct a as [x2 s2]. apply IHn in Hrun0.
        invert_bind H.
        invert_bind H. destruct a0 as [x3 s3]. apply IHh in Hrun2.
        injection H as <- <-.
        split; [| reflexivity].
        eapply keeps_trans; [apply Hrun |].
        eapply keeps_trans; [apply Hrun0 |].
        eapply keeps_trans; [apply Hrun2 | auto with keeps].
    + destruct (_l_horizontal s) as [v0 |] eqn:E.
      * rewrite (CuboidFacts.l_horizontal_cached _ _ _ E) in H.
        injection H as <- <-. auto with keeps.
      * rewrite (CuboidFacts.l_horizontal_unset _ _ E) in H.
        invert_bind H. destruct a as [x1 s1]. apply IHr in Hrun.
        invert_bind H. destruct a as [x2 s2]. apply IHn in Hrun0.
        invert_bind H. destruct a as [x3 s3]. apply IHl in Hrun1.
        invert_bind H. injection H as <- <-.
        split; [| reflexivity].
        eapply keeps_trans; [apply Hrun |].
        eapply keeps_trans; [apply Hrun0 |].
        eapply keeps_trans; [apply Hrun1 | auto with keeps].
Qed.

Lemma l_vertical_sets d : sets (l_vertical d) _l_vertical.
Proof.
  intros s v s' H. unfold l_vertical in H.
  destruct (_l_vertical s) as [v0 |] eqn:E.
  - injection H as <- <-. auto with keeps.
  - destruct d as [| d]; [discriminate |].
    destruct (properties_set d) as [_ [IHl [IHr _]]].
    invert_bind H. destruct a as [x1 s1]. apply IHl in Hrun.
    invert_bind H.
    invert_bind H. destruct a0 as [x2 s2]. apply IHr in Hrun1.
    invert_bind H. invert_bind H. injection H as <- <-.
    split; [| reflexivity].
    eapply keeps_trans; [apply Hrun |].
    eapply keeps_trans; [apply Hrun1 | auto with keeps].
Qed.

Lemma reading_returns {A : Type} field (c : outcome A) a :
  reading field c = Returns a -> c = Returns a.
Proof. destruct c; simpl; intros H; congruence. Qed.

(** When the constructor returns, the five fields are set. *)
Lemma init_resolved env kwargs params :
  init env kwargs = Returns params -> resolved params.
Proof.
  unfold init, update. generalize (recursion_limit env) as d. intros d H.
  destruct (properties_set d) as [Hn [Hl [Hr Hh]]].
  pose proof (l_vertical_sets d) as Hv.
  invert_bind H. destruct a as [x1 s1].
  apply reading_returns, Hn in Hrun. destruct Hrun as [_ E1].
  invert_bind H. destruct a as [x2 s2].
  apply reading_returns, Hr in Hrun. destruct Hrun as [K2 E2].
  invert_bind H. destruct a as [x3 s3].
  apply reading_returns, Hh in Hrun. destruct Hrun as [K3 E3].
  invert_bind H. destruct a as [x4 s4].
  apply reading_returns, Hv in Hrun. destruct Hrun as [K4 E4].
  invert_bind H. destruct a as [x5 s5].
  apply reading_returns, Hl in Hrun. destruct Hrun as [K5 E5].
  injection H as <-.
  assert (N1 : _n_leaves s1 <> None) by congruence.
  assert (N2 : _leaf_radius s2 <> None) by congruence.
  assert (N3 : _l_horizontal s3 <> None) by congruence.
  assert (N4 : _l_vertical s4 <> None) by congruence.
  assert (N5 : _lai s5 <> None) by congruence.
  unfold keeps in *. unfold resolved. tauto.
Qed.

End CuboidUpdate.

(** The count invariant of the cuboid constructor: the three arrays have
    as many entries as the leaf count that the parameter object holds
    once it is built. *)
Lemma cuboid_count env fuel seed avoid_overlap n_attempts kwargs lc :
  LeafCloud.cuboid env fuel seed avoid_overlap n_attempts kwargs = Returns lc ->
  exists params n,
    CuboidLeafCloudParams.init env kwargs = Returns params
    /\ CuboidLeafCloudParams._n_leaves params = Some n
    /\ List.length (LeafCloud.leaf_positions lc) = Z.to_nat n
    /\ List.length (LeafCloud.leaf_orientations lc) = Z.to_nat n
    /\ List.length (LeafCloud.leaf_radii lc) = Z.to_nat n.
Proof.
  unfold LeafCloud.cuboid. intros H.
  invert_bind H. rename a into params.
  pose proof (CuboidUpdate.init_resolved _ _ _ Hrun) as [Rn [Rr [Rh [Rv _]]]].
  destruct (CuboidLeafCloudParams._n_leaves params) as [n |] eqn:En;
    [| contradiction].
  destruct (CuboidLeafCloudParams._leaf_radius params) as [r |] eqn:Er;
    [| contradiction].
  destruct (CuboidLeafCloudParams._l_horizontal params) as [lh |] eqn:Eh;
    [| contradiction].
  destruct (CuboidLeafCloudParams._l_vertical params) as [lv |] eqn:Ev;
    [| contradiction].
  exists params, n. split; [exact Hrun | split; [exact En |]].
  invert_bind H. destruct a as [[ps rng1] params1].
  assert (Hps : params1 = params /\ List.length ps = Z.to_nat n).
  { destruct avoid_overlap.
    - rewrite (CuboidFacts.n_leaves_cached _ _ _ En) in Hrun0. cbn [bind] in Hrun0.
      rewrite (CuboidFacts.l_horizontal_cached _ _ _ Eh) in Hrun0.
      cbn [bind] in Hrun0.
      rewrite (CuboidFacts.l_vertical_cached _ _ _ Ev) in Hrun0.
      cbn [bind] in Hrun0.
      rewrite (CuboidFacts.leaf_radius_cached _ _ _ Er) in Hrun0.
      cbn [bind] in Hrun0.
      invert_bind Hrun0. destruct a as [ps' rng'].
      injection Hrun0 as <- <- <-.
      apply avoid_overlap_length in Hrun1. tauto.
    - rewrite (CuboidFacts.n_leaves_cached _ _ _ En) in Hrun0. cbn [bind] in Hrun0.
      rewrite (CuboidFacts.l_horizontal_cached _ _ _ Eh) in Hrun0.
      cbn [bind] in Hrun0.
      rewrite (CuboidFacts.l_vertical_cached _ _ _ Ev) in Hrun0.
      cbn [bind] in Hrun0.
      invert_bind Hrun0. destruct a as [ps' rng'].
      injection Hrun0 as <- <- <-.
      unfold _leaf_cloud_positions_cuboid in Hrun1. cbn [wraps_arg bind] in Hrun1.
      invert_bind Hrun1. apply np_empty_rows_returns in Hrun0.
      destruct Hrun0 as [z [Ez [_ ->]]]. injection Ez as <-.
      pose proof (cuboid_loop_length (Z.to_nat n) lh lv (default_rng env seed))
        as Hlen.
      rewrite <- Hlen. injection Hrun1 as E. rewrite E. split; reflexivity. }
  destruct Hps as [-> Hps].
  rewrite (CuboidFacts.n_leaves_cached _ _ _ En) in H. cbn [bind] in H.
  invert_bind H. destruct a as [os rng2].
  rewrite (CuboidFacts.n_leaves_cached _ _ _ En) in H. cbn [bind] in H.
  rewrite (CuboidFacts.leaf_radius_cached _ _ _ Er) in H. cbn [bind] in H.
  invert_bind H. rename a into rs.
  apply init_returns in H. destruct H as [_ [_ [_ ->]]]. simpl.
  apply orientations_length in Hrun1. destruct Hrun1 as [z [Ez [_ Hos]]].
  injection Ez as <-.
  apply radii_length in Hrun2. destruct Hrun2 as [z [Ez [_ Hrs]]].
  injection Ez as <-.
  repeat split; assumption.
Qed.

(** A parameter object whose five fields are set goes through [update]
    as it is, at any depth. *)
Lemma init_fully_specified env kwargs :
  resolved kwargs -> CuboidLeafCloudParams.init env kwargs = Returns kwargs.
Proof.
  intros [Hn [Hr [Hh [Hv Hl]]]].
  destruct (CuboidLeafCloudParams._n_leaves kwargs) as [n |] eqn:En;
    [| contradiction].
  destruct (CuboidLeafCloudParams._leaf_radius kwargs) as [r |] eqn:Er;
    [| contradiction].
  destruct (CuboidLeafCloudParams._l_horizontal kwargs) as [lh |] eqn:Eh;
    [| contradiction].
  destruct (CuboidLeafCloudParams._l_vertical kwargs) as [lv |] eqn:Ev;
    [| contradiction].
  destruct (CuboidLeafCloudParams._lai kwargs) as [la |] eqn:El;
    [| contradiction].
  unfold CuboidLeafCloudParams.init, CuboidLeafCloudParams.update.
  rewrite (CuboidFacts.n_leaves_cached _ _ _ En). cbn [reading bind].
  rewrite (CuboidFacts.leaf_radius_cached _ _ _ Er). cbn [reading bind].
  rewrite (CuboidFacts.l_horizontal_cached _ _ _ Eh). cbn [reading bind].
  rewrite (CuboidFacts.l_vertical_cached _ _ _ Ev). cbn [reading bind].
  rewrite (CuboidFacts.lai_cached _ _ _ El). reflexivity.
Qed.

(** C2.  Every leaf cloud that one of the generator constructors
    returns has as many positions, orientations and radii as the leaf
    count resolved from its keyword arguments: the count that the
    parameter object holds once built, for the cuboid constructor, and
    the count given, for the three others.  The sphere constructor is
    covered for want of clouds: it returns none. *)
Theorem generated_clouds_have_n_leaves :
  forall (env : environment) (fuel : nat) (seed : Z) (lc : LeafCloud.t),
    (forall avoid_overlap n_attempts kwargs,
       LeafCloud.cuboid env fuel seed avoid_overlap n_attempts kwargs
       = Returns lc ->
       exists params n,
         CuboidLeafCloudParams.init env kwargs = Returns params
         /\ CuboidLeafCloudParams._n_leaves params = Some n
         /\ has_leaves lc n)
    /\ (forall kwargs,
          LeafCloud.sphere env fuel seed kwargs = Returns lc ->
          exists n, SphereLeafCloudParams._n_leaves kwargs = Some n
                    /\ has_leaves lc n)
    /\ (forall kwargs,
          LeafCloud.cylinder env fuel seed kwargs = Returns lc ->
          exists n, CylinderLeafCloudParams._n_leaves kwargs = Some n
                    /\ has_leaves lc n)
    /\ (forall kwargs,
          LeafCloud.cone env fuel seed kwargs = Returns lc ->
          exists n, ConicalLeafCloudParams._n_leaves kwargs = Some n
                    /\ has_leaves lc n).
Proof.
  intros env fuel seed lc. split; [| split; [| split]].
  - intros avoid_overlap n_attempts kwargs H.
    destruct (cuboid_count _ _ _ _ _ _ _ H) as [params [n [Hinit [En Hlen]]]].
    exists params, n. split; [exact Hinit | split; [exact En | exact Hlen]].
  - intros kwargs H. rewrite sphere_raises in H. discriminate.
  - intros kwargs H. destruct (cylinder_count _ _ _ _ _ H) as [n [En Hlen]].
    exists n. split; [exact En | exact Hlen].
  - intros kwargs H. destruct (cone_count _ _ _ _ _ H) as [n [En Hlen]].
    exists n. split; [exact En | exact Hlen].
Qed.

(** Runs a generator constructor on the sample environment, whose
    generator draws 1/4 and whose orientation parameters are 1. *)
Ltac run_generator :=
  unfold _leaf_cloud_orientations; simpl;
  unfold py_div, np_power, exact_power; decide_comparisons; simpl;
  decide_comparisons;
  rewrite Rpower_quarter; decide_comparisons; simpl;
  unfold LeafCloud.init; simpl; decide_comparisons; simpl.

Lemma generated_clouds_have_n_leaves_witness :
  exists lc,
    LeafCloud.cuboid sample_environment 1 12345 false None
      one_leaf_cuboid_params = Returns lc
    /\ has_leaves lc 1.
Proof.
  assert (Hrun : exists lc,
            LeafCloud.cuboid sample_environment 1 12345 false None
              one_leaf_cuboid_params = Returns lc).
  { eexists. unfold LeafCloud.cuboid, one_leaf_cuboid_params.
    unfold CuboidLeafCloudParams.init, CuboidLeafCloudParams.update.
    simpl. run_generator. reflexivity. }
  destruct Hrun as [lc H]. exists lc. split; [exact H |].
  destruct (generated_clouds_have_n_leaves sample_environment 1 12345 lc)
    as [Hcuboid _].
  destruct (Hcuboid false None one_leaf_cuboid_params H)
    as [params [n [Hinit [En Hlen]]]].
  rewrite init_fully_specified in Hinit
    by (unfold resolved; simpl; repeat split; discriminate).
  injection Hinit as <-. simpl in En. injection En as <-. exact Hlen.
Defined.

(** * Further properties of the module *)

(** ** Where the samplers put the leaves *)

Lemma advance_advance a b rng : advance a (advance b rng) = advance (b + a) rng.
Proof. unfold advance; simpl. f_equal. lia. Qed.

Lemma advance_zero rng : advance 0 rng = rng.
Proof. destruct rng as [d c]. unfold advance; simpl. f_equal. lia. Qed.

Lemma unit_draws_advance k rng : unit_draws rng -> unit_draws (advance k rng).
Proof. intros H j. apply H. Qed.

Lemma cuboid_point_in_cuboid lh lv u0 u1 u2 :
  0 <= lh -> 0 <= lv ->
  0 <= u0 < 1 -> 0 <= u1 < 1 -> 0 <= u2 < 1 ->
  in_cuboid lh lv (cuboid_point lh lv (u0, u1, u2)).
Proof.
  intros Hlh Hlv H0 H1 H2. unfold in_cuboid, cuboid_point.
  repeat split; nra.
Qed.

(** The rows of the plain cuboid loop, by index, and the generator it
    leaves. *)
Lemma cuboid_loop_rows n : forall lh lv rng,
  (forall i, (i < n)%nat ->
     nth_error (fst (cuboid_loop n lh lv rng)) i
     = Some (cuboid_point lh lv (draws_of_leaf rng i)))
  /\ snd (cuboid_loop n lh lv rng) = advance (3 * n) rng.
Proof.
  induction n as [| n IH]; intros lh lv rng.
  - split; [intros i Hi; lia |]. simpl. symmetry. apply advance_zero.
  - specialize (IH lh lv (advance 3 rng)). destruct IH as [IHrows IHrng].
    cbn [cuboid_loop random3].
    destruct (cuboid_loop n lh lv (advance 3 rng)) as [rest rng2] eqn:E.
    cbn [fst snd] in *. split.
    + intros [| i] Hi.
      * cbn [nth_error]. unfold draws_of_leaf. cbn [Nat.mul].
        rewrite advance_zero. reflexivity.
      * cbn [nth_error]. rewrite IHrows by lia.
        unfold draws_of_leaf. rewrite advance_advance.
        replace (3 + 3 * i)%nat with (3 * S i)%nat by lia. reflexivity.
    + rewrite IHrng, advance_advance. f_equal. lia.
Qed.

(** X1.  The plain cuboid sampler, run on a generator that draws in
    [[0, 1)] with extents that are not negative, returns as many positions
    as leaves were asked for, and every one of them lies in the cuboid
    [[-l_h/2, l_h/2] x [-l_h/2, l_h/2] x [0, l_v]]. *)
Theorem cuboid_sampler_fills_the_cuboid :
  forall (n : Z) (l_horizontal l_vertical : R) (rng rng' : Generator)
         (ps : list vec3),
    unit_draws rng -> 0 <= l_horizontal -> 0 <= l_vertical ->
    _leaf_cloud_positions_cuboid
      (PyInt n) (PyQuantity l_horizontal) (PyQuantity l_vertical) rng
    = Returns (ps, rng') ->
    List.length ps = Z.to_nat n
    /\ Forall (in_cuboid l_horizontal l_vertical) ps.
Proof.
  intros n lh lv rng rng' ps Hd Hlh Hlv H.
  unfold _leaf_cloud_positions_cuboid in H. cbn [wraps_arg bind] in H.
  invert_bind H. apply np_empty_rows_returns in Hrun.
  destruct Hrun as [z [Ez [_ ->]]]. injection Ez as <-.
  pose proof (cuboid_loop_length (Z.to_nat n) lh lv rng) as Hlen.
  pose proof (cuboid_loop_rows (Z.to_nat n) lh lv rng) as [Hrows _].
  injection H as E. rewrite E in Hlen, Hrows. cbn [fst] in Hlen, Hrows.
  split; [exact Hlen |].
  apply Forall_forall. intros p Hp.
  apply In_nth_error in Hp. destruct Hp as [i Hi].
  assert (Hlt : (i < Z.to_nat n)%nat)
    by (rewrite <- Hlen; apply nth_error_Some; congruence).
  rewrite (Hrows i Hlt) in Hi. injection Hi as <-.
  apply cuboid_point_in_cuboid; try assumption; apply Hd.
Qed.

Lemma unit_draws_constant x : 0 <= x < 1 -> unit_draws (constant_generator x).
Proof. intros H k. exact H. Qed.

Lemma cuboid_sampler_fills_the_cuboid_witness :
  Forall (in_cuboid 4 2)
    [cuboid_point 4 2 (1/4, 1/4, 1/4); cuboid_point 4 2 (1/4, 1/4, 1/4)].
Proof.
  apply (cuboid_sampler_fills_the_cuboid 2 4 2 (constant_generator (1/4))
           (advance 3 (advance 3 (constant_generator (1/4))))).
  - apply unit_draws_constant. lra.
  - lra.
  - lra.
  - reflexivity.
Defined.

(** X2.  The plain cuboid sampler draws three numbers per leaf, in the
    order of the leaves: the leaf of index [i] is computed from the draws
    of rank [3i], [3i+1] and [3i+2], and the generator is left [3n] draws
    further. *)
Theorem cuboid_sampler_draw_order :
  forall (n : Z) (l_horizontal l_vertical : R) (rng rng' : Generator)
         (ps : list vec3),
    _leaf_cloud_positions_cuboid
      (PyInt n) (PyQuantity l_horizontal) (PyQuantity l_vertical) rng
    = Returns (ps, rng') ->
    rng' = advance (3 * Z.to_nat n) rng
    /\ forall i, (i < Z.to_nat n)%nat ->
         nth_error ps i
         = Some (cuboid_point l_horizontal l_vertical (draws_of_leaf rng i)).
Proof.
  intros n lh lv rng rng' ps H.
  unfold _leaf_cloud_positions_cuboid in H. cbn [wraps_arg bind] in H.
  invert_bind H. apply np_empty_rows_returns in Hrun.
  destruct Hrun as [z [Ez [_ ->]]]. injection Ez as <-.
  pose proof (cuboid_loop_rows (Z.to_nat n) lh lv rng) as [Hrows Hrng].
  injection H as E. rewrite E in Hrows, Hrng. cbn [fst snd] in Hrows, Hrng.
  split; assumption.
Qed.

Lemma cuboid_sampler_draw_order_witness :
  advance 3 (advance 3 (listed_generator [0; 0; 0; 3/4; 3/4; 3/4]))
  = advance (3 * Z.to_nat 2) (listed_generator [0; 0; 0; 3/4; 3/4; 3/4])
  /\ forall i, (i < Z.to_nat 2)%nat ->
       nth_error [cuboid_point 4 4 (0, 0, 0); cuboid_point 4 4 (3/4, 3/4, 3/4)] i
       = Some (cuboid_point 4 4
                 (draws_of_leaf (listed_generator [0; 0; 0; 3/4; 3/4; 3/4]) i)).
Proof.
  apply (cuboid_sampler_draw_order 2 4 4
           (listed_generator [0; 0; 0; 3/4; 3/4; 3/4])).
  reflexivity.
Defined.

Lemma circle_identity (r phi : R) :
  r * cos phi * (r * cos phi) + r * sin phi * (r * sin phi) = r * r.
Proof.
  pose proof (sin2_cos2 phi) as H. unfold Rsqr in H.
  replace (r * cos phi * (r * cos phi) + r * sin phi * (r * sin phi))
    with (r * r * (sin phi * sin phi + cos phi * cos phi)) by ring.
  rewrite H. ring.
Qed.

Lemma sphere_point_norm2 radius u0 u1 u2 :
  norm2 (sphere_point radius (u0, u1, u2)) = u2 * radius * (u2 * radius).
Proof.
  unfold norm2, sphere_point.
  pose proof (sin2_cos2 (u0 * PI)) as Ht. unfold Rsqr in Ht.
  pose proof (circle_identity (u2 * radius * sin (u0 * PI)) (u1 * 2 * PI)) as Hc.
  rewrite Hc.
  replace (u2 * radius * sin (u0 * PI) * (u2 * radius * sin (u0 * PI))
           + u2 * radius * cos (u0 * PI) * (u2 * radius * cos (u0 * PI)))
    with (u2 * radius * (u2 * radius)
          * (sin (u0 * PI) * sin (u0 * PI) + cos (u0 * PI) * cos (u0 * PI)))
    by ring.
  rewrite Ht. ring.
Qed.

Lemma sphere_loop_in_sphere n : forall radius rng,
  unit_draws rng ->
  List.length (fst (sphere_loop n radius rng)) = n
  /\ Forall (in_sphere radius) (fst (sphere_loop n radius rng)).
Proof.
  induction n as [| n IH]; intros radius rng Hd; simpl.
  - split; [reflexivity | constructor].
  - destruct (IH radius (advance 3 rng) (unit_draws_advance 3 rng Hd))
      as [Hlen Hall].
    destruct (sphere_loop n radius (advance 3 rng)) as [rest rng2].
    cbn [fst] in *. split; [simpl; congruence |].
    constructor; [| exact Hall].
    unfold in_sphere.
    change (norm2 (sphere_point radius
                     (draws rng (cursor rng), draws rng (cursor rng + 1)%nat,
                      draws rng (cursor rng + 2)%nat)) <= radius * radius).
    rewrite sphere_point_norm2.
    pose proof (Hd (cursor rng + 2)%nat) as Hu.
    set (u := draws rng (cursor rng + 2)%nat) in *.
    assert (Hr : 0 <= radius * radius) by apply Rle_0_sqr.
    assert (Hu2 : 0 <= u * u <= 1) by nra.
    replace (u * radius * (u * radius)) with (u * u * (radius * radius)) by ring.
    nra.
Qed.

(** X3.  The sphere sampler, called with the leaf count first and the
    radius second on a generator that draws in [[0, 1)], returns as many
    positions as leaves were asked for, and none of them is farther from
    the origin than the radius. *)
Theorem sphere_sampler_stays_in_the_sphere :
  forall (n : Z) (radius : R) (rng rng' : Generator) (ps : list vec3),
    unit_draws rng ->
    _leaf_cloud_positions_sphere (PyInt n) (PyQuantity radius) rng
    = Returns (ps, rng') ->
    List.length ps = Z.to_nat n /\ Forall (in_sphere radius) ps.
Proof.
  intros n radius rng rng' ps Hd H.
  unfold _leaf_cloud_positions_sphere in H. cbn [wraps_arg bind] in H.
  invert_bind H. apply np_empty_rows_returns in Hrun.
  destruct Hrun as [z [Ez [_ ->]]]. injection Ez as <-.
  pose proof (sphere_loop_in_sphere (Z.to_nat n) radius rng Hd) as Hs.
  injection H as E. rewrite E in Hs. exact Hs.
Qed.

Lemma sphere_sampler_stays_in_the_sphere_witness :
  Forall (in_sphere 2) [sphere_point 2 (1/4, 1/4, 1/4)].
Proof.
  apply (sphere_sampler_stays_in_the_sphere 1 2 (constant_generator (1/4))
           (advance 3 (constant_generator (1/4)))).
  - apply unit_draws_constant. lra.
  - reflexivity.
Defined.

Lemma cylinder_loop_in_cylinder n : forall radius lv rng,
  unit_draws rng -> 0 <= lv ->
  Forall (in_cylinder radius lv) (fst (cylinder_loop n radius lv rng)).
Proof.
  induction n as [| n IH]; intros radius lv rng Hd Hlv; simpl.
  - constructor.
  - pose proof (IH radius lv (advance 3 rng) (unit_draws_advance 3 rng Hd) Hlv)
      as Hall.
    destruct (cylinder_loop n radius lv (advance 3 rng)) as [rest rng2].
    cbn [fst] in *. constructor; [| exact Hall].
    unfold in_cylinder, cylinder_point. rewrite circle_identity.
    pose proof (Hd (cursor rng + 1)%nat) as Hu.
    pose proof (Hd (cursor rng + 2)%nat) as Hz.
    set (u := draws rng (cursor rng + 1)%nat) in *.
    assert (Hr : 0 <= radius * radius) by apply Rle_0_sqr.
    assert (Hu2 : 0 <= u * u <= 1) by nra.
    replace (u * radius * (u * radius)) with (u * u * (radius * radius)) by ring.
    split; nra.
Qed.

(** X4.  The cylinder sampler, on a generator that draws in [[0, 1)] and
    with a height that is not negative, returns as many positions as
    leaves were asked for, all of them in the upright cylinder of the
    given radius and height. *)
Theorem cylinder_sampler_stays_in_the_cylinder :
  forall (n : Z) (radius l_vertical : R) (rng rng' : Generator)
         (ps : list vec3),
    unit_draws rng -> 0 <= l_vertical ->
    _leaf_cloud_positions_cylinder
      (PyInt n) (PyQuantity radius) (PyQuantity l_vertical) rng
    = Returns (ps, rng') ->
    List.length ps = Z.to_nat n /\ Forall (in_cylinder radius l_vertical) ps.
Proof.
  intros n radius lv rng rng' ps Hd Hlv H.
  unfold _leaf_cloud_positions_cylinder in H. cbn [wraps_arg bind] in H.
  invert_bind H. apply np_empty_rows_returns in Hrun.
  destruct Hrun as [z [Ez [_ ->]]]. injection Ez as <-.
  pose proof (cylinder_loop_length (Z.to_nat n) radius lv rng) as Hlen.
  pose proof (cylinder_loop_in_cylinder (Z.to_nat n) radius lv rng Hd Hlv)
    as Hall.
  injection H as E. rewrite E in Hlen, Hall. split; assumption.
Qed.

Lemma cylinder_sampler_stays_in_the_cylinder_witness :
  Forall (in_cylinder 2 3) [cylinder_point 2 3 (1/4, 1/4, 1/4)].
Proof.
  apply (cylinder_sampler_stays_in_the_cylinder 1 2 3
           (constant_generator (1/4)) (advance 3 (constant_generator (1/4)))).
  - apply unit_draws_constant. lra.
  - lra.
  - reflexivity.
Defined.

Lemma np_power_unit x y :
  0 <= x < 1 -> 0 < y -> 0 <= np_power x y <= 1.
Proof.
  intros Hx Hy. unfold np_power, Reqb.
  destruct (Req_dec_T x 0) as [-> | Hx0].
  - destruct (Req_dec_T y 0); lra.
  - unfold Rpower. assert (Hpos : 0 < x) by lra.
    assert (Hln : ln x < 0) by (rewrite <- ln_1; apply ln_increasing; lra).
    assert (Hexp : exp (y * ln x) < exp 0) by (apply exp_increasing; nra).
    rewrite exp_0 in Hexp. pose proof (exp_pos (y * ln x)). lra.
Qed.

Lemma cone_point_in_cone radius lv u0 u1 u2 p :
  0 < lv -> 0 <= u0 < 1 -> 0 <= u1 < 1 ->
  cone_point radius lv (u0, u1, u2) = Returns p -> in_cone radius lv p.
Proof.
  intros Hlv H0 H1 H. unfold cone_point in H.
  rewrite CuboidFacts.py_div_nonzero in H by lra. cbn [bind] in H.
  injection H as <-.
  pose proof (np_power_unit u0 (1 / 3) H0 ltac:(lra)) as Hw.
  set (w := np_power u0 (1 / 3)) in *.
  unfold in_cone. rewrite circle_identity.
  replace (radius * (1 - (lv - lv * w) / lv)) with (radius / lv * (lv * w))
    by (field; lra).
  assert (Hs : sqrt u1 * sqrt u1 = u1) by (apply sqrt_sqrt; lra).
  replace (radius / lv * (lv * w) * sqrt u1 * (radius / lv * (lv * w) * sqrt u1))
    with (radius / lv * (lv * w) * (radius / lv * (lv * w))
          * (sqrt u1 * sqrt u1)) by ring.
  rewrite Hs.
  assert (Hsq : 0 <= radius / lv * (lv * w) * (radius / lv * (lv * w)))
    by (apply Rle_0_sqr).
  split; nra.
Qed.

Lemma cone_loop_step n radius lv rng :
  cone_loop (S n) radius lv rng
  = (p <- cone_point radius lv (fst (random3 rng)) ;;
     '(rest, rng2) <- cone_loop n radius lv (snd (random3 rng)) ;;
     Returns (p :: rest, rng2)).
Proof. reflexivity. Qed.

Lemma cone_loop_in_cone n : forall radius lv rng ps rng',
  unit_draws rng -> 0 < lv ->
  cone_loop n radius lv rng = Returns (ps, rng') ->
  Forall (in_cone radius lv) ps.
Proof.
  induction n as [| n IH]; intros radius lv rng ps rng' Hd Hlv H.
  - simpl in H. injection H as <- <-. constructor.
  - rewrite cone_loop_step in H.
    invert_bind H. invert_bind H. destruct a0 as [rest rng2].
    injection H as <- <-. constructor.
    + unfold random3 in Hrun. cbn [fst] in Hrun.
      eapply cone_point_in_cone; try eassumption; apply Hd.
    + apply (IH radius lv (snd (random3 rng)) rest rng2);
        [apply (unit_draws_advance 3 rng Hd) | assumption | assumption].
Qed.

(** X5.  The cone sampler, on a generator that draws in [[0, 1)] and with
    a positive height, returns as many positions as leaves were asked
    for, all of them in the upright cone whose base of the given radius
    lies on the ground and whose tip is at the given height. *)
Theorem cone_sampler_stays_in_the_cone :
  forall (n : Z) (radius l_vertical : R) (rng rng' : Generator)
         (ps : list vec3),
    unit_draws rng -> 0 < l_vertical ->
    _leaf_cloud_positions_cone
      (PyInt n) (PyQuantity radius) (PyQuantity l_vertical) rng
    = Returns (ps, rng') ->
    List.length ps = Z.to_nat n /\ Forall (in_cone radius l_vertical) ps.
Proof.
  intros n radius lv rng rng' ps Hd Hlv H.
  unfold _leaf_cloud_positions_cone in H. cbn [wraps_arg bind] in H.
  invert_bind H. apply np_empty_rows_returns in Hrun.
  destruct Hrun as [z [Ez [_ ->]]]. injection Ez as <-.
  split.
  - eapply cone_loop_length; eassumption.
  - eapply cone_loop_in_cone; eassumption.
Qed.

Lemma cone_sampler_stays_in_the_cone_witness :
  exists p,
    cone_point 2 3 (1/4, 1/4, 1/4) = Returns p /\ Forall (in_cone 2 3) [p].
Proof.
  assert (Hp : exists p, cone_point 2 3 (1/4, 1/4, 1/4) = Returns p).
  { unfold cone_point. rewrite CuboidFacts.py_div_nonzero by lra.
    eexists. reflexivity. }
  destruct Hp as [p Hp]. exists p. split; [exact Hp |].
  apply (cone_sampler_stays_in_the_cone 1 2 3 (constant_generator (1/4))
           (advance 3 (constant_generator (1/4)))).
  - apply unit_draws_constant. lra.
  - lra.
  - unfold _leaf_cloud_positions_cone. cbn [wraps_arg bind].
    change (np_empty_rows (PyInt 1)) with (Returns 1%nat).
    cbn [bind]. rewrite cone_loop_step.
    change (fst (random3 (constant_generator (1/4))))
      with ((1/4, 1/4, 1/4) : vec3).
    rewrite Hp. reflexivity.
Defined.

(** ** More on the collision-avoidance placer *)

Lemma attempt_loop_in_cuboid k : forall i lh lv r tree rng found rng',
  unit_draws rng -> 0 <= lh -> 0 <= lv ->
  attempt_loop i k lh lv r tree rng = Returns (found, rng') ->
  unit_draws rng'
  /\ forall pos aabb, found = Some (pos, aabb) -> in_cuboid lh lv pos.
Proof.
  induction k as [| k IH]; intros i lh lv r tree rng found rng' Hd Hlh Hlv H.
  - simpl in H. injection H as <- <-. split; [assumption | discriminate].
  - rewrite attempt_loop_step in H. cbv zeta in H. invert_bind H.
    assert (Hin : in_cuboid lh lv (cuboid_point lh lv (fst (random3 rng))))
      by (unfold random3; cbn [fst];
          apply cuboid_point_in_cuboid; try assumption; apply Hd).
    destruct (i =? 0)%nat.
    + injection H as <- <-. split; [apply (unit_draws_advance 3 rng Hd) |].
      intros pos aabb E. injection E as <- _. exact Hin.
    + destruct (negb (aabbtree.does_overlap tree a)).
      * injection H as <- <-. split; [apply (unit_draws_advance 3 rng Hd) |].
        intros pos aabb E. injection E as <- _. exact Hin.
      * apply (IH i lh lv r tree (snd (random3 rng)) found rng');
          [apply (unit_draws_advance 3 rng Hd) | assumption | assumption
          | exact H].
Qed.

Lemma place_leaves_in_cuboid count : forall i n lh lv r st st',
  unit_draws (placer_rng st) -> 0 <= lh -> 0 <= lv ->
  Forall (in_cuboid lh lv) (positions st) ->
  place_leaves count i n lh lv r st = Returns st' ->
  Forall (in_cuboid lh lv) (positions st').
Proof.
  induction count as [| count IH]; intros i n lh lv r st st' Hd Hlh Hlv Hps H;
    simpl in H.
  - injection H as <-. assumption.
  - invert_bind H. unfold place_leaf in Hrun. invert_bind Hrun.
    destruct a0 as [found rng1].
    destruct (attempt_loop_in_cuboid _ _ _ _ _ _ _ _ _ Hd Hlh Hlv Hrun0)
      as [Hd1 Hfound].
    destruct found as [[pos aabb] |]; [| discriminate].
    injection Hrun as <-.
    eapply IH; [| | | | exact H]; cbn [positions placer_rng];
      try assumption.
    apply Forall_app. split; [assumption |].
    constructor; [| constructor]. apply (Hfound pos aabb eq_refl).
Qed.

(** X6.  When the collision-avoidance placement returns, on a generator
    that draws in [[0, 1)] and with extents that are not negative, every
    position lies in the cuboid
    [[-l_h/2, l_h/2] x [-l_h/2, l_h/2] x [0, l_v]]: the boxes may stick
    out of it by the leaf radius, the centres do not. *)
Theorem avoid_overlap_stays_in_the_cuboid :
  forall (n : Z) (l_horizontal l_vertical leaf_radius : R) (n_attempts : Z)
         (rng rng' : Generator) (ps : list vec3),
    unit_draws rng -> 0 <= l_horizontal -> 0 <= l_vertical ->
    _leaf_cloud_positions_cuboid_avoid_overlap
      (PyInt n) (PyQuantity l_horizontal) (PyQuantity l_vertical)
      (PyQuantity leaf_radius) n_attempts rng = Returns (ps, rng') ->
    Forall (in_cuboid l_horizontal l_vertical) ps.
Proof.
  intros n lh lv r n_attempts rng rng' ps Hd Hlh Hlv H.
  unfold _leaf_cloud_positions_cuboid_avoid_overlap in H.
  cbn [wraps_arg bind] in H. invert_bind H. invert_bind H.
  injection H as <- _.
  apply (place_leaves_in_cuboid a 0 n_attempts lh lv r
           (mkPlacer [] aabbtree.empty rng) a0 Hd Hlh Hlv
           (Forall_nil _) Hrun0).
Qed.

Lemma unit_draws_listed :
  unit_draws (listed_generator [0; 0; 0; 3/4; 3/4; 3/4]).
Proof.
  intros k. unfold listed_generator. cbn [draws].
  do 7 (destruct k as [| k]; [simpl; lra |]). simpl. destruct k; lra.
Qed.

Lemma avoid_overlap_stays_in_the_cuboid_witness :
  Forall (in_cuboid 4 4)
    [cuboid_point 4 4 (0, 0, 0); cuboid_point 4 4 (3/4, 3/4, 3/4)].
Proof.
  apply (avoid_overlap_stays_in_the_cuboid 2 4 4 (1/2) 2
           (listed_generator [0; 0; 0; 3/4; 3/4; 3/4])
           (advance 6 (listed_generator [0; 0; 0; 3/4; 3/4; 3/4]))).
  - exact unit_draws_listed.
  - lra.
  - lra.
  - run_placer. reflexivity.
Defined.

(** X7.  In a cuboid that is neither wider nor higher than the diameter
    of a leaf, two leaves cannot be placed apart: on a generator that
    draws in [[0, 1)], asking the collision-avoidance placement for two
    leaves or more raises the error of the too dense canopy, whatever
    the attempt budget. *)
Theorem dense_canopy_cannot_be_placed :
  forall (n : Z) (l_horizontal l_vertical leaf_radius : R) (n_attempts : Z)
         (rng : Generator),
    (2 <= n)%Z -> 0 < leaf_radius ->
    0 <= l_horizontal <= 2 * leaf_radius ->
    0 <= l_vertical <= 2 * leaf_radius ->
    unit_draws rng ->
    _leaf_cloud_positions_cuboid_avoid_overlap
      (PyInt n) (PyQuantity l_horizontal) (PyQuantity l_vertical)
      (PyQuantity leaf_radius) n_attempts rng
    = Raises (RuntimeError msg_too_dense).
Proof.
  intros n lh lv r k rng Hn Hr Hlh Hlv Hd.
  apply dense_cuboid_raises; assumption.
Qed.

Lemma dense_canopy_cannot_be_placed_witness :
  _leaf_cloud_positions_cuboid_avoid_overlap
    (PyInt 1000) (PyQuantity 1) (PyQuantity 1) (PyQuantity 1) 100000
    (listed_generator [0; 0; 0; 3/4; 3/4; 3/4])
  = Raises (RuntimeError msg_too_dense).
Proof.
  apply (dense_canopy_cannot_be_placed 1000 1 1 1 100000
           (listed_generator [0; 0; 0; 3/4; 3/4; 3/4])).
  - lia.
  - lra.
  - lra.
  - lra.
  - exact unit_draws_listed.
Defined.

(** ** More on the resolution of the cuboid parameters *)

(** X8.  Over-specification is not checked: when the leaf count, the
    leaf radius, the two extents and the leaf area index are all given,
    the constructor of the cuboid parameters returns them as given,
    whether they agree with each other or not. *)
Theorem over_specified_parameters_are_kept :
  forall (env : environment) (kwargs : CuboidLeafCloudParams.t),
    resolved kwargs ->
    CuboidLeafCloudParams.init env kwargs = Returns kwargs.
Proof. intros env kwargs H. exact (init_fully_specified env kwargs H). Qed.

Lemma over_specified_parameters_are_kept_witness :
  CuboidLeafCloudParams.init sample_environment contradictory_params
  = Returns contradictory_params.
Proof.
  apply (over_specified_parameters_are_kept sample_environment
           contradictory_params).
  unfold resolved, contradictory_params; simpl.
  repeat split; discriminate.
Defined.

Lemma py_div_not_out_of_fuel x y : py_div x y <> OutOfFuel.
Proof. unfold py_div. destruct (Reqb y 0); discriminate. Qed.

Lemma py_div_not_nan x y : py_div x y <> NotANumber.
Proof. unfold py_div. destruct (Reqb y 0); discriminate. Qed.

(** Without leaf count and without leaf area index, each of the four
    linked properties that is not set raises, at every depth. *)
Lemma unresolvable_cycle d : forall s,
  CuboidLeafCloudParams._n_leaves s = None ->
  CuboidLeafCloudParams._lai s = None ->
  (exists e, CuboidLeafCloudParams.n_leaves d s = Raises e)
  /\ (exists e, CuboidLeafCloudParams.lai d s = Raises e)
  /\ (CuboidLeafCloudParams._leaf_radius s = None ->
      exists e, CuboidLeafCloudParams.leaf_radius d s = Raises e)
  /\ (CuboidLeafCloudParams._l_horizontal s = None ->
      exists e, CuboidLeafCloudParams.l_horizontal d s = Raises e).
Proof.
  induction d as [| d IH]; intros s Hn Hl.
  - simpl. rewrite Hn, Hl. repeat split; eauto.
    + intros ->. eauto.
    + intros ->. eauto.
  - destruct (IH s Hn Hl) as [[en IHn] [[el IHl] [IHr IHh]]].
    assert (Hlai : exists e, CuboidLeafCloudParams.lai (S d) s = Raises e).
    { rewrite (CuboidFacts.lai_unset _ _ Hl).
      destruct (CuboidLeafCloudParams._leaf_radius s) as [r |] eqn:Er.
      - rewrite (CuboidFacts.leaf_radius_cached _ _ _ Er). cbn [bind].
        destruct (CuboidLeafCloudParams._l_horizontal s) as [lh |] eqn:Eh.
        + rewrite (CuboidFacts.l_horizontal_cached _ _ _ Eh). cbn [bind].
          pose proof (py_div_not_out_of_fuel r lh) as Hdiv.
          pose proof (py_div_not_nan r lh) as Hnan.
          destruct (py_div r lh) as [q | e | |]; cbn [bind];
            [| eauto | contradiction | contradiction].
          rewrite IHn. cbn [bind]. eauto.
        + destruct (IHh eq_refl) as [e ->]. cbn [bind]. eauto.
      - destruct (IHr eq_refl) as [e ->]. cbn [bind]. eauto. }
    split; [| split; [exact Hlai | split]].
    + rewrite (CuboidFacts.n_leaves_unset _ _ Hn), IHl. cbn [bind]. eauto.
    + intros Er. rewrite (CuboidFacts.leaf_radius_unset _ _ Er), IHl.
      cbn [bind]. eauto.
    + intros Eh. rewrite (CuboidFacts.l_horizontal_unset _ _ Eh).
      destruct (CuboidLeafCloudParams._leaf_radius s) as [r |] eqn:Er.
      * rewrite (CuboidFacts.leaf_radius_cached _ _ _ Er). cbn [bind].
        rewrite IHn. cbn [bind]. eauto.
      * destruct (IHr eq_refl) as [e ->]. cbn [bind]. eauto.
Qed.

(** X9.  A parameter set that gives neither the leaf count nor the leaf
    area index is under-constrained: whatever else it gives and whatever
    depth of calls the interpreter allows, the constructor of the cuboid
    parameters raises the exception that names the field [n_leaves]. *)
Theorem under_constrained_parameters_raise :
  forall (env : environment) (kwargs : CuboidLeafCloudParams.t),
    CuboidLeafCloudParams._n_leaves kwargs = None ->
    CuboidLeafCloudParams._lai kwargs = None ->
    CuboidLeafCloudParams.init env kwargs
    = Raises (Exception (msg_cannot_compute_field "n_leaves")).
Proof.
  intros env kwargs Hn Hl.
  unfold CuboidLeafCloudParams.init, CuboidLeafCloudParams.update.
  destruct (unresolvable_cycle (recursion_limit env) kwargs Hn Hl)
    as [[e ->] _].
  reflexivity.
Qed.

Lemma under_constrained_parameters_raise_witness :
  CuboidLeafCloudParams.init sample_environment under_constrained_params
  = Raises (Exception (msg_cannot_compute_field "n_leaves")).
Proof.
  apply (under_constrained_parameters_raise sample_environment
           under_constrained_params); reflexivity.
Defined.

(** The resolution of the leaf count and of the vertical extent. *)
Lemma lai_hdo_hvr_resolution :
  forall (env : environment) (kwargs : CuboidLeafCloudParams.t)
         (lai_ r lh hdo_ hvr_ : R),
    CuboidLeafCloudParams._n_leaves kwargs = None ->
    CuboidLeafCloudParams._l_vertical kwargs = None ->
    CuboidLeafCloudParams._lai kwargs = Some lai_ ->
    CuboidLeafCloudParams._leaf_radius kwargs = Some r ->
    CuboidLeafCloudParams._l_horizontal kwargs = Some lh ->
    CuboidLeafCloudParams._hdo kwargs = Some hdo_ ->
    CuboidLeafCloudParams._hvr kwargs = Some hvr_ ->
    r <> 0 -> hvr_ <> 0 -> (1 <= recursion_limit env)%nat ->
    CuboidLeafCloudParams.init env kwargs
    = Returns
        (CuboidLeafCloudParams.set_l_vertical
           (CuboidLeafCloudParams.set_n_leaves kwargs
              (py_int (lai_ * (lh / r) ^ 2 / PI)))
           (lai_ * hdo_ ^ 3 / (PI * r ^ 2 * hvr_))).
Proof.
  intros env kwargs lai_ r lh hdo_ hvr_ Hn Hv Hl Hr Hh Hhdo Hhvr Hr0 Hhvr0 Hd.
  unfold CuboidLeafCloudParams.init, CuboidLeafCloudParams.update.
  destruct (recursion_limit env) as [| d]; [lia |].
  rewrite (CuboidFacts.n_leaves_unset _ _ Hn).
  rewrite (CuboidFacts.lai_cached _ _ _ Hl). cbn [bind].
  rewrite (CuboidFacts.l_horizontal_cached _ _ _ Hh). cbn [bind].
  rewrite (CuboidFacts.leaf_radius_cached _ _ _ Hr). cbn [bind].
  rewrite CuboidFacts.py_div_nonzero by assumption. cbn [bind reading].
  set (n := py_int (lai_ * (lh / r) ^ 2 / PI)).
  set (s1 := CuboidLeafCloudParams.set_n_leaves kwargs n).
  rewrite (CuboidFacts.leaf_radius_cached _ s1 r) by exact Hr.
  cbn [bind reading].
  rewrite (CuboidFacts.l_horizontal_cached _ s1 lh) by exact Hh.
  cbn [bind reading].
  unfold CuboidLeafCloudParams.l_vertical.
  replace (CuboidLeafCloudParams._l_vertical s1) with (@None R) by (symmetry; exact Hv).
  rewrite (CuboidFacts.lai_cached _ s1 lai_) by exact Hl. cbn [bind].
  unfold CuboidLeafCloudParams.hdo, CuboidLeafCloudParams.hvr.
  replace (CuboidLeafCloudParams._hdo s1) with (Some hdo_)
    by (symmetry; exact Hhdo).
  cbn [operand bind].
  rewrite (CuboidFacts.leaf_radius_cached _ s1 r) by exact Hr. cbn [bind].
  replace (CuboidLeafCloudParams._hvr s1) with (Some hvr_)
    by (symmetry; exact Hhvr).
  cbn [operand bind].
  rewrite CuboidFacts.py_div_nonzero.
  - cbn [bind reading].
    rewrite (CuboidFacts.lai_cached _ _ lai_) by exact Hl. reflexivity.
  - pose proof PI_neq0 as Hpi.
    assert (Hr2 : r ^ 2 <> 0) by (apply pow_nonzero; assumption).
    apply Rmult_integral_contrapositive_currified; [| assumption].
    apply Rmult_integral_contrapositive_currified; assumption.
Qed.

(** X10.  The parameter set made of the leaf area index, the leaf
    radius, the horizontal extent and the two leaf distances [hdo] and
    [hvr] is sufficient: with a leaf radius and an [hvr] other than zero,
    the constructor returns the arguments completed by the leaf count
    [int(lai * (l_horizontal / leaf_radius)^2 / pi)] and by the vertical
    extent [lai * hdo^3 / (pi * leaf_radius^2 * hvr)]. *)
Theorem lai_hdo_hvr_parameters_resolve :
  forall (env : environment) (kwargs : CuboidLeafCloudParams.t)
         (lai_ r lh hdo_ hvr_ : R),
    CuboidLeafCloudParams._n_leaves kwargs = None ->
    CuboidLeafCloudParams._l_vertical kwargs = None ->
    CuboidLeafCloudParams._lai kwargs = Some lai_ ->
    CuboidLeafCloudParams._leaf_radius kwargs = Some r ->
    CuboidLeafCloudParams._l_horizontal kwargs = Some lh ->
    CuboidLeafCloudParams._hdo kwargs = Some hdo_ ->
    CuboidLeafCloudParams._hvr kwargs = Some hvr_ ->
    r <> 0 -> hvr_ <> 0 -> (1 <= recursion_limit env)%nat ->
    CuboidLeafCloudParams.init env kwargs
    = Returns
        (CuboidLeafCloudParams.set_l_vertical
           (CuboidLeafCloudParams.set_n_leaves kwargs
              (py_int (lai_ * (lh / r) ^ 2 / PI)))
           (lai_ * hdo_ ^ 3 / (PI * r ^ 2 * hvr_))).
Proof.
  intros env kwargs lai_ r lh hdo_ hvr_ Hn Hv Hl Hr Hh Hhdo Hhvr Hr0 Hhvr0 Hd.
  exact (lai_hdo_hvr_resolution env kwargs lai_ r lh hdo_ hvr_
           Hn Hv Hl Hr Hh Hhdo Hhvr Hr0 Hhvr0 Hd).
Qed.

Lemma lai_hdo_hvr_parameters_resolve_witness :
  CuboidLeafCloudParams.init sample_environment lai_hdo_hvr_params
  = Returns
      (CuboidLeafCloudParams.set_l_vertical
         (CuboidLeafCloudParams.set_n_leaves lai_hdo_hvr_params
            (py_int (PI * (1 / 1) ^ 2 / PI)))
         (PI * 1 ^ 3 / (PI * 1 ^ 2 * 1))).
Proof.
  apply (lai_hdo_hvr_parameters_resolve sample_environment lai_hdo_hvr_params
           PI 1 1 1 1); try reflexivity; try lra.
  simpl. lia.
Defined.

(** X11.  When the constructor of the cuboid parameters returns, the
    leaf count, the leaf radius, the two extents and the leaf area index
    are all set, and building an object again from the result changes
    nothing. *)
Theorem constructed_parameters_are_resolved :
  forall (env : environment) (kwargs params : CuboidLeafCloudParams.t),
    CuboidLeafCloudParams.init env kwargs = Returns params ->
    resolved params
    /\ CuboidLeafCloudParams.init env params = Returns params.
Proof.
  intros env kwargs params H.
  pose proof (CuboidUpdate.init_resolved env kwargs params H) as Hres.
  split; [exact Hres | apply init_fully_specified; exact Hres].
Qed.

Lemma constructed_parameters_are_resolved_witness :
  resolved
    (CuboidLeafCloudParams.set_l_vertical
       (CuboidLeafCloudParams.set_n_leaves lai_hdo_hvr_params
          (py_int (PI * (1 / 1) ^ 2 / PI)))
       (PI * 1 ^ 3 / (PI * 1 ^ 2 * 1))).
Proof.
  apply (constructed_parameters_are_resolved sample_environment
           lai_hdo_hvr_params).
  apply (lai_hdo_hvr_resolution sample_environment lai_hdo_hvr_params
           PI 1 1 1 1); try reflexivity; try lra.
  simpl. lia.
Defined.

(** ** What the generator constructors build *)

Lemma radii_returns n r radii :
  _leaf_cloud_radii (PyInt n) (PyQuantity r) = Returns radii ->
  radii = repeat r (Z.to_nat n).
Proof.
  unfold _leaf_cloud_radii. cbn [wraps_arg bind]. intros H.
  invert_bind H. apply np_empty_rows_returns in Hrun.
  destruct Hrun as [z [Ez [_ ->]]]. injection Ez as <-.
  injection H as <-. reflexivity.
Qed.

Lemma orientations_returns_unit env fuel n mu nu rng rows rng' :
  _leaf_cloud_orientations env fuel n mu nu rng = Returns (rows, rng') ->
  Forall (fun v => norm v = 1) rows.
Proof.
  unfold _leaf_cloud_orientations. intros H. invert_bind H.
  eapply orientations_loop_norm; eassumption.
Qed.

(** The leaf cloud returned by the cuboid constructor. *)
Lemma cuboid_returns env fuel seed avoid_overlap n_attempts kwargs lc :
  LeafCloud.cuboid env fuel seed avoid_overlap n_attempts kwargs = Returns lc ->
  exists params n r,
    CuboidLeafCloudParams.init env kwargs = Returns params
    /\ CuboidLeafCloudParams._n_leaves params = Some n
    /\ CuboidLeafCloudParams._leaf_radius params = Some r
    /\ List.length (LeafCloud.leaf_positions lc) = Z.to_nat n
    /\ List.length (LeafCloud.leaf_orientations lc) = Z.to_nat n
    /\ LeafCloud.leaf_radii lc = repeat r (Z.to_nat n)
    /\ Forall (fun v => norm v = 1) (LeafCloud.leaf_orientations lc)
    /\ LeafCloud.id lc = CuboidLeafCloudParams._id params.
Proof.
  intros H.
  destruct (cuboid_count _ _ _ _ _ _ _ H) as [params [n [Hinit [En [Hps [Hos _]]]]]].
  unfold LeafCloud.cuboid in H. rewrite Hinit in H. cbn [bind] in H.
  pose proof (CuboidUpdate.init_resolved _ _ _ Hinit) as [_ [Rr [Rh [Rv _]]]].
  destruct (CuboidLeafCloudParams._leaf_radius params) as [r |] eqn:Er;
    [| contradiction].
  destruct (CuboidLeafCloudParams._l_horizontal params) as [lh |] eqn:Eh;
    [| contradiction].
  destruct (CuboidLeafCloudParams._l_vertical params) as [lv |] eqn:Ev;
    [| contradiction].
  exists params, n, r.
  split; [exact Hinit | split; [exact En | split; [exact Er |]]].
  split; [exact Hps | split; [exact Hos |]].
  invert_bind H. destruct a as [[ps rng1] params1].
  assert (Hp1 : params1 = params).
  { destruct avoid_overlap.
    - rewrite (CuboidFacts.n_leaves_cached _ _ _ En) in Hrun. cbn [bind] in Hrun.
      rewrite (CuboidFacts.l_horizontal_cached _ _ _ Eh) in Hrun.
      cbn [bind] in Hrun.
      rewrite (CuboidFacts.l_vertical_cached _ _ _ Ev) in Hrun.
      cbn [bind] in Hrun.
      rewrite (CuboidFacts.leaf_radius_cached _ _ _ Er) in Hrun.
      cbn [bind] in Hrun.
      invert_bind Hrun. destruct a as [ps' rng'].
      injection Hrun as _ _ <-. reflexivity.
    - rewrite (CuboidFacts.n_leaves_cached _ _ _ En) in Hrun. cbn [bind] in Hrun.
      rewrite (CuboidFacts.l_horizontal_cached _ _ _ Eh) in Hrun.
      cbn [bind] in Hrun.
      rewrite (CuboidFacts.l_vertical_cached _ _ _ Ev) in Hrun.
      cbn [bind] in Hrun.
      invert_bind Hrun. destruct a as [ps' rng'].
      injection Hrun as _ _ <-. reflexivity. }
  subst params1.
  rewrite (CuboidFacts.n_leaves_cached _ _ _ En) in H. cbn [bind] in H.
  invert_bind H. destruct a as [os rng2].
  rewrite (CuboidFacts.n_leaves_cached _ _ _ En) in H. cbn [bind] in H.
  rewrite (CuboidFacts.leaf_radius_cached _ _ _ Er) in H. cbn [bind] in H.
  invert_bind H. rename a into rs.
  apply init_returns in H. destruct H as [_ [_ [_ ->]]]. cbn.
  apply radii_returns in Hrun1. apply orientations_returns_unit in Hrun0.
  repeat split; assumption.
Qed.

(** X12.  A leaf cloud returned by the cuboid constructor, no zenith
    sample of which was the NaN [0.0 / 0.0], has as many positions and
    orientations as the leaf count held by the resolved parameters, all
    its leaf radii are the resolved leaf radius, all its orientations
    have norm 1 in exact arithmetic, and it bears the identifier of the
    parameters. *)
Theorem cuboid_constructor_builds_n_leaves :
  forall (env : environment) (fuel : nat) (seed : Z) (avoid_overlap : bool)
         (n_attempts : option Z) (kwargs : CuboidLeafCloudParams.t)
         (lc : LeafCloud.t),
    LeafCloud.cuboid env fuel seed avoid_overlap n_attempts kwargs
    = Returns lc ->
    exists params n r,
      CuboidLeafCloudParams.init env kwargs = Returns params
      /\ CuboidLeafCloudParams._n_leaves params = Some n
      /\ CuboidLeafCloudParams._leaf_radius params = Some r
      /\ List.length (LeafCloud.leaf_positions lc) = Z.to_nat n
      /\ List.length (LeafCloud.leaf_orientations lc) = Z.to_nat n
      /\ LeafCloud.leaf_radii lc = repeat r (Z.to_nat n)
      /\ Forall (fun v => norm v = 1) (LeafCloud.leaf_orientations lc)
      /\ LeafCloud.id lc = CuboidLeafCloudParams._id params.
Proof.
  intros env fuel seed avoid_overlap n_attempts kwargs lc H.
  exact (cuboid_returns env fuel seed avoid_overlap n_attempts kwargs lc H).
Qed.

Lemma cuboid_constructor_builds_n_leaves_witness :
  exists lc,
    LeafCloud.cuboid sample_environment 1 12345 false None
      one_leaf_cuboid_params = Returns lc
    /\ exists params n r,
         CuboidLeafCloudParams.init sample_environment one_leaf_cuboid_params
         = Returns params
         /\ CuboidLeafCloudParams._n_leaves params = Some n
         /\ CuboidLeafCloudParams._leaf_radius params = Some r
         /\ List.length (LeafCloud.leaf_positions lc) = Z.to_nat n
         /\ List.length (LeafCloud.leaf_orientations lc) = Z.to_nat n
         /\ LeafCloud.leaf_radii lc = repeat r (Z.to_nat n)
         /\ Forall (fun v => norm v = 1) (LeafCloud.leaf_orientations lc)
         /\ LeafCloud.id lc = CuboidLeafCloudParams._id params.
Proof.
  assert (Hrun : exists lc,
            LeafCloud.cuboid sample_environment 1 12345 false None
              one_leaf_cuboid_params = Returns lc).
  { eexists. unfold LeafCloud.cuboid, one_leaf_cuboid_params.
    unfold CuboidLeafCloudParams.init, CuboidLeafCloudParams.update.
    simpl. run_generator. reflexivity. }
  destruct Hrun as [lc H]. exists lc. split; [exact H |].
  exact (cuboid_constructor_builds_n_leaves sample_environment 1 12345 false
           None one_leaf_cuboid_params lc H).
Defined.

(** X13.  A leaf cloud returned by the cylinder constructor has as many
    positions, orientations and radii as the leaf count given in the
    keyword arguments, which is then an integer and not [None]. *)
Theorem cylinder_constructor_builds_n_leaves :
  forall (env : environment) (fuel : nat) (seed : Z)
         (kwargs : CylinderLeafCloudParams.t) (lc : LeafCloud.t),
    LeafCloud.cylinder env fuel seed kwargs = Returns lc ->
    exists n,
      CylinderLeafCloudParams._n_leaves kwargs = Some n
      /\ List.length (LeafCloud.leaf_positions lc) = Z.to_nat n
      /\ List.length (LeafCloud.leaf_orientations lc) = Z.to_nat n
      /\ List.length (LeafCloud.leaf_radii lc) = Z.to_nat n.
Proof.
  intros env fuel seed kwargs lc H.
  exact (cylinder_count env fuel seed kwargs lc H).
Qed.

Lemma cylinder_constructor_builds_n_leaves_witness :
  exists lc,
    LeafCloud.cylinder sample_environment 1 12345 one_leaf_cylinder_params
    = Returns lc
    /\ exists n,
         CylinderLeafCloudParams._n_leaves one_leaf_cylinder_params = Some n
         /\ List.length (LeafCloud.leaf_positions lc) = Z.to_nat n
         /\ List.length (LeafCloud.leaf_orientations lc) = Z.to_nat n
         /\ List.length (LeafCloud.leaf_radii lc) = Z.to_nat n.
Proof.
  assert (Hrun : exists lc,
            LeafCloud.cylinder sample_environment 1 12345
              one_leaf_cylinder_params = Returns lc).
  { eexists. unfold LeafCloud.cylinder, one_leaf_cylinder_params.
    simpl. run_generator. reflexivity. }
  destruct Hrun as [lc H]. exists lc. split; [exact H |].
  exact (cylinder_constructor_builds_n_leaves sample_environment 1 12345
           one_leaf_cylinder_params lc H).
Defined.

(** X14.  A leaf cloud returned by the cone constructor has as many
    positions, orientations and radii as the leaf count given in the
    keyword arguments, which is then an integer and not [None]. *)
Theorem cone_constructor_builds_n_leaves :
  forall (env : environment) (fuel : nat) (seed : Z)
         (kwargs : ConicalLeafCloudParams.t) (lc : LeafCloud.t),
    LeafCloud.cone env fuel seed kwargs = Returns lc ->
    exists n,
      ConicalLeafCloudParams._n_leaves kwargs = Some n
      /\ List.length (LeafCloud.leaf_positions lc) = Z.to_nat n
      /\ List.length (LeafCloud.leaf_orientations lc) = Z.to_nat n
      /\ List.length (LeafCloud.leaf_radii lc) = Z.to_nat n.
Proof.
  intros env fuel seed kwargs lc H.
  exact (cone_count env fuel seed kwargs lc H).
Qed.

Lemma cone_constructor_builds_n_leaves_witness :
  exists lc,
    LeafCloud.cone sample_environment 1 12345 one_leaf_cone_params
    = Returns lc
    /\ exists n,
         ConicalLeafCloudParams._n_leaves one_leaf_cone_params = Some n
         /\ List.length (LeafCloud.leaf_positions lc) = Z.to_nat n
         /\ List.length (LeafCloud.leaf_orientations lc) = Z.to_nat n
         /\ List.length (LeafCloud.leaf_radii lc) = Z.to_nat n.
Proof.
  assert (Hrun : exists lc,
            LeafCloud.cone sample_environment 1 12345 one_leaf_cone_params
            = Returns lc).
  { eexists. unfold LeafCloud.cone, one_leaf_cone_params.
    unfold _leaf_cloud_positions_cone. simpl. run_generator. reflexivity. }
  destruct Hrun as [lc H]. exists lc. split; [exact H |].
  exact (cone_constructor_builds_n_leaves sample_environment 1 12345
           one_leaf_cone_params lc H).
Defined.

(** ** More on the file loaders *)

(** X15.  The instance loader names the first line it cannot read: when
    line [k] (counted from 0) is the first one that does not hold
    exactly three numbers, loading raises the [ValueError] whose message
    carries the line number [k + 1] and the text of the line. *)
Theorem instance_loader_names_the_first_bad_line :
  forall (env : environment) (path : string) (lines : list string)
         (element : option CanopyElement) (k : nat) (line : string),
    read_lines env path = Some lines ->
    nth_error lines k = Some line ->
    (forall j l, (j < k)%nat -> nth_error lines j = Some l ->
                 ~ malformed_instance_line env l) ->
    malformed_instance_line env line ->
    InstancedCanopyElement.from_file env (Some path) element
    = Raises (ValueError (msg_line_not_3_vector (k + 1) line)).
Proof.
  intros env path lines element k line Hfile Hk Hbefore Hbad.
  exact (instance_loader_reports_line env path lines element k line
           Hfile Hk Hbefore Hbad).
Qed.

Lemma instance_loader_names_the_first_bad_line_witness :
  InstancedCanopyElement.from_file sample_environment
    (Some "instances.txt"%string) None
  = Raises (ValueError (msg_line_not_3_vector (1 + 1) "1 x 0")).
Proof.
  apply (instance_loader_names_the_first_bad_line sample_environment
           "instances.txt" ["0 0 0"%string; "1 x 0"%string] None 1 "1 x 0").
  - reflexivity.
  - reflexivity.
  - intros j l Hj Hl. destruct j as [| j]; [| lia].
    injection Hl as <-. intros [Hcount | Hex].
    + apply Hcount. reflexivity.
    + apply Exists_exists in Hex. destruct Hex as [t [Hin Ht]].
      simpl in Hin. unfold not_numeric in Ht.
      destruct Hin as [<- | [<- | [<- | []]]]; simpl in Ht; discriminate Ht.
  - right. apply Exists_cons_tl. apply Exists_cons_hd. reflexivity.
Defined.

Lemma rows_of_np_array rows : rows_of (np_array rows) = rows.
Proof. destruct rows; reflexivity. Qed.

Lemma read_instances_rows env : forall lines i,
  (forall l, In l lines -> ~ malformed_instance_line env l) ->
  exists vs,
    InstancedCanopyElement.read_instances env i lines = Returns vs
    /\ List.length vs = List.length lines
    /\ forall k line, nth_error lines k = Some line ->
         exists x y z,
           floats env (split line) = Returns [x; y; z]
           /\ nth_error vs k = Some (x, y, z).
Proof.
  induction lines as [| l lines IH]; intros i Hgood.
  - exists []. split; [reflexivity | split; [reflexivity |]].
    intros k line Hk. destruct k; discriminate.
  - destruct (IH (S i)) as [vs [E [Hlen Hrows]]].
    { intros l' Hl'. apply Hgood. right. exact Hl'. }
    assert (Hl : ~ malformed_instance_line env l) by (apply Hgood; left; reflexivity).
    cbn [InstancedCanopyElement.read_instances]. unfold np_array_float.
    destruct (floats_cases env (split l))
      as [[ws [Ew [Hwlen Hall]]] | [token [Ew Hex]]].
    + rewrite Ew. cbn [bind].
      destruct (row3 ws) as [v |] eqn:Er.
      * rewrite E. cbn [bind]. exists (v :: vs).
        split; [reflexivity | split; [simpl; congruence |]].
        intros k line Hk. destruct k as [| k]; simpl in Hk.
        -- injection Hk as <-. destruct v as [[x y] z]. exists x, y, z.
           split; [| reflexivity]. rewrite Ew.
           destruct ws as [| a [| b [| c [| d ws]]]]; try discriminate.
           simpl in Er. injection Er as -> -> ->. reflexivity.
        -- apply Hrows. exact Hk.
      * exfalso. apply Hl. left. rewrite <- Hwlen. intros H3.
        apply row3_length in H3. contradiction.
    + exfalso. apply Hl. right. exact Hex.
Qed.

(** X16.  When every line of an instance file holds exactly three
    numbers, the instance loader returns an element with one instance
    position per line, the position of line [k] being the three numbers
    of that line in their order; the element instanced is the one given,
    or an empty leaf cloud when none is given. *)
Theorem instance_loader_reads_one_position_per_line :
  forall (env : environment) (path : string) (lines : list string)
         (element : option CanopyElement),
    read_lines env path = Some lines ->
    (forall l, In l lines -> ~ malformed_instance_line env l) ->
    exists positions,
      InstancedCanopyElement.from_file env (Some path) element
      = Returns (InstancedCanopyElement.mk
                   (match element with
                    | Some e => e
                    | None => leaf_cloud_element LeafCloud.default
                    end) positions)
      /\ List.length positions = List.length lines
      /\ forall k line, nth_error lines k = Some line ->
           exists x y z,
             floats env (split line) = Returns [x; y; z]
             /\ nth_error positions k = Some (x, y, z).
Proof.
  intros env path lines element Hfile Hgood.
  destruct (read_instances_rows env lines 0 Hgood) as [vs [E [Hlen Hrows]]].
  exists (np_array vs). unfold InstancedCanopyElement.from_file.
  rewrite Hfile, E. cbn [bind]. rewrite rows_of_np_array.
  repeat split; assumption.
Qed.

(** Proves that a given line of an instance file is three numbers. *)
Ltac line_is_well_formed :=
  let Hcount := fresh "Hcount" in
  let Hex := fresh "Hex" in
  let t := fresh "t" in
  let Hin := fresh "Hin" in
  let Ht := fresh "Ht" in
  intros [Hcount | Hex];
  [ apply Hcount; reflexivity
  | apply Exists_exists in Hex; destruct Hex as [t [Hin Ht]];
    simpl in Hin; unfold not_numeric in Ht;
    repeat (destruct Hin as [<- | Hin]; [simpl in Ht; discriminate Ht |]);
    destruct Hin ].

Lemma instance_loader_reads_one_position_per_line_witness :
  exists positions,
    InstancedCanopyElement.from_file loading_environment
      (Some "positions.txt"%string) None
    = Returns (InstancedCanopyElement.mk
                 (leaf_cloud_element LeafCloud.default) positions)
    /\ List.length positions = 2%nat.
Proof.
  destruct (instance_loader_reads_one_position_per_line loading_environment
              "positions.txt" ["0 0 0"%string; "1 0 1"%string] None eq_refl)
    as [positions [Hrun [Hlen _]]].
  - intros l [<- | [<- | []]]; line_is_well_formed.
  - exists positions. split; [exact Hrun | exact Hlen].
Defined.

Lemma read_leaves_rows env : forall lines rs ps os,
  LeafCloud.read_leaves env lines = Returns (rs, ps, os) ->
  List.length rs = List.length lines
  /\ List.length ps = List.length lines
  /\ List.length os = List.length lines
  /\ forall k line, nth_error lines k = Some line ->
       exists v vs,
         floats env (split line) = Returns (v :: vs)
         /\ nth_error rs k = Some v
         /\ nth_error ps k = Some (slice 1 4 (v :: vs))
         /\ nth_error os k = Some (slice 4 7 (v :: vs)).
Proof.
  induction lines as [| l lines IH]; intros rs ps os H.
  - simpl in H. injection H as <- <- <-.
    split; [reflexivity | split; [reflexivity | split; [reflexivity |]]].
    intros k line Hk. destruct k; discriminate.
  - cbn [LeafCloud.read_leaves] in H. invert_bind H. rename a into values.
    invert_bind H. rename a into radius.
    invert_bind H. destruct a as [[rs' ps'] os'].
    injection H as <- <- <-.
    destruct (IH rs' ps' os' Hrun1) as [H1 [H2 [H3 Hrows]]].
    destruct values as [| v vs]; [discriminate |].
    injection Hrun0 as <-.
    split; [simpl; congruence | split; [simpl; congruence
           | split; [simpl; congruence |]]].
    intros k line Hk. destruct k as [| k]; simpl in Hk.
    + injection Hk as <-. exists v, vs. repeat split. exact Hrun.
    + apply Hrows. exact Hk.
Qed.

Lemma n3_array_rows : forall rows vs,
  n3_array rows = Returns vs ->
  List.length vs = List.length rows
  /\ forall k row, nth_error rows k = Some row ->
       exists v, row3 row = Some v /\ nth_error vs k = Some v.
Proof.
  induction rows as [| row rows IH]; intros vs H.
  - simpl in H. injection H as <-. split; [reflexivity |].
    intros k r Hk. destruct k; discriminate.
  - cbn [n3_array] in H. destruct (row3 row) as [v |] eqn:Er; [| discriminate].
    invert_bind H. injection H as <-.
    destruct (IH a Hrun) as [Hlen Hrows].
    split; [simpl; congruence |].
    intros k r Hk. destruct k as [| k]; simpl in Hk.
    + injection Hk as <-. exists v. split; [exact Er | reflexivity].
    + apply Hrows. exact Hk.
Qed.

Lemma seven_values v vs x y z a b c :
  row3 (slice 1 4 (v :: vs)) = Some (x, y, z) ->
  row3 (slice 4 7 (v :: vs)) = Some (a, b, c) ->
  exists rest, v :: vs = v :: x :: y :: z :: a :: b :: c :: rest.
Proof.
  unfold slice. simpl.
  destruct vs as [| x' [| y' [| z' vs]]]; simpl; try discriminate.
  intros Hp. injection Hp as -> -> ->.
  destruct vs as [| a' [| b' [| c' vs]]]; simpl; try discriminate.
  intros Ho. injection Ho as -> -> ->. exists vs. reflexivity.
Qed.

(** The leaf cloud returned by the leaf cloud loader. *)
Lemma leaf_cloud_loader_rows env path lines trans refl id lc :
  read_lines env path = Some lines ->
  LeafCloud.from_file env (Some path) trans refl id = Returns lc ->
  LeafCloud.id lc = id
  /\ List.length (LeafCloud.leaf_positions lc) = List.length lines
  /\ List.length (LeafCloud.leaf_orientations lc) = List.length lines
  /\ List.length (LeafCloud.leaf_radii lc) = List.length lines
  /\ forall k line, nth_error lines k = Some line ->
       exists r x y z a b c rest,
         floats env (split line)
         = Returns (r :: x :: y :: z :: a :: b :: c :: rest)
         /\ nth_error (LeafCloud.leaf_radii lc) k = Some r
         /\ nth_error (LeafCloud.leaf_positions lc) k = Some (x, y, z)
         /\ nth_error (LeafCloud.leaf_orientations lc) k = Some (a, b, c).
Proof.
  intros Hfile H. unfold LeafCloud.from_file in H. rewrite Hfile in H.
  invert_bind H. destruct a as [[rs ps_] os_].
  invert_bind H. rename a into ps. invert_bind H. rename a into os.
  apply init_returns in H. destruct H as [_ [_ [_ ->]]].
  cbn [LeafCloud.id LeafCloud.leaf_positions LeafCloud.leaf_orientations
       LeafCloud.leaf_radii].
  rewrite rows_of_np_array.
  destruct (read_leaves_rows env lines rs ps_ os_ Hrun) as [H1 [H2 [H3 Hrows]]].
  destruct (n3_array_rows ps_ ps Hrun0) as [Hps Hprows].
  destruct (n3_array_rows os_ os Hrun1) as [Hos Horows].
  split; [reflexivity |].
  split; [congruence | split; [congruence | split; [congruence |]]].
  intros k line Hk.
  destruct (Hrows k line Hk) as [v [vs [Ef [Hr [Hp Ho]]]]].
  destruct (Hprows k _ Hp) as [[[x y] z] [Ep Hpk]].
  destruct (Horows k _ Ho) as [[[a b] c] [Eo Hok]].
  destruct (seven_values v vs x y z a b c Ep Eo) as [rest E].
  exists v, x, y, z, a, b, c, rest. rewrite <- E. repeat split; assumption.
Qed.

(** X17.  A leaf cloud returned by the leaf cloud loader bears the
    identifier given and has one leaf per line of the file.  Every line
    holds at least seven numbers: the first one is the radius of its
    leaf, the next three are its position, the next three its
    orientation, and what follows them on the line is not used. *)
Theorem leaf_cloud_loader_reads_one_leaf_per_line :
  forall (env : environment) (path : string) (lines : list string)
         (leaf_transmittance leaf_reflectance : R) (id : string)
         (lc : LeafCloud.t),
    read_lines env path = Some lines ->
    LeafCloud.from_file env (Some path) leaf_transmittance leaf_reflectance id
    = Returns lc ->
    LeafCloud.id lc = id
    /\ List.length (LeafCloud.leaf_positions lc) = List.length lines
    /\ List.length (LeafCloud.leaf_orientations lc) = List.length lines
    /\ List.length (LeafCloud.leaf_radii lc) = List.length lines
    /\ forall k line, nth_error lines k = Some line ->
         exists r x y z a b c rest,
           floats env (split line)
           = Returns (r :: x :: y :: z :: a :: b :: c :: rest)
           /\ nth_error (LeafCloud.leaf_radii lc) k = Some r
           /\ nth_error (LeafCloud.leaf_positions lc) k = Some (x, y, z)
           /\ nth_error (LeafCloud.leaf_orientations lc) k = Some (a, b, c).
Proof.
  intros env path lines trans refl id lc Hfile H.
  exact (leaf_cloud_loader_rows env path lines trans refl id lc Hfile H).
Qed.

Lemma leaf_cloud_loader_reads_one_leaf_per_line_witness :
  exists lc,
    LeafCloud.from_file loading_environment (Some "leaves.txt"%string)
      0.5 0.5 "leaf_cloud" = Returns lc
    /\ List.length (LeafCloud.leaf_positions lc) = 2%nat
    /\ List.length (LeafCloud.leaf_radii lc) = 2%nat.
Proof.
  assert (Hrun : exists lc,
            LeafCloud.from_file loading_environment (Some "leaves.txt"%string)
              0.5 0.5 "leaf_cloud" = Returns lc).
  { eexists. unfold LeafCloud.from_file, LeafCloud.init. simpl.
    decide_comparisons. reflexivity. }
  destruct Hrun as [lc H]. exists lc. split; [exact H |].
  destruct (leaf_cloud_loader_reads_one_leaf_per_line loading_environment
              "leaves.txt" ["1 0 0 0 0 0 1"%string; "1 1 1 1 0 1 0 0"%string]
              0.5 0.5 "leaf_cloud" lc eq_refl H)
    as [_ [Hp [_ [Hr _]]]].
  split; assumption.
Defined.

Lemma read_leaves_blank_line env : forall lines k line,
  nth_error lines k = Some line ->
  split line = [] ->
  (forall j l, (j < k)%nat -> nth_error lines j = Some l ->
     exists v vs, floats env (split l) = Returns (v :: vs)) ->
  LeafCloud.read_leaves env lines = Raises IndexError.
Proof.
  induction lines as [| l lines IH]; intros k line Hk Hblank Hbefore.
  - destruct k; discriminate.
  - destruct k as [| k]; simpl in Hk.
    + injection Hk as ->. cbn [LeafCloud.read_leaves]. rewrite Hblank.
      reflexivity.
    + cbn [LeafCloud.read_leaves].
      destruct (Hbefore 0%nat l ltac:(lia) eq_refl) as [v [vs ->]].
      cbn [bind]. rewrite (IH k line Hk Hblank); [reflexivity |].
      intros j l' Hj Hl'. apply (Hbefore (S j)); [lia | exact Hl'].
Qed.

(** X18.  A blank line stops the leaf cloud loader with an [IndexError]:
    when a line of the file holds no token, and every line before it
    holds at least one token and numbers only, loading raises
    [IndexError], whatever the lines that follow. *)
Theorem leaf_cloud_loader_blank_line :
  forall (env : environment) (path : string) (lines : list string)
         (leaf_transmittance leaf_reflectance : R) (id : string)
         (k : nat) (line : string),
    read_lines env path = Some lines ->
    nth_error lines k = Some line ->
    split line = [] ->
    (forall j l, (j < k)%nat -> nth_error lines j = Some l ->
       exists v vs, floats env (split l) = Returns (v :: vs)) ->
    LeafCloud.from_file env (Some path) leaf_transmittance leaf_reflectance id
    = Raises IndexError.
Proof.
  intros env path lines trans refl id k line Hfile Hk Hblank Hbefore.
  unfold LeafCloud.from_file. rewrite Hfile.
  rewrite (read_leaves_blank_line env lines k line Hk Hblank Hbefore).
  reflexivity.
Qed.

Lemma leaf_cloud_loader_blank_line_witness :
  LeafCloud.from_file loading_environment (Some "blank_line.txt"%string)
    0.5 0.5 "leaf_cloud"
  = Raises IndexError.
Proof.
  apply (leaf_cloud_loader_blank_line loading_environment "blank_line.txt"
           ["1 0 0 0 0 0 1"%string; " "%string] 0.5 0.5 "leaf_cloud" 1 " ").
  - reflexivity.
  - reflexivity.
  - reflexivity.
  - intros j l Hj Hl. destruct j as [| j]; [| lia].
    injection Hl as <-. eexists. eexists. reflexivity.
Defined.

(** ** Given values and resolved values *)
Module CuboidExtends.
Import CuboidLeafCloudParams.

Ltac solve_extends :=
  unfold extends in *; simpl;
  repeat match goal with H : _ /\ _ |- _ => destruct H end;
  repeat split; try congruence; intros; eauto; congruence.

Lemma extends_refl s : extends s s.
Proof. solve_extends. Qed.

Lemma extends_trans s1 s2 s3 : extends s1 s2 -> extends s2 s3 -> extends s1 s3.
Proof. intros H12 H23. solve_extends. Qed.

Lemma extends_set_n_leaves s s' v :
  _n_leaves s = None -> extends s s' -> extends s (set_n_leaves s' v).
Proof. intros E H. solve_extends. Qed.

Lemma extends_set_lai s s' v :
  _lai s = None -> extends s s' -> extends s (set_lai s' v).
Proof. intros E H. solve_extends. Qed.

Lemma extends_set_leaf_radius s s' v :
  _leaf_radius s = None -> extends s s' -> extends s (set_leaf_radius s' v).
Proof. intros E H. solve_extends. Qed.

Lemma extends_set_l_horizontal s s' v :
  _l_horizontal s = None -> extends s s' -> extends s (set_l_horizontal s' v).
Proof. intros E H. solve_extends. Qed.

Lemma extends_set_l_vertical s s' v :
  _l_vertical s = None -> extends s s' -> extends s (set_l_vertical s' v).
Proof. intros E H. solve_extends. Qed.

(** A property that returns leaves the given values as they are. *)
Lemma properties_extend d :
  (forall s v s', n_leaves d s = Returns (v, s') -> extends s s')
  /\ (forall s v s', lai d s = Returns (v, s') -> extends s s')
  /\ (forall s v s', leaf_radius d s = Returns (v, s') -> extends s s')
  /\ (forall s v s', l_horizontal d s = Returns (v, s') -> extends s s').
Proof.
  induction d as [| d [IHn [IHl [IHr IHh]]]].
  - split; [| split; [| split]]; intros s v s' H; simpl in H;
      match type of H with
      | match ?f s with _ => _ end = _ => destruct (f s) eqn:E
      end; try discriminate; injection H as <- <-; apply extends_refl.
  - split; [| split; [| split]]; intros s v s' H.
    + destruct (_n_leaves s) as [v0 |] eqn:E.
      * rewrite (CuboidFacts.n_leaves_cached _ _ _ E) in H.
        injection H as <- <-. apply extends_refl.
      * rewrite (CuboidFacts.n_leaves_unset _ _ E) in H.
        invert_bind H. destruct a as [x1 s1]. apply IHl in Hrun.
        invert_bind H. destruct a as [x2 s2]. apply IHh in Hrun0.
        invert_bind H. destruct a as [x3 s3]. apply IHr in Hrun1.
        invert_bind H. injection H as <- <-.
        apply extends_set_n_leaves; [exact E |].
        eapply extends_trans; [apply Hrun |].
        eapply extends_trans; [apply Hrun0 | apply Hrun1].
    + destruct (_lai s) as [v0 |] eqn:E.
      * rewrite (CuboidFacts.lai_cached _ _ _ E) in H.
        injection H as <- <-. apply extends_refl.
      * rewrite (CuboidFacts.lai_unset _ _ E) in H.
        invert_bind H. destruct a as [x1 s1]. apply IHr in Hrun.
        invert_bind H. destruct a as [x2 s2]. apply IHh in Hrun0.
        invert_bind H.
        invert_bind H. destruct a0 as [x3 s3]. apply IHn in Hrun2.
        injection H as <- <-.
        apply extends_set_lai; [exact E |].
        eapply extends_trans; [apply Hrun |].
        eapply extends_trans; [apply Hrun0 | apply Hrun2].
    + destruct (_leaf_radius s) as [v0 |] eqn:E.
      * rewrite (CuboidFacts.leaf_radius_cached _ _ _ E) in H.
        injection H as <- <-. apply extends_refl.
      * rewrite (CuboidFacts.leaf_radius_unset _ _ E) in H.
        invert_bind H. destruct a as [x1 s1]. apply IHl in Hrun.
        invert_bind H. destruct a as [x2 s2]. apply IHn in Hrun0.
        invert_bind H.
        invert_bind H. destruct a0 as [x3 s3]. apply IHh in Hrun2.
        injection H as <- <-.
        apply extends_set_leaf_radius; [exact E |].
        eapply extends_trans; [apply Hrun |].
        eapply extends_trans; [apply Hrun0 | apply Hrun2].
    + destruct (_l_horizontal s) as [v0 |] eqn:E.
      * rewrite (CuboidFacts.l_horizontal_cached _ _ _ E) in H.
        injection H as <- <-. apply extends_refl.
      * rewrite (CuboidFacts.l_horizontal_unset _ _ E) in H.
        invert_bind H. destruct a as [x1 s1]. apply IHr in Hrun.
        invert_bind H. destruct a as [x2 s2]. apply IHn in Hrun0.
        invert_bind H. destruct a as [x3 s3]. apply IHl in Hrun1.
        invert_bind H. injection H as <- <-.
        apply extends_set_l_horizontal; [exact E |].
        eapply extends_trans; [apply Hrun |].
        eapply extends_trans; [apply Hrun0 | apply Hrun1].
Qed.

Lemma l_vertical_extends d s v s' :
  l_vertical d s = Returns (v, s') -> extends s s'.
Proof.
  intros H. unfold l_vertical in H.
  destruct (_l_vertical s) as [v0 |] eqn:E.
  - injection H as <- <-. apply extends_refl.
  - destruct d as [| d]; [discriminate |].
    destruct (properties_extend d) as [_ [IHl [IHr _]]].
    invert_bind H. destruct a as [x1 s1]. apply IHl in Hrun.
    invert_bind H.
    invert_bind H. destruct a0 as [x2 s2]. apply IHr in Hrun1.
    invert_bind H. invert_bind H. injection H as <- <-.
    apply extends_set_l_vertical; [exact E |].
    eapply extends_trans; [apply Hrun | apply Hrun1].
Qed.

Lemma init_extends env kwargs params :
  init env kwargs = Returns params -> extends kwargs params.
Proof.
  unfold init, update. generalize (recursion_limit env) as d. intros d H.
  destruct (properties_extend d) as [Hn [Hl [Hr Hh]]].
  invert_bind H. destruct a as [x1 s1].
  apply CuboidUpdate.reading_returns, Hn in Hrun.
  invert_bind H. destruct a as [x2 s2].
  apply CuboidUpdate.reading_returns, Hr in Hrun0.
  invert_bind H. destruct a as [x3 s3].
  apply CuboidUpdate.reading_returns, Hh in Hrun1.
  invert_bind H. destruct a as [x4 s4].
  apply CuboidUpdate.reading_returns, l_vertical_extends in Hrun2.
  invert_bind H. destruct a as [x5 s5].
  apply CuboidUpdate.reading_returns, Hl in Hrun3.
  injection H as <-.
  eapply extends_trans; [apply Hrun |].
  eapply extends_trans; [apply Hrun0 |].
  eapply extends_trans; [apply Hrun1 |].
  eapply extends_trans; [apply Hrun2 | apply Hrun3].
Qed.

(** The identifier plays no part in the resolution. *)
Lemma properties_with_id i d :
  (forall s v s', n_leaves d s = Returns (v, s') ->
     n_leaves d (with_id s i) = Returns (v, with_id s' i))
  /\ (forall s v s', lai d s = Returns (v, s') ->
        lai d (with_id s i) = Returns (v, with_id s' i))
  /\ (forall s v s', leaf_radius d s = Returns (v, s') ->
        leaf_radius d (with_id s i) = Returns (v, with_id s' i))
  /\ (forall s v s', l_horizontal d s = Returns (v, s') ->
        l_horizontal d (with_id s i) = Returns (v, with_id s' i)).
Proof.
  induction d as [| d [IHn [IHl [IHr IHh]]]].
  - split; [| split; [| split]]; intros s v s' H; simpl in H |- *;
      match type of H with
      | match ?f s with _ => _ end = _ => destruct (f s) eqn:E
      end; try discriminate; injection H as <- <-; reflexivity.
  - split; [| split; [| split]]; intros s v s' H.
    + destruct (_n_leaves s) as [v0 |] eqn:E.
      * rewrite (CuboidFacts.n_leaves_cached _ _ _ E) in H.
        injection H as <- <-. apply CuboidFacts.n_leaves_cached. exact E.
      * rewrite (CuboidFacts.n_leaves_unset _ _ E) in H.
        rewrite (CuboidFacts.n_leaves_unset d (with_id s i) E).
        invert_bind H. destruct a as [x1 s1].
        rewrite (IHl _ _ _ Hrun). cbn [bind].
        invert_bind H. destruct a as [x2 s2].
        rewrite (IHh _ _ _ Hrun0). cbn [bind].
        invert_bind H. destruct a as [x3 s3].
        rewrite (IHr _ _ _ Hrun1). cbn [bind].
        invert_bind H. rewrite Hrun2. cbn [bind].
        injection H as <- <-. reflexivity.
    + destruct (_lai s) as [v0 |] eqn:E.
      * rewrite (CuboidFacts.lai_cached _ _ _ E) in H.
        injection H as <- <-. apply CuboidFacts.lai_cached. exact E.
      * rewrite (CuboidFacts.lai_unset _ _ E) in H.
        rewrite (CuboidFacts.lai_unset d (with_id s i) E).
        invert_bind H. destruct a as [x1 s1].
        rewrite (IHr _ _ _ Hrun). cbn [bind].
        invert_bind H. destruct a as [x2 s2].
        rewrite (IHh _ _ _ Hrun0). cbn [bind].
        invert_bind H. rewrite Hrun1. cbn [bind].
        invert_bind H. destruct a0 as [x3 s3].
        rewrite (IHn _ _ _ Hrun2). cbn [bind].
        injection H as <- <-. reflexivity.
    + destruct (_leaf_radius s) as [v0 |] eqn:E.
      * rewrite (CuboidFacts.leaf_radius_cached _ _ _ E) in H.
        injection H as <- <-. apply CuboidFacts.leaf_radius_cached. exact E.
      * rewrite (CuboidFacts.leaf_radius_unset _ _ E) in H.
        rewrite (CuboidFacts.leaf_radius_unset d (with_id s i) E).
        invert_bind H. destruct a as [x1 s1].
        rewrite (IHl _ _ _ Hrun). cbn [bind].
        invert_bind H. destruct a as [x2 s2].
        rewrite (IHn _ _ _ Hrun0). cbn [bind].
        invert_bind H. rewrite Hrun1. cbn [bind].
        invert_bind H. destruct a0 as [x3 s3].
        rewrite (IHh _ _ _ Hrun2). cbn [bind].
        injection H as <- <-. reflexivity.
    + destruct (_l_horizontal s) as [v0 |] eqn:E.
      * rewrite (CuboidFacts.l_horizontal_cached _ _ _ E) in H.
        injection H as <- <-. apply CuboidFacts.l_horizontal_cached. exact E.
      * rewrite (CuboidFacts.l_horizontal_unset _ _ E) in H.
        rewrite (CuboidFacts.l_horizontal_unset d (with_id s i) E).
        invert_bind H. destruct a as [x1 s1].
        rewrite (IHr _ _ _ Hrun). cbn [bind].
        invert_bind H. destruct a as [x2 s2].
        rewrite (IHn _ _ _ Hrun0). cbn [bind].
        invert_bind H. destruct a as [x3 s3].
        rewrite (IHl _ _ _ Hrun1). cbn [bind].
        invert_bind H. rewrite Hrun2. cbn [bind].
        injection H as <- <-. reflexivity.
Qed.

Lemma l_vertical_with_id i d s v s' :
  l_vertical d s = Returns (v, s') ->
  l_vertical d (with_id s i) = Returns (v, with_id s' i).
Proof.
  intros H. unfold l_vertical in H |- *.
  change (_l_vertical (with_id s i)) with (_l_vertical s).
  destruct (_l_vertical s) as [v0 |] eqn:E.
  - injection H as <- <-. reflexivity.
  - destruct d as [| d]; [discriminate |].
    destruct (properties_with_id i d) as [_ [IHl [IHr _]]].
    invert_bind H. destruct a as [x1 s1].
    rewrite (IHl _ _ _ Hrun). cbn [bind].
    invert_bind H. change (hdo (with_id s1 i)) with (hdo s1).
    rewrite Hrun0. cbn [bind].
    invert_bind H. destruct a0 as [x2 s2].
    rewrite (IHr _ _ _ Hrun1). cbn [bind].
    invert_bind H. change (hvr (with_id s2 i)) with (hvr s2).
    rewrite Hrun2. cbn [bind].
    invert_bind H. rewrite Hrun3. cbn [bind].
    injection H as <- <-. reflexivity.
Qed.

Lemma init_with_id env i kwargs params :
  init env kwargs = Returns params ->
  init env (with_id kwargs i) = Returns (with_id params i).
Proof.
  unfold init, update. generalize (recursion_limit env) as d. intros d H.
  destruct (properties_with_id i d) as [Hn [Hl [Hr Hh]]].
  invert_bind H. destruct a as [x1 s1].
  apply CuboidUpdate.reading_returns in Hrun.
  rewrite (Hn _ _ _ Hrun). cbn [reading bind].
  invert_bind H. destruct a as [x2 s2].
  apply CuboidUpdate.reading_returns in Hrun0.
  rewrite (Hr _ _ _ Hrun0). cbn [reading bind].
  invert_bind H. destruct a as [x3 s3].
  apply CuboidUpdate.reading_returns in Hrun1.
  rewrite (Hh _ _ _ Hrun1). cbn [reading bind].
  invert_bind H. destruct a as [x4 s4].
  apply CuboidUpdate.reading_returns in Hrun2.
  rewrite (l_vertical_with_id i _ _ _ _ Hrun2). cbn [reading bind].
  invert_bind H. destruct a as [x5 s5].
  apply CuboidUpdate.reading_returns in Hrun3.
  rewrite (Hl _ _ _ Hrun3). cbn [reading bind].
  injection H as <-. reflexivity.
Qed.

End CuboidExtends.

(** X19.  The constructor of the cuboid parameters only fills in: when
    it returns, the identifier, the reflectance, the transmittance, the
    orientation parameters and the two leaf distances are those given,
    and each of the leaf count, the leaf radius, the two extents and the
    leaf area index that was given holds the value given. *)
Theorem constructor_keeps_given_values :
  forall (env : environment) (kwargs params : CuboidLeafCloudParams.t),
    CuboidLeafCloudParams.init env kwargs = Returns params ->
    extends kwargs params.
Proof.
  intros env kwargs params H.
  exact (CuboidExtends.init_extends env kwargs params H).
Qed.

Lemma constructor_keeps_given_values_witness :
  extends lai_hdo_hvr_params
    (CuboidLeafCloudParams.set_l_vertical
       (CuboidLeafCloudParams.set_n_leaves lai_hdo_hvr_params
          (py_int (PI * (1 / 1) ^ 2 / PI)))
       (PI * 1 ^ 3 / (PI * 1 ^ 2 * 1))).
Proof.
  apply (constructor_keeps_given_values sample_environment).
  apply (lai_hdo_hvr_resolution sample_environment lai_hdo_hvr_params
           PI 1 1 1 1); try reflexivity; try lra.
  simpl. lia.
Defined.

(** ** Where the cuboid constructor puts the leaves *)

Lemma plain_sampler_in_cuboid n lh lv rng rng' ps :
  unit_draws rng -> 0 <= lh -> 0 <= lv ->
  _leaf_cloud_positions_cuboid (PyInt n) (PyQuantity lh) (PyQuantity lv) rng
  = Returns (ps, rng') ->
  Forall (in_cuboid lh lv) ps.
Proof.
  intros Hd Hlh Hlv H.
  unfold _leaf_cloud_positions_cuboid in H. cbn [wraps_arg bind] in H.
  invert_bind H. apply np_empty_rows_returns in Hrun.
  destruct Hrun as [z [Ez [_ ->]]]. injection Ez as <-.
  pose proof (cuboid_loop_length (Z.to_nat n) lh lv rng) as Hlen.
  pose proof (cuboid_loop_rows (Z.to_nat n) lh lv rng) as [Hrows _].
  injection H as E. rewrite E in Hlen, Hrows. cbn [fst] in Hlen, Hrows.
  apply Forall_forall. intros p Hp.
  apply In_nth_error in Hp. destruct Hp as [i Hi].
  assert (Hlt : (i < Z.to_nat n)%nat)
    by (rewrite <- Hlen; apply nth_error_Some; congruence).
  rewrite (Hrows i Hlt) in Hi. injection Hi as <-.
  apply cuboid_point_in_cuboid; try assumption; apply Hd.
Qed.

Lemma avoiding_sampler_in_cuboid n lh lv r n_attempts rng rng' ps :
  unit_draws rng -> 0 <= lh -> 0 <= lv ->
  _leaf_cloud_positions_cuboid_avoid_overlap
    (PyInt n) (PyQuantity lh) (PyQuantity lv) (PyQuantity r) n_attempts rng
  = Returns (ps, rng') ->
  Forall (in_cuboid lh lv) ps.
Proof.
  intros Hd Hlh Hlv H.
  unfold _leaf_cloud_positions_cuboid_avoid_overlap in H.
  cbn [wraps_arg bind] in H. invert_bind H. invert_bind H.
  injection H as <- _.
  apply (place_leaves_in_cuboid a 0 n_attempts lh lv r
           (mkPlacer [] aabbtree.empty rng) a0 Hd Hlh Hlv
           (Forall_nil _) Hrun0).
Qed.

(** The positions of the leaf cloud returned by the cuboid constructor. *)
Lemma cuboid_positions env fuel seed avoid_overlap n_attempts kwargs lc
  params lh lv :
  LeafCloud.cuboid env fuel seed avoid_overlap n_attempts kwargs = Returns lc ->
  CuboidLeafCloudParams.init env kwargs = Returns params ->
  CuboidLeafCloudParams._l_horizontal params = Some lh ->
  CuboidLeafCloudParams._l_vertical params = Some lv ->
  unit_draws (default_rng env seed) -> 0 <= lh -> 0 <= lv ->
  Forall (in_cuboid lh lv) (LeafCloud.leaf_positions lc).
Proof.
  intros H Hinit Eh Ev Hd Hlh Hlv.
  unfold LeafCloud.cuboid in H. rewrite Hinit in H. cbn [bind] in H.
  pose proof (CuboidUpdate.init_resolved _ _ _ Hinit) as [Rn [Rr _]].
  destruct (CuboidLeafCloudParams._n_leaves params) as [n |] eqn:En;
    [| contradiction].
  destruct (CuboidLeafCloudParams._leaf_radius params) as [r |] eqn:Er;
    [| contradiction].
  invert_bind H. destruct a as [[ps rng1] params1].
  assert (Hps : params1 = params /\ Forall (in_cuboid lh lv) ps).
  { destruct avoid_overlap.
    - rewrite (CuboidFacts.n_leaves_cached _ _ _ En) in Hrun. cbn [bind] in Hrun.
      rewrite (CuboidFacts.l_horizontal_cached _ _ _ Eh) in Hrun.
      cbn [bind] in Hrun.
      rewrite (CuboidFacts.l_vertical_cached _ _ _ Ev) in Hrun.
      cbn [bind] in Hrun.
      rewrite (CuboidFacts.leaf_radius_cached _ _ _ Er) in Hrun.
      cbn [bind] in Hrun.
      invert_bind Hrun. destruct a as [ps' rng'].
      injection Hrun as <- <- <-.
      split; [reflexivity |].
      eapply avoiding_sampler_in_cuboid; eassumption.
    - rewrite (CuboidFacts.n_leaves_cached _ _ _ En) in Hrun. cbn [bind] in Hrun.
      rewrite (CuboidFacts.l_horizontal_cached _ _ _ Eh) in Hrun.
      cbn [bind] in Hrun.
      rewrite (CuboidFacts.l_vertical_cached _ _ _ Ev) in Hrun.
      cbn [bind] in Hrun.
      invert_bind Hrun. destruct a as [ps' rng'].
      injection Hrun as <- <- <-.
      split; [reflexivity |].
      eapply plain_sampler_in_cuboid; eassumption. }
  destruct Hps as [-> Hps].
  rewrite (CuboidFacts.n_leaves_cached _ _ _ En) in H. cbn [bind] in H.
  invert_bind H. destruct a as [os rng2].
  rewrite (CuboidFacts.n_leaves_cached _ _ _ En) in H. cbn [bind] in H.
  rewrite (CuboidFacts.leaf_radius_cached _ _ _ Er) in H. cbn [bind] in H.
  invert_bind H. rename a into rs.
  apply init_returns in H. destruct H as [_ [_ [_ ->]]]. cbn. exact Hps.
Qed.

(** X20.  The cuboid constructor, with or without collision avoidance,
    puts every leaf in the cuboid that its resolved parameters describe:
    on a generator that draws in [[0, 1)], and with resolved extents
    [l_h] and [l_v] that are not negative, every leaf position of the
    cloud returned lies in
    [[-l_h/2, l_h/2] x [-l_h/2, l_h/2] x [0, l_v]]. *)
Theorem cuboid_constructor_fills_the_cuboid :
  forall (env : environment) (fuel : nat) (seed : Z) (avoid_overlap : bool)
         (n_attempts : option Z) (kwargs params : CuboidLeafCloudParams.t)
         (lc : LeafCloud.t) (l_horizontal l_vertical : R),
    LeafCloud.cuboid env fuel seed avoid_overlap n_attempts kwargs
    = Returns lc ->
    CuboidLeafCloudParams.init env kwargs = Returns params ->
    CuboidLeafCloudParams._l_horizontal params = Some l_horizontal ->
    CuboidLeafCloudParams._l_vertical params = Some l_vertical ->
    unit_draws (default_rng env seed) ->
    0 <= l_horizontal -> 0 <= l_vertical ->
    Forall (in_cuboid l_horizontal l_vertical) (LeafCloud.leaf_positions lc).
Proof.
  intros env fuel seed avoid_overlap n_attempts kwargs params lc lh lv
         H Hinit Eh Ev Hd Hlh Hlv.
  exact (cuboid_positions env fuel seed avoid_overlap n_attempts kwargs lc
           params lh lv H Hinit Eh Ev Hd Hlh Hlv).
Qed.

Lemma sample_cuboid_run :
  exists lc,
    LeafCloud.cuboid sample_environment 1 12345 false None
      one_leaf_cuboid_params = Returns lc.
Proof.
  eexists. unfold LeafCloud.cuboid, one_leaf_cuboid_params.
  unfold CuboidLeafCloudParams.init, CuboidLeafCloudParams.update.
  simpl. run_generator. reflexivity.
Defined.

Lemma cuboid_constructor_fills_the_cuboid_witness :
  exists lc,
    LeafCloud.cuboid sample_environment 1 12345 false None
      one_leaf_cuboid_params = Returns lc
    /\ Forall (in_cuboid 1 1) (LeafCloud.leaf_positions lc).
Proof.
  destruct sample_cuboid_run as [lc H]. exists lc. split; [exact H |].
  apply (cuboid_constructor_fills_the_cuboid sample_environment 1 12345 false
           None one_leaf_cuboid_params one_leaf_cuboid_params lc 1 1 H).
  - apply init_fully_specified. unfold resolved. simpl.
    repeat split; discriminate.
  - reflexivity.
  - reflexivity.
  - apply unit_draws_constant. lra.
  - lra.
  - lra.
Defined.

(** ** The homogeneous canopy *)

(** The canopy returned by [homogeneous]. *)
Lemma homogeneous_returns env fuel id kwargs c :
  DiscreteCanopy.homogeneous env fuel id kwargs = Returns c ->
  exists params n lh lv lc,
    CuboidLeafCloudParams.init env kwargs = Returns params
    /\ CuboidLeafCloudParams._n_leaves params = Some n
    /\ CuboidLeafCloudParams._l_horizontal params = Some lh
    /\ CuboidLeafCloudParams._l_vertical params = Some lv
    /\ LeafCloud.cuboid env fuel 12345 false None
         (CuboidLeafCloudParams.with_id kwargs (id ++ "_leaf_cloud")%string)
       = Returns lc
    /\ c = DiscreteCanopy.mk id (lh, lh, lv)
             [InstancedCanopyElement.mk (leaf_cloud_element lc) [(0, 0, 0)]]
    /\ LeafCloud.id lc = (id ++ "_leaf_cloud")%string
    /\ List.length (LeafCloud.leaf_positions lc) = Z.to_nat n
    /\ (unit_draws (default_rng env 12345) -> 0 <= lh -> 0 <= lv ->
        Forall (in_cuboid lh lv) (LeafCloud.leaf_positions lc)).
Proof.
  intros H. unfold DiscreteCanopy.homogeneous in H.
  invert_bind H. rename a into params. rename Hrun into Hinit.
  pose proof (CuboidUpdate.init_resolved _ _ _ Hinit) as [Rn [_ [Rh [Rv _]]]].
  destruct (CuboidLeafCloudParams._n_leaves params) as [n |] eqn:En;
    [| contradiction].
  destruct (CuboidLeafCloudParams._l_horizontal params) as [lh |] eqn:Eh;
    [| contradiction].
  destruct (CuboidLeafCloudParams._l_vertical params) as [lv |] eqn:Ev;
    [| contradiction].
  rewrite (CuboidFacts.l_horizontal_cached _ _ _ Eh) in H. cbn [bind] in H.
  rewrite (CuboidFacts.l_horizontal_cached _ _ _ Eh) in H. cbn [bind] in H.
  rewrite (CuboidFacts.l_vertical_cached _ _ _ Ev) in H. cbn [bind] in H.
  invert_bind H. rename a into lc. injection H as <-.
  pose proof (CuboidExtends.init_with_id env (id ++ "_leaf_cloud")%string
                kwargs params Hinit) as Hinit'.
  destruct (cuboid_returns _ _ _ _ _ _ _ Hrun)
    as [params' [n' [r [Hinit'' [En' [_ [Hlen [_ [_ [_ Hid]]]]]]]]]].
  rewrite Hinit' in Hinit''. injection Hinit'' as <-.
  cbn in En', Hid. rewrite En in En'. injection En' as <-.
  exists params, n, lh, lv, lc.
  split; [exact Hinit |]. split; [exact En |]. split; [exact Eh |].
  split; [exact Ev |]. split; [exact Hrun |]. split; [reflexivity |].
  split; [exact Hid |]. split; [exact Hlen |].
  intros Hd Hlh Hlv.
  apply (cuboid_positions env fuel 12345 false None
           (CuboidLeafCloudParams.with_id kwargs (id ++ "_leaf_cloud")%string)
           lc (CuboidLeafCloudParams.with_id params (id ++ "_leaf_cloud")%string)
           lh lv Hrun Hinit' Eh Ev Hd Hlh Hlv).
Qed.

(** X21.  A canopy returned by [homogeneous] bears the identifier given,
    its size is the resolved horizontal extent twice and the resolved
    vertical extent of the keyword arguments, and it holds one instanced
    element: the generated cuboid leaf cloud, whose identifier is the
    canopy identifier followed by [_leaf_cloud] and whose leaf count is
    the resolved one, instanced once at the origin. *)
Theorem homogeneous_canopy_holds_one_leaf_cloud :
  forall (env : environment) (fuel : nat) (id : string)
         (kwargs : CuboidLeafCloudParams.t) (c : DiscreteCanopy.t),
    DiscreteCanopy.homogeneous env fuel id kwargs = Returns c ->
    exists params n lh lv lc,
      CuboidLeafCloudParams.init env kwargs = Returns params
      /\ CuboidLeafCloudParams._n_leaves params = Some n
      /\ CuboidLeafCloudParams._l_horizontal params = Some lh
      /\ CuboidLeafCloudParams._l_vertical params = Some lv
      /\ c = DiscreteCanopy.mk id (lh, lh, lv)
               [InstancedCanopyElement.mk (leaf_cloud_element lc) [(0, 0, 0)]]
      /\ LeafCloud.id lc = (id ++ "_leaf_cloud")%string
      /\ List.length (LeafCloud.leaf_positions lc) = Z.to_nat n.
Proof.
  intros env fuel id kwargs c H.
  destruct (homogeneous_returns env fuel id kwargs c H)
    as [params [n [lh [lv [lc [H1 [H2 [H3 [H4 [_ [H5 [H6 [H7 _]]]]]]]]]]]]].
  exists params, n, lh, lv, lc. repeat split; assumption.
Qed.

Lemma sample_homogeneous_run :
  exists c,
    DiscreteCanopy.homogeneous sample_environment 1 "canopy"
      one_leaf_cuboid_params = Returns c.
Proof.
  eexists. unfold DiscreteCanopy.homogeneous, LeafCloud.cuboid,
    one_leaf_cuboid_params.
  unfold CuboidLeafCloudParams.init, CuboidLeafCloudParams.update.
  simpl. run_generator. reflexivity.
Defined.

Lemma homogeneous_canopy_holds_one_leaf_cloud_witness :
  exists c,
    DiscreteCanopy.homogeneous sample_environment 1 "canopy"
      one_leaf_cuboid_params = Returns c
    /\ exists lh lv lc,
         c = DiscreteCanopy.mk "canopy" (lh, lh, lv)
               [InstancedCanopyElement.mk (leaf_cloud_element lc) [(0, 0, 0)]]
         /\ LeafCloud.id lc = "canopy_leaf_cloud"%string.
Proof.
  destruct sample_homogeneous_run as [c H]. exists c. split; [exact H |].
  destruct (homogeneous_canopy_holds_one_leaf_cloud sample_environment 1
              "canopy" one_leaf_cuboid_params c H)
    as [params [n [lh [lv [lc [_ [_ [_ [_ [Hc [Hid _]]]]]]]]]]].
  exists lh, lv, lc. split; [exact Hc | exact Hid].
Defined.

(** X22.  The leaves of a homogeneous canopy stand inside the canopy: on
    a generator that draws in [[0, 1)], when [homogeneous] returns a
    canopy of size [(s_x, s_y, s_z)] with [s_x] and [s_z] not negative,
    every leaf position of the leaf cloud of its element lies in
    [[-s_x/2, s_x/2] x [-s_x/2, s_x/2] x [0, s_z]], and [s_y = s_x]. *)
Theorem homogeneous_leaves_stand_in_the_canopy :
  forall (env : environment) (fuel : nat) (id : string)
         (kwargs : CuboidLeafCloudParams.t) (c : DiscreteCanopy.t)
         (size_x size_y size_z : R),
    DiscreteCanopy.homogeneous env fuel id kwargs = Returns c ->
    DiscreteCanopy.size c = (size_x, size_y, size_z) ->
    unit_draws (default_rng env 12345) ->
    0 <= size_x -> 0 <= size_z ->
    size_y = size_x
    /\ exists lc,
         DiscreteCanopy.instanced_canopy_elements c
         = [InstancedCanopyElement.mk (leaf_cloud_element lc) [(0, 0, 0)]]
         /\ Forall (in_cuboid size_x size_z) (LeafCloud.leaf_positions lc).
Proof.
  intros env fuel id kwargs c sx sy sz H Hsize Hd Hx Hz.
  destruct (homogeneous_returns env fuel id kwargs c H)
    as [params [n [lh [lv [lc [_ [_ [_ [_ [_ [Hc [_ [_ Hin]]]]]]]]]]]]].
  subst c. cbn in Hsize. injection Hsize as <- <- <-.
  split; [reflexivity |]. exists lc. split; [reflexivity |].
  apply Hin; assumption.
Qed.

Lemma homogeneous_leaves_stand_in_the_canopy_witness :
  exists c lc,
    DiscreteCanopy.homogeneous sample_environment 1 "canopy"
      one_leaf_cuboid_params = Returns c
    /\ DiscreteCanopy.instanced_canopy_elements c
       = [InstancedCanopyElement.mk (leaf_cloud_element lc) [(0, 0, 0)]]
    /\ Forall (in_cuboid 1 1) (LeafCloud.leaf_positions lc).
Proof.
  destruct sample_homogeneous_run as [c H].
  assert (Hsize : DiscreteCanopy.size c = (1, 1, 1)).
  { destruct (homogeneous_returns sample_environment 1 "canopy"
                one_leaf_cuboid_params c H)
      as [params [n [lh [lv [lc [Hinit [_ [Eh [Ev [_ [Hc _]]]]]]]]]]].
    rewrite init_fully_specified in Hinit
      by (unfold resolved; simpl; repeat split; discriminate).
    injection Hinit as <-. simpl in Eh, Ev.
    injection Eh as <-. injection Ev as <-. subst c. reflexivity. }
  destruct (homogeneous_leaves_stand_in_the_canopy sample_environment 1
              "canopy" one_leaf_cuboid_params c 1 1 1 H Hsize)
    as [_ [lc [Hel Hin]]].
  - apply unit_draws_constant. lra.
  - lra.
  - lra.
  - exists c, lc. split; [exact H | split; [exact Hel | exact Hin]].
Defined.

(** ** More on padding *)

Lemma Forall2_same {A : Type} (P : A -> A -> Prop) (l : list A) :
  (forall x, P x x) -> Forall2 P l l.
Proof. intros HP. induction l; constructor; auto. Qed.

Lemma vec3_add_zero_offset pos k sx sy :
  vec3_add pos (IZR (k - k) * sx, IZR (k - k) * sy, 0) = pos.
Proof.
  destruct pos as [[x y] z]. unfold vec3_add.
  rewrite Z.sub_diag. f_equal; [f_equal |]; lra.
Qed.

(** X23.  Padding a canopy whose listed elements are objects of their
    own leaves the original instances where they are: when [padded p]
    returns, with [p >= 0], an element that had [n] instance positions
    has every one of them again, unmoved, at the index
    [(p * (2p+1) + p) * n + m] for the original index [m], which is its
    place in the slice of the offset factors [(0, 0)]. *)
Theorem padding_keeps_the_original_instances :
  forall (c : DiscreteCanopy.t) (s' : DiscreteCanopy.stored) (p : Z),
    (0 <= p)%Z ->
    DiscreteCanopy.padded (DiscreteCanopy.fresh c) p = Returns s' ->
    Forall2
      (fun e e' =>
         forall m pos,
           nth_error (InstancedCanopyElement.instance_positions e) m = Some pos ->
           nth_error (InstancedCanopyElement.instance_positions e')
             (central_index p
                (List.length (InstancedCanopyElement.instance_positions e)) m)
           = Some pos)
      (DiscreteCanopy.instanced_canopy_elements c)
      (DiscreteCanopy.instanced_canopy_elements (DiscreteCanopy.content s')).
Proof.
  intros c s' p Hp H.
  destruct (Z.eq_dec p 0) as [-> | Hne].
  - change (DiscreteCanopy.padded (DiscreteCanopy.fresh c) 0)
      with (Returns (DiscreteCanopy.fresh c)) in H.
    injection H as <-. rewrite content_fresh.
    apply Forall2_same. intros e m pos Hm.
    unfold central_index. simpl. exact Hm.
  - destruct (DiscreteCanopy.size c) as [[sx sy] sz] eqn:Hsize.
    destruct (padded_fresh c p sx sy sz Hsize ltac:(lia))
      as [[_ Hrun] | [_ Hrun]]; rewrite Hrun in H; [| discriminate].
    injection H as <-. rewrite content_fresh.
    cbn [DiscreteCanopy.instanced_canopy_elements]. clear Hrun.
    induction (DiscreteCanopy.instanced_canopy_elements c) as [| e es IH];
      cbn [map]; constructor; [| exact IH].
    intros m pos Hm. unfold replicated.
    cbn [InstancedCanopyElement.instance_positions rows_of].
    rewrite new_instance_positions_padded. unfold central_index.
    rewrite (padded_positions_slice p sx sy _ (Z.to_nat p) (Z.to_nat p) m pos)
      by (try lia; exact Hm).
    rewrite Z2Nat.id by lia. rewrite vec3_add_zero_offset. reflexivity.
Qed.

Lemma padding_keeps_the_original_instances_witness :
  exists s',
    DiscreteCanopy.padded (DiscreteCanopy.fresh sample_canopy) 1 = Returns s'
    /\ Forall2
         (fun e e' =>
            forall m pos,
              nth_error (InstancedCanopyElement.instance_positions e) m
              = Some pos ->
              nth_error (InstancedCanopyElement.instance_positions e')
                (central_index 1
                   (List.length (InstancedCanopyElement.instance_positions e)) m)
              = Some pos)
         (DiscreteCanopy.instanced_canopy_elements sample_canopy)
         (DiscreteCanopy.instanced_canopy_elements
            (DiscreteCanopy.content s')).
Proof.
  eexists. split; [reflexivity |].
  apply (padding_keeps_the_original_instances sample_canopy _ 1);
    [lia | reflexivity].
Defined.

(** ** More on the orientation sampler *)

Lemma fraction_of_sum s1 s2 :
  0 <= s1 -> 0 <= s2 -> s1 + s2 <> 0 -> 0 <= s1 / (s1 + s2) <= 1.
Proof.
  intros H1 H2 Hne. assert (Hs : 0 < s1 + s2) by lra.
  split.
  - apply Rmult_le_pos; [assumption |].
    apply Rlt_le, Rinv_0_lt_compat; assumption.
  - apply (Rmult_le_reg_r (s1 + s2)); [assumption |].
    unfold Rdiv. rewrite Rmult_assoc, Rinv_l by lra. lra.
Qed.

Lemma Reqb_false_inv x y : Reqb x y = false -> x <> y.
Proof. unfold Reqb. destruct (Req_dec_T x y); [discriminate | auto]. Qed.

Lemma inversebeta_returns env fuel : forall mu nu rng x rng',
  (forall u y s, 0 <= u -> float_power env u y = finite s -> 0 <= s) ->
  unit_draws rng ->
  _inversebeta env fuel mu nu rng = Returns (x, rng') ->
  0 <= x <= 1
  /\ exists k, (1 <= k <= fuel)%nat /\ rng' = advance (2 * k) rng.
Proof.
  induction fuel as [| fuel IH]; intros mu nu rng x rng' Hpow Hd H;
    [discriminate |].
  assert (Hnext : forall x rng',
            _inversebeta env fuel mu nu (advance 2 rng) = Returns (x, rng') ->
            0 <= x <= 1
            /\ exists k, (1 <= k <= S fuel)%nat
                         /\ rng' = advance (2 * k) rng).
  { intros x0 rng0 H0.
    destruct (IH mu nu (advance 2 rng) x0 rng0 Hpow
                (unit_draws_advance 2 rng Hd) H0) as [Hx [k [Hk ->]]].
    split; [exact Hx |].
    exists (S k). split; [lia |].
    rewrite advance_advance. f_equal. lia. }
  cbn [_inversebeta] in H. unfold random2 in H. cbv iota beta in H.
  invert_bind H. invert_bind H.
  destruct (float_power env (draws rng (cursor rng)) a) as [s1 |] eqn:E1;
    [| apply Hnext; exact H].
  destruct (float_power env (draws rng (cursor rng + 1)) a0) as [s2 |] eqn:E2;
    [| apply Hnext; exact H].
  cbv zeta in H.
  destruct (Rleb (s1 + s2) 1); [| apply Hnext; exact H].
  destruct (Reqb (s1 + s2) 0) eqn:E0; [discriminate |].
  injection H as <- <-. split.
  - apply fraction_of_sum.
    + apply (Hpow _ _ _ (proj1 (Hd _)) E1).
    + apply (Hpow _ _ _ (proj1 (Hd _)) E2).
    + apply Reqb_false_inv. exact E0.
  - exists 1%nat. split; [lia | reflexivity].
Qed.

(** X24.  When the inverse-beta sampler returns a number, on a generator
    that draws in [[0, 1)] and with a float power that is not negative
    on such draws, the number lies in [[0, 1]] and the generator has
    given two numbers per attempt: it is left [2k] draws further, for an
    attempt count [k] of at least 1.  The sampler returns no number when
    the two powers of an accepted attempt are both [0.0]: the quotient
    is then NaN. *)
Theorem inversebeta_returns_a_fraction :
  forall (env : environment) (fuel : nat) (mu nu : R) (rng rng' : Generator)
         (x : R),
    (forall u y s, 0 <= u -> float_power env u y = finite s -> 0 <= s) ->
    unit_draws rng ->
    _inversebeta env fuel mu nu rng = Returns (x, rng') ->
    0 <= x <= 1
    /\ exists k, (1 <= k <= fuel)%nat /\ rng' = advance (2 * k) rng.
Proof.
  intros env fuel mu nu rng rng' x Hpow Hd H.
  exact (inversebeta_returns env fuel mu nu rng x rng' Hpow Hd H).
Qed.

Lemma exact_power_not_negative u y s :
  0 <= u -> exact_power u y = finite s -> 0 <= s.
Proof.
  intros Hu. unfold exact_power.
  destruct (Reqb u 0).
  - destruct (Reqb y 0); [intros E; injection E as <-; lra |].
    destruct (Rltb y 0); [discriminate | intros E; injection E as <-; lra].
  - intros E. injection E as <-. unfold Rpower. apply Rlt_le, exp_pos.
Qed.

Lemma inversebeta_returns_a_fraction_witness :
  0 <= 1 / 4 / (1 / 4 + 1 / 4) <= 1.
Proof.
  apply (inversebeta_returns_a_fraction sample_environment 1 1 1
           (constant_generator (1 / 4))
           (advance 2 (constant_generator (1 / 4)))).
  - intros u y s. apply exact_power_not_negative.
  - apply unit_draws_constant. lra.
  - simpl. run_inversebeta. reflexivity.
Defined.

(** ** The sphere constructor *)

(** X25.  The sphere constructor never returns a leaf cloud: it calls
    the position sampler with the radius where the leaf count is
    declared and the leaf count where the radius is declared, the strict
    unit wrapper of the sampler refuses the leaf count, which is no
    quantity, and the constructor raises [ValueError] for every
    environment, seed and keyword arguments. *)
Theorem sphere_generator_raises :
  forall (env : environment) (fuel : nat) (seed : Z)
         (kwargs : SphereLeafCloudParams.t),
    LeafCloud.sphere env fuel seed kwargs
    = Raises (ValueError msg_wraps_requires_quantity).
Proof.
  intros env fuel seed kwargs.
  exact (sphere_raises env fuel seed kwargs).
Qed.
